(** * SIANA inspection robot: motor drive, safety manager and command router

    A shallow embedding of [hardware/motors.py], [hardware/leds.py],
    [hardware/sensors.py] (the obstacle readings, the scan loop and the
    battery monitor), [control/safety.py], [control/navigation.py] and what
    [server/api.py] does to the robot, followed by the properties of the
    control core.

    Conventions of the embedding.
    - Python numbers (ints and floats alike) are exact rationals [Q]; [==] is
      equality of rationals.  This leaves IEEE rounding out, and one place of
      the code shows it: the heading update [(h + delta) % 360], which on
      floats can give 360.0 itself.  [Binary64] models that update on
      binary64 numbers, and the statements about the heading over [Q] bound
      it by the closed interval.
    - [str.lower] and [str.strip] are the interpreter's, over Unicode text;
      the router takes them as a parameter ([StrMethods]), and [ascii_str]
      is what they do on ASCII text.
    - Every object lives once in the [System] record, so the motor and LED
      controllers that the safety manager and the navigation controller both
      hold are one shared store, as in [main.build_robot].
    - A background loop is modelled by its body, one iteration per call; a
      call of [time.time()] is an argument [now].
    - Calls to [logger] have no effect on the state and are left out.
    - The GPIO backend is taken to be present, so pins are driven and flashes
      are started. *)

From Stdlib Require Import QArith Qabs Qround ZArith Ascii String List Lia Lqa Bool.
From Stdlib Require Import Floats.
From stdpp Require Import base gmap strings.
Import ListNotations.

Open Scope string_scope.
Open Scope Q_scope.

(** ** Python arithmetic on rationals *)

Definition Qltb (x y : Q) : bool := negb (Qle_bool y x).

(** [max(a, b)] returns [b] only when [b > a]; [min(a, b)] returns [b] only
    when [b < a]. *)
Definition py_max (a b : Q) : Q := if Qltb a b then b else a.
Definition py_min (a b : Q) : Q := if Qltb b a then b else a.

(** [x % m] for a positive [m], as a real number: the result has the sign of
    [m] and lies in [0, m).  On floats the result is rounded, and for a tiny
    negative [x] it is [m] itself (see [Binary64.float_rem]). *)
Definition py_mod (x m : Q) : Q := x - m * inject_Z (Qfloor (x / m)).

(** [round(x, ndigits)]: nearest multiple of [10^-ndigits], ties to even. *)
Definition round_half_even (y : Q) : Z :=
  let f := Qfloor y in
  let d := y - inject_Z f in
  if Qltb d (1 # 2) then f
  else if Qltb (1 # 2) d then (f + 1)%Z
  else if Z.even f then f else (f + 1)%Z.

Definition py_round (x : Q) (ndigits : nat) : Q :=
  let p := inject_Z (10 ^ Z.of_nat ndigits) in
  inject_Z (round_half_even (x * p)) / p.

(** [math.pi] is the double 0x1.921fb54442d18p+1, an exact rational. *)
Definition math_pi : Q := 884279719003555 # 281474976710656.

(** [math.degrees(x)] is [x * (180.0 / pi)]. *)
Definition math_degrees (x : Q) : Q := x * (180 / math_pi).

(** ** config.py *)

Module cfg.
Definition ENCODER_TICKS_PER_REV : Z := 360.
Definition WHEEL_DIAMETER_MM : Z := 120.
Definition WHEEL_BASE_MM : Z := 450.
Definition US_MIN_DISTANCE_CM : Q := 15.
Definition US_WARNING_DISTANCE_CM : Q := 40.
Definition LED_LIGHTING_DEFAULT : Q := 80.
Definition SPEED_MIN_PERCENT : Q := 20.
Definition SPEED_MAX_PERCENT : Q := 100.
Definition SPEED_DEFAULT : Q := 60.
Definition TURN_SPEED_FACTOR : Q := 7 # 10.
Definition RAMP_STEP : Q := 5.
Definition RAMP_INTERVAL_MS : Q := 30.
Definition BATTERY_NOMINAL_V : Q := 24.
Definition BATTERY_MIN_V : Q := 20.
Definition BATTERY_MAX_V : Q := 294 # 10.
Definition BATTERY_LOW_THRESHOLD : Q := 15.
End cfg.

(** ** hardware/motors.py: one H-bridge channel

    The two direction lines and the PWM duty are the outputs the channel
    drives when the GPIO backend is present. *)

Module MotorChannel.

Record t := mk {
  inverted : bool;
  _speed : Q;
  duty : Q;
  in1 : bool;
  in2 : bool
}.

Definition init (inv : bool) : t := mk inv 0 0 false false.

(** [PWMChannel.set_duty] *)
Definition set_duty (d : Q) (c : t) : t :=
  mk (inverted c) (_speed c) (py_max 0 (py_min 100 d)) (in1 c) (in2 c).

Definition _set_direction (forward : bool) (c : t) : t :=
  if xorb forward (inverted c)
  then mk (inverted c) (_speed c) (duty c) true false
  else mk (inverted c) (_speed c) (duty c) false true.

Definition brake (c : t) : t := mk (inverted c) 0 (py_max 0 (py_min 100 0)) true true.

Definition coast (c : t) : t := mk (inverted c) 0 (py_max 0 (py_min 100 0)) false false.

Definition set_speed (speed : Q) (c : t) : t :=
  let speed := py_max (-100) (py_min 100 speed) in
  let c := mk (inverted c) speed (duty c) (in1 c) (in2 c) in
  if Qeq_bool speed 0 then brake c
  else set_duty (Qabs speed) (_set_direction (Qltb 0 speed) c).

End MotorChannel.

(** ** hardware/motors.py: the differential-drive controller *)

Module MotorController.

Record t := mk {
  _left : MotorChannel.t;
  _right : MotorChannel.t;
  _target_left : Q;
  _target_right : Q;
  _current_left : Q;
  _current_right : Q;
  _ticks_left : Z;
  _ticks_right : Z;
  _dist_m : Q;
  _heading : Q;
  _ramp_active : bool;
  _emergency : bool
}.

Definition init : t :=
  mk (MotorChannel.init false) (MotorChannel.init true)
     0 0 0 0 0%Z 0%Z 0 0 true false.

(** Field updates. *)
Definition with_targets (l r : Q) (m : t) : t :=
  mk (_left m) (_right m) l r (_current_left m) (_current_right m)
     (_ticks_left m) (_ticks_right m) (_dist_m m) (_heading m)
     (_ramp_active m) (_emergency m).

Definition with_left (c : Q) (ch : MotorChannel.t) (m : t) : t :=
  mk ch (_right m) (_target_left m) (_target_right m) c (_current_right m)
     (_ticks_left m) (_ticks_right m) (_dist_m m) (_heading m)
     (_ramp_active m) (_emergency m).

Definition with_right (c : Q) (ch : MotorChannel.t) (m : t) : t :=
  mk (_left m) ch (_target_left m) (_target_right m) (_current_left m) c
     (_ticks_left m) (_ticks_right m) (_dist_m m) (_heading m)
     (_ramp_active m) (_emergency m).

Definition with_odometry (tl tr : Z) (d h : Q) (m : t) : t :=
  mk (_left m) (_right m) (_target_left m) (_target_right m)
     (_current_left m) (_current_right m) tl tr d h
     (_ramp_active m) (_emergency m).

Definition with_emergency (e : bool) (m : t) : t :=
  mk (_left m) (_right m) (_target_left m) (_target_right m)
     (_current_left m) (_current_right m)
     (_ticks_left m) (_ticks_right m) (_dist_m m) (_heading m)
     (_ramp_active m) e.

(** *** Encoders and odometry *)

Definition _tick_left (m : t) : t :=
  let direction := if Qle_bool 0 (_current_left m) then 1%Z else (-1)%Z in
  with_odometry (_ticks_left m + direction) (_ticks_right m)
                (_dist_m m) (_heading m) m.

Definition _tick_right (m : t) : t :=
  let direction := if Qle_bool 0 (_current_right m) then 1%Z else (-1)%Z in
  with_odometry (_ticks_left m) (_ticks_right m + direction)
                (_dist_m m) (_heading m) m.

Definition wheel_circ : Q := math_pi * (inject_Z cfg.WHEEL_DIAMETER_MM / 1000).

Definition arc (ticks : Z) : Q :=
  (inject_Z ticks / inject_Z cfg.ENCODER_TICKS_PER_REV) * wheel_circ.

Definition dist_center (tl tr : Z) : Q := (arc tl + arc tr) / 2.

Definition delta_theta (tl tr : Z) : Q :=
  math_degrees ((arc tr - arc tl) / (inject_Z cfg.WHEEL_BASE_MM / 1000)).

(** The returned dictionary is the pair (distance_m, heading_deg). *)
Definition update_odometry (m : t) : (Q * Q) * t :=
  let tl := _ticks_left m in
  let tr := _ticks_right m in
  let d := _dist_m m + Qabs (dist_center tl tr) in
  let h := py_mod (_heading m + delta_theta tl tr) 360 in
  ((py_round d 3, py_round h 1), with_odometry 0 0 d h m).

Definition reset_odometry (m : t) : t := with_odometry 0 0 0 0 m.

(** *** Ramp *)

(** The value [next_val] that one pass of the ramp loop gives a wheel. *)
Definition next_val (step current target : Q) : Q :=
  if Qltb (Qabs (current - target)) step then target
  else if Qltb current target then current + step
  else current - step.

(** The body of the [while self._ramp_active] loop: left wheel, then right. *)
Definition _ramp_tick (m : t) : t :=
  if _emergency m then m
  else
    let step := cfg.RAMP_STEP in
    let nl := next_val step (_current_left m) (_target_left m) in
    let m := with_left nl (MotorChannel.set_speed nl (_left m)) m in
    let nr := next_val step (_current_right m) (_target_right m) in
    with_right nr (MotorChannel.set_speed nr (_right m)) m.

(** [n] passes of the loop, with no other writer in between. *)
Fixpoint _ramp_loop (n : nat) (m : t) : t :=
  match n with
  | O => m
  | S n' => _ramp_loop n' (_ramp_tick m)
  end.

Definition _set_targets (left right : Q) (m : t) : t :=
  if _emergency m then m
  else
    with_targets
      (py_max (- cfg.SPEED_MAX_PERCENT) (py_min cfg.SPEED_MAX_PERCENT left))
      (py_max (- cfg.SPEED_MAX_PERCENT) (py_min cfg.SPEED_MAX_PERCENT right))
      m.

(** *** High-level motion; [None] is the omitted [speed] argument *)

Definition forward (speed : option Q) (m : t) : t :=
  let s := default cfg.SPEED_DEFAULT speed in _set_targets s s m.

Definition backward (speed : option Q) (m : t) : t :=
  let s := default cfg.SPEED_DEFAULT speed in _set_targets (- s) (- s) m.

Definition turn_left (speed : option Q) (m : t) : t :=
  let s := default cfg.SPEED_DEFAULT speed in
  let tf := cfg.TURN_SPEED_FACTOR in
  _set_targets (s * tf) s m.

Definition turn_right (speed : option Q) (m : t) : t :=
  let s := default cfg.SPEED_DEFAULT speed in
  let tf := cfg.TURN_SPEED_FACTOR in
  _set_targets s (s * tf) m.

Definition pivot_left (speed : option Q) (m : t) : t :=
  let s := default (cfg.SPEED_DEFAULT * (1 # 2)) speed in
  _set_targets (- s) s m.

Definition pivot_right (speed : option Q) (m : t) : t :=
  let s := default (cfg.SPEED_DEFAULT * (1 # 2)) speed in
  _set_targets s (- s) m.

Definition set_speed_pct (speed_pct : Q) (m : t) : t :=
  let l_sign := if Qle_bool 0 (_target_left m) then 1 else -1 in
  let r_sign := if Qle_bool 0 (_target_right m) then 1 else -1 in
  let s := py_max cfg.SPEED_MIN_PERCENT (Qabs speed_pct) in
  _set_targets (l_sign * s) (r_sign * s) m.

Definition stop (m : t) : t := _set_targets 0 0 m.

Definition brake (m : t) : t :=
  mk (MotorChannel.brake (_left m)) (MotorChannel.brake (_right m))
     0 0 0 0
     (_ticks_left m) (_ticks_right m) (_dist_m m) (_heading m)
     (_ramp_active m) (_emergency m).

Definition emergency_stop (m : t) : t :=
  mk (MotorChannel.coast (_left m)) (MotorChannel.coast (_right m))
     0 0 0 0
     (_ticks_left m) (_ticks_right m) (_dist_m m) (_heading m)
     (_ramp_active m) true.

Definition release_emergency (m : t) : t := with_emergency false m.

Definition is_emergency (m : t) : bool := _emergency m.

Definition distance_m (m : t) : Q := _dist_m m.

Definition heading_deg (m : t) : Q := _heading m.

End MotorController.

(** ** hardware/motors.py: the odometry on binary64 numbers

    [update_odometry] once more, with Python's [float] as Rocq's primitive
    binary64 numbers, every operation rounded as the interpreter rounds
    it.  The returned dictionary is left out. *)

Module Binary64.

(** [float(n)] for an integer, rounded to nearest. *)
Definition of_int (n : Z) : float :=
  SF2Prim (binary_normalize prec emax n 0 false).

(** C's [fmod]: the exact remainder of the magnitudes, with the sign of [x].
    The remainder of two binary64 numbers is a binary64 number, so nothing
    is rounded. *)
Definition fmod (x y : float) : float :=
  match Prim2SF x, Prim2SF y with
  | S754_finite sx mx ex, S754_finite _ my ey =>
      let e := Z.min ex ey in
      let r := ((Z.pos mx * 2 ^ (ex - e)) mod (Z.pos my * 2 ^ (ey - e)))%Z in
      SF2Prim (binary_normalize prec emax (if sx then (- r)%Z else r) e sx)
  | S754_zero _, S754_finite _ _ _ => x
  | S754_zero _, S754_infinity _ => x
  | S754_finite _ _ _, S754_infinity _ => x
  | _, _ => nan
  end.

(** [x % y] on floats ([float_rem] of the interpreter): [fmod], then [y] is
    added when the remainder is not zero and its sign differs from that of
    [y]; a zero remainder takes the sign of [y].  [None] is
    [ZeroDivisionError]. *)
Definition float_rem (x y : float) : option float :=
  if PrimFloat.eqb y zero then None
  else
    let m := fmod x y in
    Some (if PrimFloat.eqb m zero
          then (if PrimFloat.ltb y zero then neg_zero else zero)
          else if Bool.eqb (PrimFloat.ltb y zero) (PrimFloat.ltb m zero)
               then m
               else PrimFloat.add m y).

(** [math.pi], the double 0x1.921fb54442d18p+1. *)
Definition math_pi : float := Z.ldexp (of_int 7074237752028440) (-51).

(** [math.degrees(x)] is [x * (180.0 / pi)]. *)
Definition math_degrees (x : float) : float :=
  PrimFloat.mul x (PrimFloat.div (of_int 180) math_pi).

(** [a / b] for two integers that binary64 holds exactly. *)
Definition int_truediv (a b : Z) : float := PrimFloat.div (of_int a) (of_int b).

Record t := mk {
  _ticks_left : Z;
  _ticks_right : Z;
  _dist_m : float;
  _heading : float
}.

Definition init : t := mk 0 0 zero zero.

(** Encoder pulses between two aggregations: [tl] on the left wheel and
    [tr] on the right one, signed by the direction of the wheel. *)
Definition pulses (tl tr : Z) (m : t) : t :=
  mk (_ticks_left m + tl) (_ticks_right m + tr) (_dist_m m) (_heading m).

Definition wheel_circ : float :=
  PrimFloat.mul math_pi (PrimFloat.div (of_int cfg.WHEEL_DIAMETER_MM) (of_int 1000)).

Definition arc (ticks : Z) : float :=
  PrimFloat.mul (int_truediv ticks cfg.ENCODER_TICKS_PER_REV) wheel_circ.

Definition dist_center (tl tr : Z) : float :=
  PrimFloat.div (PrimFloat.add (arc tl) (arc tr)) (of_int 2).

Definition delta_theta (tl tr : Z) : float :=
  math_degrees
    (PrimFloat.div (PrimFloat.sub (arc tr) (arc tl))
                   (PrimFloat.div (of_int cfg.WHEEL_BASE_MM) (of_int 1000))).

Definition update_odometry (m : t) : option t :=
  let tl := _ticks_left m in
  let tr := _ticks_right m in
  let d := PrimFloat.add (_dist_m m) (PrimFloat.abs (dist_center tl tr)) in
  h ← float_rem (PrimFloat.add (_heading m) (delta_theta tl tr)) (of_int 360);
  Some (mk 0 0 d h).

(** [pulses], then one aggregation, for each pair of the list in turn. *)
Fixpoint aggregate (ticks : list (Z * Z)) (m : t) : option t :=
  match ticks with
  | [] => Some m
  | (tl, tr) :: rest => m' ← update_odometry (pulses tl tr m); aggregate rest m'
  end.

End Binary64.

(** ** hardware/leds.py

    Rendering a pattern on the pins is left out; the controller keeps the
    name of the pattern in force.  [flash_requests] lists the flashes that
    were started, newest first. *)

Module LedController.

Definition LED_PATTERNS : gmap string (bool * bool * bool * Q) :=
  list_to_map
    [ ("idle",        (false, false, false, 0));
      ("ready",       (true,  false, false, 0));
      ("moving",      (true,  false, false, 2));
      ("warning",     (false, true,  false, 1));
      ("battery_low", (false, true,  false, 3));
      ("emergency",   (false, false, true,  5));
      ("fault",       (false, false, true,  1));
      ("paused",      (true,  true,  false, 1 # 2)) ].

Record t := mk {
  _current_state : string;
  _lighting_duty : Q;
  flash_requests : list (string * Z)
}.

Definition init : t := mk "idle" cfg.LED_LIGHTING_DEFAULT [].

Definition set_state (state_name : string) (l : t) : t :=
  match LED_PATTERNS !! state_name with
  | None => l
  | Some _ => mk state_name (_lighting_duty l) (flash_requests l)
  end.

Definition pin_colors : list string := ["green"; "orange"; "red"].

Definition flash (color : string) (times : Z) (l : t) : t :=
  if bool_decide (color ∈ pin_colors)
  then mk (_current_state l) (_lighting_duty l) ((color, times) :: flash_requests l)
  else l.

Definition set_lighting (duty_pct : Q) (l : t) : t :=
  mk (_current_state l) (py_max 0 (py_min 100 duty_pct)) (flash_requests l).

Definition lighting_on (l : t) : t := set_lighting cfg.LED_LIGHTING_DEFAULT l.

Definition lighting_off (l : t) : t := set_lighting 0 l.

End LedController.

(** ** hardware/camera.py: the part the command handlers reach *)

Module CameraStream.

Record t := mk {
  _overlay_pos_m : Q;
  _overlay_status : string;
  _latest_jpeg : option (list Byte.byte)
}.

Definition init : t := mk 0 "INSPECTION" None.

Definition update_overlay (pos_m : Q) (status : string) (c : t) : t :=
  mk pos_m status (_latest_jpeg c).

(** [write_ok] says whether writing the file succeeds. *)
Definition save_snapshot (write_ok : bool) (c : t) : bool :=
  match _latest_jpeg c with
  | None => false
  | Some _ => write_ok
  end.

End CameraStream.

(** ** hardware/sensors.py: the latest readings *)

Module ObstacleManager.

Record t := mk { _readings : gmap string Q }.

Definition init : t :=
  mk (list_to_map [("front", 999); ("rear", 999); ("left", 999)]).

Definition record_reading (name : string) (d : Q) (o : t) : t :=
  mk (<[name := d]> (_readings o)).

Definition is_path_clear (direction : string) (o : t) : bool :=
  Qltb cfg.US_MIN_DISTANCE_CM (default 999 (_readings o !! direction)).

End ObstacleManager.

(** ** The robot: every object once *)

Inductive RobotState :=
| IDLE | MOVING_FORWARD | MOVING_BACKWARD | TURNING_LEFT | TURNING_RIGHT
| PIVOT_LEFT | PIVOT_RIGHT | PAUSED | EMERGENCY_STOP | FAULT.

#[global] Instance RobotState_eq_dec : EqDecision RobotState.
Proof. solve_decision. Defined.

Definition RobotState_name (st : RobotState) : string :=
  match st with
  | IDLE => "IDLE"
  | MOVING_FORWARD => "MOVING_FORWARD"
  | MOVING_BACKWARD => "MOVING_BACKWARD"
  | TURNING_LEFT => "TURNING_LEFT"
  | TURNING_RIGHT => "TURNING_RIGHT"
  | PIVOT_LEFT => "PIVOT_LEFT"
  | PIVOT_RIGHT => "PIVOT_RIGHT"
  | PAUSED => "PAUSED"
  | EMERGENCY_STOP => "EMERGENCY_STOP"
  | FAULT => "FAULT"
  end.

(** The fields of [SafetyManager].  [_nav_linked] is [self._nav is not None]:
    the reference, once set by [set_navigation], is to the one navigation
    controller of the system. *)
Record SafetyFields := mkSafety {
  _estop_active : bool;
  _last_command_t : Q;
  _watchdog_active : bool;
  _nav_linked : bool
}.

(** The fields of [NavigationController]. *)
Record NavFields := mkNav {
  _state : RobotState;
  _speed_pct : Q;
  _inspecting : bool;
  _start_time : option Q
}.

Record System := mkSystem {
  motors : MotorController.t;
  leds : LedController.t;
  camera : CameraStream.t;
  obstacle_mgr : ObstacleManager.t;
  safety : SafetyFields;
  nav : NavFields
}.

Definition with_motors (f : MotorController.t -> MotorController.t) (s : System) : System :=
  mkSystem (f (motors s)) (leds s) (camera s) (obstacle_mgr s) (safety s) (nav s).

Definition with_leds (f : LedController.t -> LedController.t) (s : System) : System :=
  mkSystem (motors s) (f (leds s)) (camera s) (obstacle_mgr s) (safety s) (nav s).

Definition with_camera (f : CameraStream.t -> CameraStream.t) (s : System) : System :=
  mkSystem (motors s) (leds s) (f (camera s)) (obstacle_mgr s) (safety s) (nav s).

Definition with_obstacle_mgr (f : ObstacleManager.t -> ObstacleManager.t) (s : System) : System :=
  mkSystem (motors s) (leds s) (camera s) (f (obstacle_mgr s)) (safety s) (nav s).

Definition with_safety (f : SafetyFields -> SafetyFields) (s : System) : System :=
  mkSystem (motors s) (leds s) (camera s) (obstacle_mgr s) (f (safety s)) (nav s).

Definition with_nav (f : NavFields -> NavFields) (s : System) : System :=
  mkSystem (motors s) (leds s) (camera s) (obstacle_mgr s) (safety s) (f (nav s)).

Definition put_estop_active (b : bool) (f : SafetyFields) : SafetyFields :=
  mkSafety b (_last_command_t f) (_watchdog_active f) (_nav_linked f).

Definition put_last_command_t (t : Q) (f : SafetyFields) : SafetyFields :=
  mkSafety (_estop_active f) t (_watchdog_active f) (_nav_linked f).

Definition put_nav_linked (b : bool) (f : SafetyFields) : SafetyFields :=
  mkSafety (_estop_active f) (_last_command_t f) (_watchdog_active f) b.

Definition put_state (st : RobotState) (n : NavFields) : NavFields :=
  mkNav st (_speed_pct n) (_inspecting n) (_start_time n).

Definition put_speed_pct (v : Q) (n : NavFields) : NavFields :=
  mkNav (_state n) v (_inspecting n) (_start_time n).

Definition put_inspecting (b : bool) (t : option Q) (n : NavFields) : NavFields :=
  mkNav (_state n) (_speed_pct n) b t.

(** ** control/safety.py *)

(** What a caller passes as [reason]; it only reaches the log. *)
Inductive Reason :=
| ReasonText (text : string)
| ReasonObstacle (sensor_name : string) (dist_cm : Q)
| ReasonBattery (soc_pct : Q).

Module SafetyManager.

Definition WATCHDOG_TIMEOUT_S : Q := 15.
Definition FOSSE_LENGTH_M : Q := 200.

(** The state set up by [__init__] at time [now], before [set_navigation]. *)
Definition init (now : Q) : SafetyFields := mkSafety false now true false.

Definition trigger_emergency (reason : Reason) (s : System) : System :=
  if _estop_active (safety s) then s
  else
    let s := with_safety (put_estop_active true) s in
    let s := with_motors MotorController.emergency_stop s in
    let s := with_leds (LedController.set_state "emergency") s in
    if _nav_linked (safety s)
    then with_nav (put_state EMERGENCY_STOP) s
    else s.

Definition release_emergency (now : Q) (reason : Reason) (s : System) : System :=
  if negb (_estop_active (safety s)) then s
  else
    let s := with_safety (put_estop_active false) s in
    let s := with_motors MotorController.release_emergency s in
    let s := with_leds (LedController.set_state "ready") s in
    let s := if _nav_linked (safety s)
             then with_nav (put_state IDLE) s
             else s in
    with_safety (put_last_command_t now) s.

Definition _on_estop_gpio (s : System) : System :=
  trigger_emergency (ReasonText "Bouton E-STOP physique") s.

Definition _on_obstacle_critical (sensor_name : string) (dist_cm : Q)
    (s : System) : System :=
  if _nav_linked (safety s) then
    let state := _state (nav s) in
    let moving_forward :=
      bool_decide (state = MOVING_FORWARD) && String.eqb sensor_name "front" in
    let moving_backward :=
      bool_decide (state = MOVING_BACKWARD) && String.eqb sensor_name "rear" in
    if moving_forward || moving_backward
    then trigger_emergency (ReasonObstacle sensor_name dist_cm) s
    else s
  else with_motors MotorController.brake s.

Definition _on_obstacle_warning (sensor_name : string) (dist_cm : Q)
    (s : System) : System :=
  let s := with_leds (LedController.set_state "warning") s in
  if _nav_linked (safety s)
     && bool_decide (_state (nav s) ∈ [MOVING_FORWARD; MOVING_BACKWARD])
  then
    let new_speed := py_max 20 (_speed_pct (nav s) * (1 # 2)) in
    with_motors (MotorController.set_speed_pct new_speed) s
  else s.

Definition _on_low_battery (soc_pct : Q) (s : System) : System :=
  let s := with_leds (LedController.set_state "battery_low") s in
  if Qltb soc_pct 5
  then trigger_emergency (ReasonBattery soc_pct) s
  else s.

(** One check of [_watchdog_loop], made at time [now] after the sleep. *)
Definition _watchdog_check (now : Q) (s : System) : System :=
  if negb (_estop_active (safety s)) then
    let elapsed := now - _last_command_t (safety s) in
    if Qltb WATCHDOG_TIMEOUT_S elapsed then
      let s := with_motors MotorController.stop s in
      let s := if _nav_linked (safety s)
               then with_nav (put_state IDLE) s
               else s in
      with_leds (LedController.set_state "warning") s
    else s
  else s.

Definition heartbeat (now : Q) (s : System) : System :=
  with_safety (put_last_command_t now) s.

Definition check_fosse_limits (distance_m : Q) (s : System) : System :=
  let s :=
    if Qle_bool (FOSSE_LENGTH_M - 2) distance_m then
      let s := with_motors MotorController.stop s in
      with_leds (LedController.flash "orange" 5) s
    else s in
  if Qle_bool FOSSE_LENGTH_M distance_m
  then trigger_emergency (ReasonText "Limite fosse 200 m atteinte") s
  else s.

Definition is_emergency (s : System) : bool := _estop_active (safety s).

Definition is_path_clear (direction : string) (s : System) : bool :=
  ObstacleManager.is_path_clear direction (obstacle_mgr s).

Definition set_navigation (s : System) : System :=
  with_safety (put_nav_linked true) s.

(** The [estop] and [watchdog_ok] entries of [get_telemetry]. *)
Definition telemetry_estop (s : System) : bool := _estop_active (safety s).

Definition telemetry_watchdog_ok (now : Q) (s : System) : bool :=
  Qltb (now - _last_command_t (safety s)) WATCHDOG_TIMEOUT_S.

End SafetyManager.

(** ** hardware/sensors.py: one measurement of the scan loop

    The body of [ObstacleManager._scan_loop] for one sensor whose
    measurement is [d], with the two callbacks that [SafetyManager.__init__]
    registers. *)
Definition _scan_sensor (name : string) (d : Q) (s : System) : System :=
  let s := with_obstacle_mgr (ObstacleManager.record_reading name d) s in
  if Qltb d cfg.US_MIN_DISTANCE_CM
  then SafetyManager._on_obstacle_critical name d s
  else if Qltb d cfg.US_WARNING_DISTANCE_CM
  then SafetyManager._on_obstacle_warning name d s
  else s.

(** ** control/navigation.py *)

(** A Python [str] is Unicode text, here the string of its UTF-8 bytes.
    [str.lower] and [str.strip] are methods of the interpreter, driven by
    the Unicode tables: [lower] also maps letters outside ASCII (the Kelvin
    sign U+212A to [k]) and [strip] also removes white space outside ASCII
    (the no-break space U+00A0).  The router takes the two methods as a
    parameter, and what is proved of it for every command is proved for
    every pair of methods. *)
Record StrMethods := mkStr {
  str_lower : string -> string;
  str_strip : string -> string
}.

(** The two methods on ASCII text: [py_lower] maps the letters [A-Z] and
    [py_strip] removes the bytes 9 to 13 and 28 to 32 at both ends, which
    is what [str.lower] and [str.strip] do to a string of ASCII bytes.
    The names of [VALID_COMMANDS] are ASCII, and a string that [py_strip]
    and [py_lower] send to such a name is ASCII itself. *)
Definition lower_ascii (c : ascii) : ascii :=
  let n := N_of_ascii c in
  if ((65 <=? n) && (n <=? 90))%N then ascii_of_N (n + 32) else c.

Fixpoint py_lower (s : string) : string :=
  match s with
  | EmptyString => EmptyString
  | String c r => String (lower_ascii c) (py_lower r)
  end.

Definition is_py_space (c : ascii) : bool :=
  let n := N_of_ascii c in
  (((9 <=? n) && (n <=? 13)) || ((28 <=? n) && (n <=? 32)))%N.

Fixpoint py_lstrip (s : string) : string :=
  match s with
  | EmptyString => EmptyString
  | String c r => if is_py_space c then py_lstrip r else s
  end.

Fixpoint string_rev (s : string) : string :=
  match s with
  | EmptyString => EmptyString
  | String c r => string_rev r ++ String c EmptyString
  end.

Definition py_strip (s : string) : string :=
  string_rev (py_lstrip (string_rev (py_lstrip s))).

Definition ascii_str : StrMethods := mkStr py_lower py_strip.

Definition VALID_COMMANDS : list string :=
  [ "forward"; "backward"; "turn_left"; "turn_right"; "pivot_left";
    "pivot_right"; "stop"; "brake";
    "speed_up"; "speed_down"; "set_speed";
    "inspect_start"; "inspect_stop"; "inspect_pause"; "inspect_resume";
    "estop"; "estop_release";
    "light_on"; "light_off"; "light_set"; "snapshot";
    "ping"; "reset_odometry" ].

Definition SPEED_STEP : Q := 10.

(** A command: [action] and [value] are the entries of the dictionary when
    present.  The action is a string and the value a number. *)
Record Cmd := mkCmd {
  action : option string;
  value : option Q
}.

(** What a handler reads besides the command: [time.time()] and whether the
    snapshot file can be written. *)
Record Env := mkEnv {
  now : Q;
  write_ok : bool
}.

(** The path of a snapshot, built from the time stamp and the distance. *)
Inductive Filepath := evidence_path (ts pos : Q).

(** Messages: a fixed text, or a format with its arguments. *)
Inductive Msg :=
| Text (text : string)
| MsgUnknown (action : string)          (* Commande inconnue : '{action}' *)
| MsgNotImplemented (action : string)   (* Commande non implémentée : {action} *)
| MsgSpeed (pct : Q)                    (* Vitesse : {pct:.0f}% *)
| MsgSpeedSet (pct : Q)                 (* Vitesse réglée : {pct:.0f}% *)
| MsgInspectDone (dist : Q)             (* Inspection terminée — {dist:.1f} m *)
| MsgLightOn (duty : Q)                 (* Éclairage ON ({duty:.0f}%) *)
| MsgLightSet (v : Q)                   (* Éclairage : {v:.0f}% *)
| MsgSnapshot (fp : Filepath).          (* Snapshot sauvegardé : {fp} *)

Inductive Extra :=
| ExtraFilepath (fp : Filepath)
| ExtraTimestamp (t : Q).

Record Resp := mkResp {
  ok : bool;
  msg : Msg;
  state : string;
  speed : Q;
  extra : option Extra
}.

Definition MSG_EMERGENCY_ACTIVE : Msg :=
  Text "ARRÊT D'URGENCE actif — seule la commande estop_release est acceptée".

Module NavigationController.

Definition init : NavFields := mkNav IDLE 60 false None.

Definition _set_state (st : RobotState) (s : System) : System :=
  with_nav (put_state st) s.

Definition _resp (ok : bool) (msg : Msg) (extra : option Extra) (s : System) : Resp :=
  mkResp ok msg (RobotState_name (_state (nav s))) (_speed_pct (nav s)) extra.

Definition Handler : Type := Env -> Cmd -> System -> Resp * System.

(** *** Motion *)

Definition _cmd_forward : Handler := fun env cmd s =>
  if negb (SafetyManager.is_path_clear "front" s)
  then (_resp false (Text "Obstacle détecté à l'avant — déplacement bloqué") None s, s)
  else
    let s := with_motors (MotorController.forward (Some (_speed_pct (nav s)))) s in
    let s := _set_state MOVING_FORWARD s in
    let s := with_leds (LedController.set_state "moving") s in
    (_resp true (Text "Avance") None s, s).

Definition _cmd_backward : Handler := fun env cmd s =>
  if negb (SafetyManager.is_path_clear "rear" s)
  then (_resp false (Text "Obstacle détecté à l'arrière — déplacement bloqué") None s, s)
  else
    let s := with_motors (MotorController.backward (Some (_speed_pct (nav s)))) s in
    let s := _set_state MOVING_BACKWARD s in
    let s := with_leds (LedController.set_state "moving") s in
    (_resp true (Text "Recule") None s, s).

Definition _cmd_turn_left : Handler := fun env cmd s =>
  let s := with_motors (MotorController.turn_left (Some (_speed_pct (nav s)))) s in
  let s := _set_state TURNING_LEFT s in
  let s := with_leds (LedController.set_state "moving") s in
  (_resp true (Text "Virage gauche") None s, s).

Definition _cmd_turn_right : Handler := fun env cmd s =>
  let s := with_motors (MotorController.turn_right (Some (_speed_pct (nav s)))) s in
  let s := _set_state TURNING_RIGHT s in
  let s := with_leds (LedController.set_state "moving") s in
  (_resp true (Text "Virage droite") None s, s).

Definition _cmd_pivot_left : Handler := fun env cmd s =>
  let s := with_motors
             (MotorController.pivot_left (Some (_speed_pct (nav s) * (6 # 10)))) s in
  let s := _set_state PIVOT_LEFT s in
  let s := with_leds (LedController.set_state "moving") s in
  (_resp true (Text "Pivotement gauche") None s, s).

Definition _cmd_pivot_right : Handler := fun env cmd s =>
  let s := with_motors
             (MotorController.pivot_right (Some (_speed_pct (nav s) * (6 # 10)))) s in
  let s := _set_state PIVOT_RIGHT s in
  let s := with_leds (LedController.set_state "moving") s in
  (_resp true (Text "Pivotement droite") None s, s).

Definition _cmd_stop : Handler := fun env cmd s =>
  let s := with_motors MotorController.stop s in
  let s := _set_state IDLE s in
  let s := with_leds (LedController.set_state "ready") s in
  (_resp true (Text "Arrêt progressif") None s, s).

Definition _cmd_brake : Handler := fun env cmd s =>
  let s := with_motors MotorController.brake s in
  let s := _set_state IDLE s in
  let s := with_leds (LedController.set_state "ready") s in
  (_resp true (Text "Frein immédiat") None s, s).

(** *** Speed *)

Definition _cmd_speed_up : Handler := fun env cmd s =>
  let s := with_nav (put_speed_pct (py_min 100 (_speed_pct (nav s) + SPEED_STEP))) s in
  let s := with_motors (MotorController.set_speed_pct (_speed_pct (nav s))) s in
  (_resp true (MsgSpeed (_speed_pct (nav s))) None s, s).

Definition _cmd_speed_down : Handler := fun env cmd s =>
  let s := with_nav (put_speed_pct (py_max 20 (_speed_pct (nav s) - SPEED_STEP))) s in
  let s := with_motors (MotorController.set_speed_pct (_speed_pct (nav s))) s in
  (_resp true (MsgSpeed (_speed_pct (nav s))) None s, s).

Definition _cmd_set_speed : Handler := fun env cmd s =>
  let v := default (_speed_pct (nav s)) (value cmd) in
  let s := with_nav (put_speed_pct (py_max 20 (py_min 100 v))) s in
  let s := with_motors (MotorController.set_speed_pct (_speed_pct (nav s))) s in
  (_resp true (MsgSpeedSet (_speed_pct (nav s))) None s, s).

(** *** Inspection *)

Definition _cmd_inspect_start : Handler := fun env cmd s =>
  let s := with_nav (put_inspecting true (Some (now env))) s in
  let s := with_motors MotorController.reset_odometry s in
  let s := with_leds LedController.lighting_on s in
  let s := with_camera (CameraStream.update_overlay 0 "INSPECTION EN COURS") s in
  let s := with_leds (LedController.set_state "ready") s in
  (_resp true (Text "Inspection démarrée") None s, s).

Definition _cmd_inspect_stop : Handler := fun env cmd s =>
  let s := with_nav (put_inspecting false (_start_time (nav s))) s in
  let s := with_motors MotorController.stop s in
  let s := with_leds LedController.lighting_off s in
  let s := with_camera
             (CameraStream.update_overlay (MotorController.distance_m (motors s))
                                          "INSPECTION TERMINÉE") s in
  let s := with_leds (LedController.set_state "ready") s in
  (_resp true (MsgInspectDone (MotorController.distance_m (motors s))) None s, s).

Definition _cmd_inspect_pause : Handler := fun env cmd s =>
  let s := with_motors MotorController.stop s in
  let s := _set_state PAUSED s in
  let s := with_leds (LedController.set_state "paused") s in
  (_resp true (Text "Inspection pausée") None s, s).

Definition _cmd_inspect_resume : Handler := fun env cmd s =>
  let s := _set_state IDLE s in
  let s := with_leds (LedController.set_state "ready") s in
  (_resp true (Text "Inspection reprise") None s, s).

(** *** Emergency stop *)

Definition _cmd_estop : Handler := fun env cmd s =>
  let s := with_motors MotorController.emergency_stop s in
  let s := _set_state EMERGENCY_STOP s in
  let s := with_leds (LedController.set_state "emergency") s in
  (_resp true (Text "ARRÊT D'URGENCE activé") None s, s).

Definition _cmd_estop_release : Handler := fun env cmd s =>
  let s := with_motors MotorController.release_emergency s in
  let s := _set_state IDLE s in
  let s := with_leds (LedController.set_state "ready") s in
  (_resp true (Text "Arrêt d'urgence relâché") None s, s).

(** *** Camera and lighting *)

Definition _cmd_light_on : Handler := fun env cmd s =>
  let s := with_leds LedController.lighting_on s in
  (_resp true (MsgLightOn (LedController._lighting_duty (leds s))) None s, s).

Definition _cmd_light_off : Handler := fun env cmd s =>
  let s := with_leds LedController.lighting_off s in
  (_resp true (Text "Éclairage OFF") None s, s).

Definition _cmd_light_set : Handler := fun env cmd s =>
  let v := default 80 (value cmd) in
  let s := with_leds (LedController.set_lighting v) s in
  (_resp true (MsgLightSet v) None s, s).

Definition _cmd_snapshot : Handler := fun env cmd s =>
  let fp := evidence_path (now env) (MotorController.distance_m (motors s)) in
  if CameraStream.save_snapshot (write_ok env) (camera s)
  then (_resp true (MsgSnapshot fp) (Some (ExtraFilepath fp)) s, s)
  else (_resp false (Text "Snapshot échoué — caméra non disponible") None s, s).

(** *** System *)

Definition _cmd_ping : Handler := fun env cmd s =>
  (_resp true (Text "pong") (Some (ExtraTimestamp (now env))) s, s).

Definition _cmd_reset_odometry : Handler := fun env cmd s =>
  let s := with_motors MotorController.reset_odometry s in
  (_resp true (Text "Odométrie réinitialisée") None s, s).

(** The methods named [_cmd_<action>], as [getattr] finds them. *)
Definition handlers : list (string * Handler) :=
  [ ("forward", _cmd_forward); ("backward", _cmd_backward);
    ("turn_left", _cmd_turn_left); ("turn_right", _cmd_turn_right);
    ("pivot_left", _cmd_pivot_left); ("pivot_right", _cmd_pivot_right);
    ("stop", _cmd_stop); ("brake", _cmd_brake);
    ("speed_up", _cmd_speed_up); ("speed_down", _cmd_speed_down);
    ("set_speed", _cmd_set_speed);
    ("inspect_start", _cmd_inspect_start); ("inspect_stop", _cmd_inspect_stop);
    ("inspect_pause", _cmd_inspect_pause); ("inspect_resume", _cmd_inspect_resume);
    ("estop", _cmd_estop); ("estop_release", _cmd_estop_release);
    ("light_on", _cmd_light_on); ("light_off", _cmd_light_off);
    ("light_set", _cmd_light_set); ("snapshot", _cmd_snapshot);
    ("ping", _cmd_ping); ("reset_odometry", _cmd_reset_odometry) ].

Fixpoint getattr_cmd (table : list (string * Handler)) (name : string) : option Handler :=
  match table with
  | [] => None
  | (k, h) :: rest => if String.eqb k name then Some h else getattr_cmd rest name
  end.

(** [cmd.get("action", "").lower().strip()], with the interpreter's two
    string methods [py]. *)
Definition action_with (py : StrMethods) (cmd : Cmd) : string :=
  str_strip py (str_lower py (default "" (action cmd))).

(** [handle_command], with the interpreter's two string methods [py]. *)
Definition handle_command_with (py : StrMethods)
    (env : Env) (cmd : Cmd) (s : System) : Resp * System :=
  let action := action_with py cmd in
  if negb (bool_decide (action ∈ VALID_COMMANDS))
  then (_resp false (MsgUnknown action) None s, s)
  else if bool_decide (_state (nav s) = EMERGENCY_STOP)
          && negb (bool_decide (action ∈ ["estop_release"; "ping"]))
  then (_resp false MSG_EMERGENCY_ACTIVE None s, s)
  else
    match getattr_cmd handlers action with
    | Some handler => handler env cmd s
    | None => (_resp false (MsgNotImplemented action) None s, s)
    end.

(** The router on ASCII text: [action_of] and [handle_command] are
    [action_with] and [handle_command_with] at [ascii_str], and are what
    the code computes for a command whose action is a string of ASCII
    bytes. *)
Definition action_of (cmd : Cmd) : string := action_with ascii_str cmd.

Definition handle_command (env : Env) (cmd : Cmd) (s : System) : Resp * System :=
  handle_command_with ascii_str env cmd s.

End NavigationController.

(** ** main.build_robot: the robot as wired at start-up, at time [t0] *)

Definition build_robot (t0 : Q) : System :=
  let s := mkSystem MotorController.init LedController.init CameraStream.init
                    ObstacleManager.init (SafetyManager.init t0)
                    NavigationController.init in
  let s := with_leds (LedController.set_state "ready") s in
  let s := SafetyManager.set_navigation s in
  with_leds (LedController.set_state "ready") s.

(** The command [{"action": name}]. *)
Definition command (name : string) : Cmd := mkCmd (Some name) None.


(** ** hardware/motors.py: the telemetry record *)

Module MotorTelemetry.

Record t := mk {
  speed_left : Q;
  speed_right : Q;
  distance_m : Q;
  heading_deg : Q;
  emergency : bool
}.

(** [MotorController.get_telemetry] *)
Definition get_telemetry (m : MotorController.t) : t :=
  mk (py_round (MotorController._current_left m) 1)
     (py_round (MotorController._current_right m) 1)
     (py_round (MotorController._dist_m m) 3)
     (py_round (MotorController._heading m) 1)
     (MotorController._emergency m).

End MotorTelemetry.

(** ** hardware/sensors.py: the battery monitor

    One pass of [_monitor_loop] for a measurement (v, i, p), with the
    callback that [SafetyManager.__init__] registers.  [alerted] is the
    loop's local flag. *)

Module BatteryMonitor.

Record t := mk {
  _soc : Q;
  _voltage : Q;
  _current_a : Q;
  _power_w : Q;
  alerted : bool
}.

Definition init : t := mk 100 cfg.BATTERY_NOMINAL_V 0 0 false.

(** The state of charge computed from the bus voltage. *)
Definition soc_of_voltage (v : Q) : Q :=
  let soc := ((v - cfg.BATTERY_MIN_V) / (cfg.BATTERY_MAX_V - cfg.BATTERY_MIN_V)) * 100 in
  py_max 0 (py_min 100 (py_round soc 1)).

Definition _monitor_step (v i p : Q) (b : t) (s : System) : t * System :=
  let soc := soc_of_voltage v in
  if Qltb soc cfg.BATTERY_LOW_THRESHOLD && negb (alerted b)
  then (mk soc v i p true, SafetyManager._on_low_battery soc s)
  else if Qle_bool cfg.BATTERY_LOW_THRESHOLD soc
  then (mk soc v i p false, s)
  else (mk soc v i p (alerted b), s).

End BatteryMonitor.

(** ** server/api.py: what the server does to the robot *)

Module RobotServer.

(** The body of [_ws_handler] for one message received at time [t]:
    [raw] is [None] when the text is not JSON. *)
Definition _ws_message (t : Q) (env : Env) (raw : option Cmd) (s : System)
    : option Resp * System :=
  let s := SafetyManager.heartbeat t s in
  match raw with
  | None => (None, s)
  | Some cmd =>
      let '(r, s) := NavigationController.handle_command env cmd s in
      (Some r, s)
  end.

(** [_http_command] for a body that is JSON, received at time [t]. *)
Definition _http_command (t : Q) (env : Env) (cmd : Cmd) (s : System) : Resp * System :=
  NavigationController.handle_command env cmd (SafetyManager.heartbeat t s).

Definition _http_estop (env : Env) (s : System) : System :=
  snd (NavigationController.handle_command env (command "estop") s).

Definition _http_estop_release (env : Env) (s : System) : System :=
  snd (NavigationController.handle_command env (command "estop_release") s).

(** One pass of [_telemetry_loop], after the broadcast: the overlay and the
    track-limit check both take the distance of the motor telemetry. *)
Definition _telemetry_tick (s : System) : System :=
  let telemetry := MotorTelemetry.get_telemetry (motors s) in
  let s := with_camera
             (CameraStream.update_overlay (MotorTelemetry.distance_m telemetry)
                (if _inspecting (nav s) then "INSP" else "IDLE")) s in
  SafetyManager.check_fosse_limits (MotorTelemetry.distance_m telemetry) s.

End RobotServer.

(** ** Calls on the motor controller, as data *)

Inductive MotorCall :=
| CallForward (speed : option Q)
| CallBackward (speed : option Q)
| CallTurnLeft (speed : option Q)
| CallTurnRight (speed : option Q)
| CallPivotLeft (speed : option Q)
| CallPivotRight (speed : option Q)
| CallSetSpeedPct (speed_pct : Q)
| CallStop
| CallBrake
| CallEmergencyStop
| CallReleaseEmergency
| CallRampTick
| CallTickLeft
| CallTickRight
| CallUpdateOdometry
| CallResetOdometry.

Definition call_motor (c : MotorCall) (m : MotorController.t) : MotorController.t :=
  match c with
  | CallForward sp => MotorController.forward sp m
  | CallBackward sp => MotorController.backward sp m
  | CallTurnLeft sp => MotorController.turn_left sp m
  | CallTurnRight sp => MotorController.turn_right sp m
  | CallPivotLeft sp => MotorController.pivot_left sp m
  | CallPivotRight sp => MotorController.pivot_right sp m
  | CallSetSpeedPct v => MotorController.set_speed_pct v m
  | CallStop => MotorController.stop m
  | CallBrake => MotorController.brake m
  | CallEmergencyStop => MotorController.emergency_stop m
  | CallReleaseEmergency => MotorController.release_emergency m
  | CallRampTick => MotorController._ramp_tick m
  | CallTickLeft => MotorController._tick_left m
  | CallTickRight => MotorController._tick_right m
  | CallUpdateOdometry => snd (MotorController.update_odometry m)
  | CallResetOdometry => MotorController.reset_odometry m
  end.

Definition call_motors (cs : list MotorCall) (m : MotorController.t) : MotorController.t :=
  fold_left (fun m c => call_motor c m) cs m.

(** The calls that only write through [_set_targets] or the ramp. *)
Definition is_motion_call (c : MotorCall) : bool :=
  match c with
  | CallForward _ | CallBackward _ | CallTurnLeft _ | CallTurnRight _
  | CallPivotLeft _ | CallPivotRight _ | CallSetSpeedPct _ | CallStop
  | CallRampTick => true
  | _ => false
  end.

(** A run of commands handled one after the other, each with its own
    environment; the results are dropped. *)
Definition handle_commands (cmds : list (Env * Cmd)) (s : System) : System :=
  fold_left (fun s ec => snd (NavigationController.handle_command (fst ec) (snd ec) s))
            cmds s.

(** The same run, with the interpreter's two string methods [py]. *)
Definition handle_commands_with (py : StrMethods)
    (cmds : list (Env * Cmd)) (s : System) : System :=
  fold_left
    (fun s ec => snd (NavigationController.handle_command_with py (fst ec) (snd ec) s))
    cmds s.

(** ** What can happen to the robot, as data

    The inbound messages, the sensor and button callbacks, and one pass of
    each background loop. *)

Inductive Event :=
| EvWsMessage (t : Q) (env : Env) (raw : option Cmd)
| EvHttpCommand (t : Q) (env : Env) (cmd : Cmd)
| EvHttpEstop (env : Env)
| EvHttpEstopRelease (env : Env)
| EvScan (name : string) (d : Q)
| EvEstopButton
| EvLowBattery (soc_pct : Q)
| EvWatchdog (now : Q)
| EvTelemetry
| EvRampTick
| EvEncoderLeft
| EvEncoderRight
| EvOdometry.

Definition run_event (e : Event) (s : System) : System :=
  match e with
  | EvWsMessage t env raw => snd (RobotServer._ws_message t env raw s)
  | EvHttpCommand t env cmd => snd (RobotServer._http_command t env cmd s)
  | EvHttpEstop env => RobotServer._http_estop env s
  | EvHttpEstopRelease env => RobotServer._http_estop_release env s
  | EvScan name d => _scan_sensor name d s
  | EvEstopButton => SafetyManager._on_estop_gpio s
  | EvLowBattery soc => SafetyManager._on_low_battery soc s
  | EvWatchdog now => SafetyManager._watchdog_check now s
  | EvTelemetry => RobotServer._telemetry_tick s
  | EvRampTick => with_motors MotorController._ramp_tick s
  | EvEncoderLeft => with_motors MotorController._tick_left s
  | EvEncoderRight => with_motors MotorController._tick_right s
  | EvOdometry => with_motors (fun m => snd (MotorController.update_odometry m)) s
  end.

Definition run_events (es : list Event) (s : System) : System :=
  fold_left (fun s e => run_event e s) es s.

(** ** Vocabulary of the statements *)

(** One wheel after [n] passes of the ramp loop toward a target that stays. *)
Fixpoint wheel_after (n : nat) (step current target : Q) : Q :=
  match n with
  | O => current
  | S n' => wheel_after n' step (MotorController.next_val step current target) target
  end.

(** The bound on the number of ticks: the ceiling of |current - target| / step. *)
Definition ticks_needed (step current target : Q) : Z :=
  Qceiling (Qabs (current - target) / step).

(** [c'] is what one tick may make of [c]: the target itself when the gap is
    below the step, and otherwise one step nearer and not beyond. *)
Definition one_step_toward (step c t c' : Q) : Prop :=
  (Qabs (c - t) < step /\ c' = t) \/
  (step <= Qabs (c - t) /\
   Qabs (c' - t) == Qabs (c - t) - step /\
   ((c < t /\ c' == c + step /\ c' <= t) \/
    (t < c /\ c' == c - step /\ t <= c'))).

(** A run of calls of [trigger_emergency], one per reason. *)
Definition trigger_emergency_calls (reasons : list Reason) (s : System) : System :=
  fold_left (fun s r => SafetyManager.trigger_emergency r s) reasons s.

(** The sensor looks the way the robot is commanded to move. *)
Definition correlated (st : RobotState) (sensor_name : string) : Prop :=
  (st = MOVING_FORWARD /\ sensor_name = "front") \/
  (st = MOVING_BACKWARD /\ sensor_name = "rear").

(** What [set_speed_pct(v)] makes of a wheel target [t]: a magnitude that is
    [|v|] brought into [20, 100], with the sign of [t], positive for zero. *)
Definition rescaled (v t t' : Q) : Prop :=
  20 <= Qabs t' <= 100 /\
  (Qabs v <= 20 -> Qabs t' == 20) /\
  (20 <= Qabs v <= 100 -> Qabs t' == Qabs v) /\
  (100 <= Qabs v -> Qabs t' == 100) /\
  (0 <= t -> 0 < t') /\
  (t < 0 -> t' < 0).

(** The three speed commands. *)
Definition speed_commands : list string := ["speed_up"; "speed_down"; "set_speed"].

(** [n] encoder pulses on each wheel, left then right. *)
Fixpoint tick_pairs (n : nat) (m : MotorController.t) : MotorController.t :=
  match n with
  | O => m
  | S n' => tick_pairs n' (MotorController._tick_right (MotorController._tick_left m))
  end.

(** A speed that is a valid percentage. *)
Definition in_range (x : Q) : Prop := -100 <= x <= 100.

(** The outputs of a channel agree with the ramped speed [current]: the
    stored speed, the duty, and the direction lines (forward is in1 high and
    in2 low on a channel that is not inverted). *)
Definition channel_follows (ch : MotorChannel.t) (current : Q) : Prop :=
  MotorChannel._speed ch == current /\
  MotorChannel.duty ch == Qabs current /\
  (0 < current ->
     MotorChannel.in1 ch = negb (MotorChannel.inverted ch) /\
     MotorChannel.in2 ch = MotorChannel.inverted ch) /\
  (current < 0 ->
     MotorChannel.in1 ch = MotorChannel.inverted ch /\
     MotorChannel.in2 ch = negb (MotorChannel.inverted ch)) /\
  (current == 0 -> MotorChannel.in1 ch = MotorChannel.in2 ch).

(** What holds of the motor controller in every state it can reach.  The
    heading is bounded by the closed interval: as a real number [h % 360] is
    below 360, as a float it can be 360.0 itself. *)
Definition motor_inv (m : MotorController.t) : Prop :=
  in_range (MotorController._target_left m) /\
  in_range (MotorController._target_right m) /\
  in_range (MotorController._current_left m) /\
  in_range (MotorController._current_right m) /\
  0 <= MotorController._dist_m m /\
  0 <= MotorController._heading m <= 360 /\
  (MotorController._emergency m = true ->
     MotorController._target_left m == 0 /\ MotorController._target_right m == 0 /\
     MotorController._current_left m == 0 /\ MotorController._current_right m == 0) /\
  channel_follows (MotorController._left m) (MotorController._current_left m) /\
  channel_follows (MotorController._right m) (MotorController._current_right m) /\
  MotorChannel.inverted (MotorController._left m) = false /\
  MotorChannel.inverted (MotorController._right m) = true.


(** ** Concrete states used to exercise the statements *)

(** The tick pairs of three aggregations in a row: the left wheel alone
    forward, then the left wheel back while the right one advances, then the
    right wheel back. *)
Definition heading_360_ticks : list (Z * Z) := [(5, 0); (-5, 2); (0, -2)]%Z.

(** The motors just after [forward(60)] from rest, and after an emergency
    stop from there. *)
Definition motors_forward_60 : MotorController.t :=
  MotorController.forward (Some 60) MotorController.init.

Definition motors_latched : MotorController.t :=
  MotorController.emergency_stop motors_forward_60.

Definition env0 : Env := mkEnv 0 true.

(** The robot at rest, as built at time 0. *)
Definition robot_idle : System := build_robot 0.

(** The robot after the operator's [forward], and after [turn_left]. *)
Definition robot_moving_forward : System :=
  snd (NavigationController.handle_command env0 (command "forward") robot_idle).

Definition robot_turning_left : System :=
  snd (NavigationController.handle_command env0 (command "turn_left") robot_idle).

(** The robot moving forward, stopped by the operator's [estop]. *)
Definition robot_estop_by_command : System :=
  snd (NavigationController.handle_command env0 (command "estop") robot_moving_forward).

(** After that, with no command for 16 s, the watchdog has brought the state
    back to [IDLE] while the motors are still latched. *)
Definition robot_latched_idle : System :=
  SafetyManager._watchdog_check 16 robot_estop_by_command.

(** The robot moving forward, latched by the safety manager when the scan
    loop measures a front obstacle at 10 cm. *)
Definition robot_latched_by_obstacle : System :=
  _scan_sensor "front" 10 robot_moving_forward.

(** After that, released by the operator's [estop_release] at time 100; then
    the obstacle is gone and the operator sends the robot forward again. *)
Definition robot_released_by_command : System :=
  snd (NavigationController.handle_command (mkEnv 100 true)
         (command "estop_release") robot_latched_by_obstacle).

Definition robot_forward_again : System :=
  snd (NavigationController.handle_command (mkEnv 101 true)
         (command "forward")
         (_scan_sensor "front" 999 robot_released_by_command)).

(** * Properties *)

(** ** Arithmetic lemmas *)

Lemma Qltb_lt (x y : Q) : Qltb x y = true <-> x < y.
Proof.
  unfold Qltb. rewrite negb_true_iff. split.
  - intros H. apply Qnot_le_lt. intros Hle.
    apply Qle_bool_iff in Hle. congruence.
  - intros H. destruct (Qle_bool y x) eqn:E; [|reflexivity].
    apply Qle_bool_iff in E. lra.
Qed.

Lemma Qltb_ge (x y : Q) : Qltb x y = false <-> y <= x.
Proof.
  unfold Qltb. rewrite negb_false_iff. apply Qle_bool_iff.
Qed.

Ltac case_Qltb x y :=
  let E := fresh "E" in
  destruct (Qltb x y) eqn:E;
  [apply Qltb_lt in E | apply Qltb_ge in E].

Ltac case_Qle_bool x y :=
  let E := fresh "E" in
  destruct (Qle_bool x y) eqn:E;
  [apply Qle_bool_iff in E
  |assert (y < x) by (apply Qltb_lt; unfold Qltb; rewrite E; reflexivity); clear E].

Lemma Qabs_cases (x : Q) : (0 <= x /\ Qabs x == x) \/ (x < 0 /\ Qabs x == - x).
Proof.
  destruct (Qlt_le_dec x 0) as [H|H].
  - right. split; [assumption|]. apply Qabs_neg. lra.
  - left. split; [assumption|]. apply Qabs_pos. assumption.
Qed.

(** [max(lo, min(hi, x))] is [x] brought into [lo, hi]. *)
Lemma clamp_spec (lo hi x : Q) :
  lo <= hi ->
  let y := py_max lo (py_min hi x) in
  lo <= y <= hi /\
  (x <= lo -> y == lo) /\ (hi <= x -> y == hi) /\ (lo <= x <= hi -> y == x).
Proof.
  intros Hlh. unfold py_max, py_min. cbv zeta.
  case_Qltb x hi.
  - case_Qltb lo x; repeat split; intros; lra.
  - case_Qltb lo hi; repeat split; intros; lra.
Qed.

Lemma py_max_lower (a b : Q) : a <= py_max a b /\ b <= py_max a b.
Proof. unfold py_max. case_Qltb a b; split; lra. Qed.

Lemma py_mod_range (x m : Q) : 0 < m -> 0 <= py_mod x m < m.
Proof.
  intros Hm. unfold py_mod.
  pose proof (Qfloor_le (x / m)) as Hlo.
  pose proof (Qlt_floor (x / m)) as Hhi.
  rewrite inject_Z_plus in Hhi.
  set (f := inject_Z (Qfloor (x / m))) in *.
  assert (Hx : x == m * (x / m)) by (field; lra).
  assert (H1 : m * f <= m * (x / m)) by (apply Qmult_le_l; assumption).
  assert (H2 : m * (x / m) < m * (f + inject_Z 1)) by (apply Qmult_lt_l; assumption).
  change (inject_Z 1) with 1 in H2.
  split; lra.
Qed.

Lemma py_mod_congruent (x m : Q) : x == py_mod x m + m * inject_Z (Qfloor (x / m)).
Proof. unfold py_mod. ring. Qed.

(** ** The ramp *)

Section Ramp.

Variable step : Q.
Hypothesis step_pos : 0 < step.

Lemma next_val_one_step (c t : Q) :
  one_step_toward step c t (MotorController.next_val step c t).
Proof.
  unfold one_step_toward, MotorController.next_val.
  case_Qltb (Qabs (c - t)) step.
  - left. split; [assumption | reflexivity].
  - right. split; [assumption|].
    destruct (Qabs_cases (c - t)) as [[Hs Ha]|[Hs Ha]]; rewrite Ha in *.
    + (* the wheel is above its target *)
      case_Qltb c t; [lra|].
      assert (Hn : 0 <= c - step - t) by lra.
      rewrite (Qabs_pos _ Hn). split; [ring|].
      right. repeat split; lra.
    + (* the wheel is below its target *)
      case_Qltb c t; [|lra].
      assert (Hn : c + step - t <= 0) by lra.
      rewrite (Qabs_neg _ Hn). split; [ring|].
      left. repeat split; lra.
Qed.

Lemma next_val_at_target (c t : Q) :
  c == t -> MotorController.next_val step c t = t.
Proof.
  intros Hc. unfold MotorController.next_val.
  assert (Hz : Qabs (c - t) == 0).
  { rewrite Qabs_pos; lra. }
  case_Qltb (Qabs (c - t)) step; [reflexivity | lra].
Qed.

Lemma wheel_after_stays (n : nat) :
  forall c t, c == t -> wheel_after n step c t == t.
Proof.
  induction n as [|n IH]; intros c t Hc; simpl.
  - assumption.
  - apply IH. rewrite next_val_at_target by assumption. reflexivity.
Qed.

Lemma wheel_after_reaches (n : nat) :
  forall c t, Qabs (c - t) <= inject_Z (Z.of_nat n) * step ->
  wheel_after n step c t == t.
Proof.
  induction n as [|n IH]; intros c t Hgap.
  - change (inject_Z (Z.of_nat 0)) with 0 in Hgap. cbn [wheel_after].
    destruct (Qabs_cases (c - t)) as [[Hs Ha]|[Hs Ha]]; rewrite Ha in Hgap; lra.
  - cbn [wheel_after].
    rewrite Nat2Z.inj_succ, <- Z.add_1_r, inject_Z_plus in Hgap.
    change (inject_Z 1) with 1 in Hgap.
    destruct (next_val_one_step c t) as [[Hlt Heq]|[Hge [Hred _]]].
    + rewrite Heq. apply wheel_after_stays. reflexivity.
    + apply IH. rewrite Hred. lra.
Qed.

Lemma ticks_needed_bound (c t : Q) (n : nat) :
  (ticks_needed step c t <= Z.of_nat n)%Z ->
  Qabs (c - t) <= inject_Z (Z.of_nat n) * step.
Proof.
  intros Hn. unfold ticks_needed in Hn.
  pose proof (Qle_ceiling (Qabs (c - t) / step)) as Hc.
  assert (Hz : inject_Z (Qceiling (Qabs (c - t) / step)) <= inject_Z (Z.of_nat n)).
  { rewrite <- Zle_Qle. assumption. }
  assert (Hq : Qabs (c - t) / step <= inject_Z (Z.of_nat n)) by lra.
  assert (Hx : Qabs (c - t) == (Qabs (c - t) / step) * step) by (field; lra).
  rewrite Hx. apply Qmult_le_compat_r; lra.
Qed.

Lemma wheel_after_converges (c t : Q) (n : nat) :
  (ticks_needed step c t <= Z.of_nat n)%Z -> wheel_after n step c t == t.
Proof. intros Hn. apply wheel_after_reaches, ticks_needed_bound, Hn. Qed.

End Ramp.

Lemma ramp_tick_fields (m : MotorController.t) :
  MotorController._emergency m = false ->
  let m' := MotorController._ramp_tick m in
  MotorController._current_left m' =
    MotorController.next_val cfg.RAMP_STEP
      (MotorController._current_left m) (MotorController._target_left m) /\
  MotorController._current_right m' =
    MotorController.next_val cfg.RAMP_STEP
      (MotorController._current_right m) (MotorController._target_right m) /\
  MotorController._target_left m' = MotorController._target_left m /\
  MotorController._target_right m' = MotorController._target_right m /\
  MotorController._emergency m' = false.
Proof.
  intros He. unfold MotorController._ramp_tick. rewrite He. cbn.
  repeat split; assumption.
Qed.

Lemma ramp_loop_wheels (n : nat) :
  forall m, MotorController._emergency m = false ->
  MotorController._current_left (MotorController._ramp_loop n m) =
    wheel_after n cfg.RAMP_STEP
      (MotorController._current_left m) (MotorController._target_left m) /\
  MotorController._current_right (MotorController._ramp_loop n m) =
    wheel_after n cfg.RAMP_STEP
      (MotorController._current_right m) (MotorController._target_right m).
Proof.
  induction n as [|n IH]; intros m He.
  - split; reflexivity.
  - cbn [MotorController._ramp_loop wheel_after].
    destruct (ramp_tick_fields m He) as (Hl & Hr & Htl & Htr & He').
    destruct (IH _ He') as [IHl IHr].
    rewrite IHl, IHr, Hl, Hr, Htl, Htr. split; reflexivity.
Qed.

Lemma RAMP_STEP_pos : 0 < cfg.RAMP_STEP.
Proof. reflexivity. Qed.



Example ramp_tick_from_rest :
  MotorController._current_left (MotorController._ramp_tick motors_forward_60) = 5.
Proof. reflexivity. Qed.

Example ramp_tick_snaps :
  MotorController.next_val 5 58 60 = 60 /\ MotorController.next_val 5 (-3) 0 = 0.
Proof. split; reflexivity. Qed.

(** ** Target updates *)

Lemma set_targets_unlatched (l r : Q) (m : MotorController.t) :
  MotorController._emergency m = false ->
  MotorController._set_targets l r m =
  MotorController.with_targets
    (py_max (- cfg.SPEED_MAX_PERCENT) (py_min cfg.SPEED_MAX_PERCENT l))
    (py_max (- cfg.SPEED_MAX_PERCENT) (py_min cfg.SPEED_MAX_PERCENT r)) m.
Proof. intros He. unfold MotorController._set_targets. rewrite He. reflexivity. Qed.

Lemma set_targets_latched (l r : Q) (m : MotorController.t) :
  MotorController._emergency m = true -> MotorController._set_targets l r m = m.
Proof. intros He. unfold MotorController._set_targets. rewrite He. reflexivity. Qed.

Lemma speed_bounds : - cfg.SPEED_MAX_PERCENT <= cfg.SPEED_MAX_PERCENT.
Proof. unfold cfg.SPEED_MAX_PERCENT. lra. Qed.

(** C6. [_set_targets(left, right)] with the latch clear stores each argument
    brought into [-100, 100]: the stored target lies in the interval, is the
    bound the argument passes, and is the argument itself when that lies
    inside; nothing else of the controller changes.  With the latch set the
    call changes nothing at all. *)
Theorem set_targets_clamps_unless_latched (left right : Q) (m : MotorController.t) :
  let m' := MotorController._set_targets left right m in
  (MotorController._emergency m = false ->
     (-100 <= MotorController._target_left m' <= 100 /\
      (left <= -100 -> MotorController._target_left m' == -100) /\
      (100 <= left -> MotorController._target_left m' == 100) /\
      (-100 <= left <= 100 -> MotorController._target_left m' == left)) /\
     (-100 <= MotorController._target_right m' <= 100 /\
      (right <= -100 -> MotorController._target_right m' == -100) /\
      (100 <= right -> MotorController._target_right m' == 100) /\
      (-100 <= right <= 100 -> MotorController._target_right m' == right)) /\
     m' = MotorController.with_targets
            (MotorController._target_left m') (MotorController._target_right m') m) /\
  (MotorController._emergency m = true -> m' = m).
Proof.
  cbv zeta. split.
  - intros He. rewrite (set_targets_unlatched left right m He).
    cbn [MotorController.with_targets MotorController._target_left
         MotorController._target_right].
    split; [exact (clamp_spec (-(100)) 100 left speed_bounds)|].
    split; [exact (clamp_spec (-(100)) 100 right speed_bounds)|].
    reflexivity.
  - apply set_targets_latched.
Qed.

(** 250 is stored as 100 and -40 as itself; latched motors ignore the call. *)
Lemma set_targets_clamps_unless_latched_witness :
  MotorController._target_left
    (MotorController._set_targets 250 (-40) MotorController.init) == 100 /\
  MotorController._target_right
    (MotorController._set_targets 250 (-40) MotorController.init) == -40 /\
  MotorController._set_targets 250 (-40) motors_latched = motors_latched.
Proof.
  destruct (set_targets_clamps_unless_latched 250 (-40) MotorController.init)
    as [H _].
  destruct (H eq_refl) as ((_ & _ & Hl & _) & (_ & _ & _ & Hr) & _).
  split; [apply Hl; lra|]. split; [apply Hr; lra|].
  apply (set_targets_clamps_unless_latched 250 (-40) motors_latched).
  reflexivity.
Defined.

(** ** Odometry *)

(** As real numbers the heading changes of [heading_360_ticks] cancel and
    the heading is back at 0. *)
Lemma heading_360_ticks_real :
  MotorController._heading
    (fold_left (fun m t => snd (MotorController.update_odometry
                                  (MotorController.with_odometry (fst t) (snd t)
                                     (MotorController._dist_m m)
                                     (MotorController._heading m) m)))
               heading_360_ticks MotorController.init) == 0.
Proof. vm_compute. reflexivity. Qed.

(** C9. On binary64 numbers [update_odometry] does not keep the heading
    below 360.  From the heading 0.0 and the distance 0.0, three
    aggregations with the tick pairs (5, 0), (-5, 2) and (0, -2) all
    succeed and leave the heading at 360.0 exactly: the second leaves
    0x1.1111111111p-2, the third adds the heading change
    -0x1.1111111111111p-2, the sum is -0x1.11p-46, and [%] returns [fmod]
    of it plus 360, which rounds to 360.0.  The rest of what the
    aggregation owes holds on this run: both tick counters are back at zero
    and the distance has grown. *)
Theorem update_odometry_heading_reaches_360 :
  exists m3 : Binary64.t,
    Binary64.aggregate heading_360_ticks Binary64.init = Some m3 /\
    Binary64._heading m3 = Binary64.of_int 360 /\
    PrimFloat.ltb (Binary64._heading m3) (Binary64.of_int 360) = false /\
    PrimFloat.ltb (Binary64._dist_m Binary64.init) (Binary64._dist_m m3) = true /\
    Binary64._ticks_left m3 = 0%Z /\
    Binary64._ticks_right m3 = 0%Z.
Proof.
  eexists. split; [vm_compute; reflexivity|].
  repeat split; vm_compute; reflexivity.
Qed.

(** The two aggregations before: the heading is where it should be. *)
Example heading_before_360 :
  (m ← Binary64.aggregate [(5, 0); (-5, 2)]%Z Binary64.init;
   Some (PrimFloat.ltb (Binary64._heading m) (Binary64.of_int 360)))
  = Some true.
Proof. vm_compute. reflexivity. Qed.

(** [%] on floats: the sign of the divisor, and the divisor itself for a
    tiny negative dividend. *)
Example float_rem_values :
  Binary64.float_rem (Binary64.of_int 725) (Binary64.of_int 360)
    = Some (Binary64.of_int 5) /\
  Binary64.float_rem (Binary64.of_int (-1)) (Binary64.of_int 360)
    = Some (Binary64.of_int 359) /\
  Binary64.float_rem (Binary64.of_int 725) (Binary64.of_int (-360))
    = Some (Binary64.of_int (-355)) /\
  Binary64.float_rem (Z.ldexp (Binary64.of_int (-1)) (-46)) (Binary64.of_int 360)
    = Some (Binary64.of_int 360) /\
  Binary64.float_rem (Binary64.of_int 1) (Binary64.of_int 0) = None.
Proof. repeat split; vm_compute; reflexivity. Qed.

Example odometry_straight_line :
  let m := MotorController.with_odometry 360 360 0 0 MotorController.init in
  fst (MotorController.update_odometry m) = (377 # 1000, 0 # 10) /\
  MotorController._dist_m (snd (MotorController.update_odometry m))
    == MotorController.wheel_circ.
Proof. split; reflexivity. Qed.

Example odometry_pivot :
  let m := MotorController.with_odometry 0 360 0 0 MotorController.init in
  let m' := snd (MotorController.update_odometry m) in
  MotorController._dist_m m' == MotorController.arc 360 / 2 /\
  MotorController._heading m' == math_degrees (MotorController.arc 360 / (45 # 100)).
Proof. split; reflexivity. Qed.

Example odometry_reversing_adds_distance :
  let m := MotorController.with_odometry (-360) (-360) 1 0 MotorController.init in
  MotorController._dist_m (snd (MotorController.update_odometry m))
    == 1 + MotorController.wheel_circ.
Proof. reflexivity. Qed.

(** ** The emergency latch of the safety manager *)

Lemma trigger_emergency_latched (r : Reason) (s : System) :
  _estop_active (safety s) = true -> SafetyManager.trigger_emergency r s = s.
Proof. intros H. unfold SafetyManager.trigger_emergency. rewrite H. reflexivity. Qed.

Lemma trigger_emergency_sets_latch (r : Reason) (s : System) :
  _estop_active (safety (SafetyManager.trigger_emergency r s)) = true.
Proof.
  unfold SafetyManager.trigger_emergency.
  destruct (_estop_active (safety s)) eqn:E; [assumption|].
  cbn. destruct (_nav_linked (safety s)); reflexivity.
Qed.

Lemma trigger_emergency_unlatched (r : Reason) (s : System) :
  _estop_active (safety s) = false ->
  let s' := SafetyManager.trigger_emergency r s in
  motors s' = MotorController.emergency_stop (motors s) /\
  leds s' = LedController.set_state "emergency" (leds s) /\
  nav s' = (if _nav_linked (safety s) then put_state EMERGENCY_STOP (nav s) else nav s) /\
  safety s' = put_estop_active true (safety s) /\
  camera s' = camera s /\ obstacle_mgr s' = obstacle_mgr s.
Proof.
  intros H. unfold SafetyManager.trigger_emergency. rewrite H. cbn.
  destruct (_nav_linked (safety s)); repeat split; reflexivity.
Qed.

Lemma trigger_emergency_calls_latched (rs : list Reason) :
  forall s, _estop_active (safety s) = true -> trigger_emergency_calls rs s = s.
Proof.
  induction rs as [|r rs IH]; intros s H; [reflexivity|].
  unfold trigger_emergency_calls in *. cbn [fold_left].
  rewrite (trigger_emergency_latched r s H). apply IH. assumption.
Qed.

(** C4. [trigger_emergency] is idempotent.  A call made while the latch is
    set returns the whole system unchanged, so the latch, the motors, the
    LEDs and the robot state stay as they were; and after a first call from
    any state the latch is set, so any further run of calls leaves the
    system exactly as the first call left it. *)
Theorem trigger_emergency_idempotent (s : System) (r : Reason) (rs : list Reason) :
  let s1 := SafetyManager.trigger_emergency r s in
  (_estop_active (safety s) = true -> s1 = s) /\
  _estop_active (safety s1) = true /\
  trigger_emergency_calls rs s1 = s1.
Proof.
  cbv zeta. split; [apply trigger_emergency_latched|].
  split; [apply trigger_emergency_sets_latch|].
  apply trigger_emergency_calls_latched, trigger_emergency_sets_latch.
Qed.

(** A second trigger on the robot latched by an obstacle changes nothing. *)
Lemma trigger_emergency_idempotent_witness :
  _estop_active (safety robot_latched_by_obstacle) = true /\
  SafetyManager.trigger_emergency (ReasonBattery 3) robot_latched_by_obstacle
    = robot_latched_by_obstacle.
Proof.
  split; [reflexivity|].
  exact (proj1 (trigger_emergency_idempotent robot_latched_by_obstacle
                  (ReasonBattery 3) []) eq_refl).
Defined.

(** ** The watchdog *)

Lemma stop_unlatched (m : MotorController.t) :
  MotorController._emergency m = false ->
  MotorController.stop m = MotorController.with_targets 0 0 m.
Proof.
  intros He. unfold MotorController.stop.
  rewrite (set_targets_unlatched 0 0 m He). reflexivity.
Qed.

Lemma stop_keeps_latch (m : MotorController.t) :
  MotorController._emergency (MotorController.stop m) = MotorController._emergency m.
Proof.
  unfold MotorController.stop, MotorController._set_targets.
  destruct (MotorController._emergency m) eqn:E; [assumption|]. cbn. assumption.
Qed.

Lemma watchdog_check_fires (now : Q) (s : System) :
  _estop_active (safety s) = false ->
  SafetyManager.WATCHDOG_TIMEOUT_S < now - _last_command_t (safety s) ->
  SafetyManager._watchdog_check now s =
  mkSystem (MotorController.stop (motors s))
           (LedController.set_state "warning" (leds s))
           (camera s) (obstacle_mgr s) (safety s)
           (if _nav_linked (safety s) then put_state IDLE (nav s) else nav s).
Proof.
  intros He Ht. unfold SafetyManager._watchdog_check. rewrite He. cbn [negb].
  apply Qltb_lt in Ht. rewrite Ht. cbn.
  destruct (_nav_linked (safety s)); reflexivity.
Qed.

Lemma obstacle_critical_latches (sensor : string) (d : Q) (s : System) :
  _nav_linked (safety s) = true ->
  (_state (nav s) = MOVING_FORWARD /\ sensor = "front") \/
  (_state (nav s) = MOVING_BACKWARD /\ sensor = "rear") ->
  SafetyManager._on_obstacle_critical sensor d s =
  SafetyManager.trigger_emergency (ReasonObstacle sensor d) s.
Proof.
  intros Hl Hc. unfold SafetyManager._on_obstacle_critical. rewrite Hl.
  destruct Hc as [[Hs Hn]|[Hs Hn]]; rewrite Hs, Hn; reflexivity.
Qed.

(** C7. A watchdog check made with the latch clear and more than 15 s since
    the last heartbeat performs [stop()] on the motors, which with the motor
    latch clear zeroes both targets and leaves the current speeds to the
    ramp, which brings them to zero; it shows the warning pattern; it leaves the safety latch and the
    motor latch as they were; and the robot state becomes [IDLE] when the
    navigation controller is linked and is untouched otherwise, so it is not
    made [EMERGENCY_STOP].  A critical front obstacle met while moving
    forward from the same state sets both latches and the state
    [EMERGENCY_STOP] instead. *)
Theorem watchdog_timeout_soft_stop (now : Q) (s : System) :
  _estop_active (safety s) = false ->
  SafetyManager.WATCHDOG_TIMEOUT_S < now - _last_command_t (safety s) ->
  let s' := SafetyManager._watchdog_check now s in
  motors s' = MotorController.stop (motors s) /\
  (MotorController._emergency (motors s) = false ->
     motors s' = MotorController.with_targets 0 0 (motors s) /\
     forall n : nat,
       (ticks_needed cfg.RAMP_STEP (MotorController._current_left (motors s)) 0
          <= Z.of_nat n)%Z ->
       (ticks_needed cfg.RAMP_STEP (MotorController._current_right (motors s)) 0
          <= Z.of_nat n)%Z ->
       MotorController._current_left (MotorController._ramp_loop n (motors s')) == 0 /\
       MotorController._current_right (MotorController._ramp_loop n (motors s')) == 0) /\
  LedController._current_state (leds s') = "warning" /\
  safety s' = safety s /\
  _estop_active (safety s') = false /\
  MotorController._emergency (motors s') = MotorController._emergency (motors s) /\
  (_nav_linked (safety s) = true -> _state (nav s') = IDLE) /\
  (_nav_linked (safety s) = false -> nav s' = nav s) /\
  (_state (nav s) <> EMERGENCY_STOP -> _state (nav s') <> EMERGENCY_STOP) /\
  (forall d : Q,
     _nav_linked (safety s) = true -> _state (nav s) = MOVING_FORWARD ->
     let c := SafetyManager._on_obstacle_critical "front" d s in
     _estop_active (safety c) = true /\
     MotorController._emergency (motors c) = true /\
     _state (nav c) = EMERGENCY_STOP).
Proof.
  intros He Ht s'. subst s'. rewrite (watchdog_check_fires now s He Ht).
  cbn [motors leds safety nav].
  split; [reflexivity|]. split.
  { intros Hm. rewrite (stop_unlatched _ Hm). split; [reflexivity|].
    intros n Hnl Hnr.
    destruct (ramp_loop_wheels n (MotorController.with_targets 0 0 (motors s)) Hm)
      as [Wl Wr].
    rewrite Wl, Wr.
    split; apply wheel_after_converges; solve [apply RAMP_STEP_pos | assumption]. }
  split; [reflexivity|]. split; [reflexivity|]. split; [assumption|].
  split; [apply stop_keeps_latch|].
  split; [intros ->; reflexivity|]. split; [intros ->; reflexivity|].
  split.
  - destruct (_nav_linked (safety s)); [discriminate | trivial].
  - intros d Hl Hs. cbv zeta.
    rewrite (obstacle_critical_latches "front" d s Hl) by (left; split; trivial).
    destruct (trigger_emergency_unlatched (ReasonObstacle "front" d) s He)
      as (Hm & _ & Hn & Hsf & _).
    rewrite Hm, Hn, Hsf, Hl. repeat split.
Qed.

(** Sixteen seconds of silence while moving forward: targets to 0, no latch,
    state [IDLE]; the critical obstacle gives [EMERGENCY_STOP]. *)
Lemma watchdog_timeout_soft_stop_witness :
  let s' := SafetyManager._watchdog_check 16 robot_moving_forward in
  _estop_active (safety robot_moving_forward) = false /\
  SafetyManager.WATCHDOG_TIMEOUT_S < 16 - _last_command_t (safety robot_moving_forward) /\
  MotorController._target_left (motors robot_moving_forward) = 60 /\
  MotorController._target_left (motors s') = 0 /\
  _estop_active (safety s') = false /\
  _state (nav s') = IDLE /\
  _state (nav (SafetyManager._on_obstacle_critical "front" 10 robot_moving_forward))
    = EMERGENCY_STOP.
Proof.
  cbv zeta.
  assert (Ht : SafetyManager.WATCHDOG_TIMEOUT_S
               < 16 - _last_command_t (safety robot_moving_forward))
    by reflexivity.
  destruct (watchdog_timeout_soft_stop 16 robot_moving_forward eq_refl Ht)
    as (_ & Hm & _ & _ & He & _ & Hn & _ & _ & Hc).
  split; [reflexivity|]. split; [exact Ht|]. split; [reflexivity|].
  split; [rewrite (proj1 (Hm eq_refl)); reflexivity|].
  split; [exact He|]. split; [exact (Hn eq_refl)|].
  exact (proj2 (proj2 (Hc 10 eq_refl eq_refl))).
Defined.

(** ** The track-limit check *)





(** ** The operator's emergency commands *)

Lemma cmd_estop_leaves_safety (env : Env) (cmd : Cmd) (s : System) :
  safety (snd (NavigationController._cmd_estop env cmd s)) = safety s.
Proof. reflexivity. Qed.

Lemma cmd_estop_release_leaves_safety (env : Env) (cmd : Cmd) (s : System) :
  safety (snd (NavigationController._cmd_estop_release env cmd s)) = safety s.
Proof. reflexivity. Qed.

(** C1. The handlers of [estop] and [estop_release] do not go through the
    safety manager.  Handling [estop] while moving forward is accepted,
    latches the motors and sets [EMERGENCY_STOP], yet the safety manager's
    latch, and so [is_emergency] and the telemetry [estop] entry, stay
    false.  Handling [estop_release] at time 100 on a robot that the safety
    manager latched is accepted, unlatches the motors and sets [IDLE], yet
    the safety manager's latch stays set and its watchdog clock keeps the
    old time 0, unlike what [SafetyManager.release_emergency] does.  Once
    the robot is sent forward again, a front obstacle measured at 5 cm then
    stops nothing: the motors stay unlatched with their targets of 60 and
    the state stays [MOVING_FORWARD]. *)
Theorem cmd_estop_bypasses_safety_manager :
  let r1 := fst (NavigationController.handle_command env0 (command "estop")
                   robot_moving_forward) in
  let s1 := robot_estop_by_command in
  let r2 := fst (NavigationController.handle_command (mkEnv 100 true)
                   (command "estop_release") robot_latched_by_obstacle) in
  let s2 := robot_released_by_command in
  let s3 := _scan_sensor "front" 5 robot_forward_again in
  (ok r1 = true /\ _state (nav s1) = EMERGENCY_STOP /\
   MotorController._emergency (motors s1) = true /\
   SafetyManager.is_emergency s1 = false /\
   SafetyManager.telemetry_estop s1 = false) /\
  (SafetyManager.is_emergency robot_latched_by_obstacle = true /\
   ok r2 = true /\ _state (nav s2) = IDLE /\
   MotorController._emergency (motors s2) = false /\
   SafetyManager.is_emergency s2 = true /\
   _last_command_t (safety s2) = 0 /\
   SafetyManager.is_emergency
     (SafetyManager.release_emergency 100 (ReasonText "") robot_latched_by_obstacle)
     = false /\
   _last_command_t
     (safety (SafetyManager.release_emergency 100 (ReasonText "")
                robot_latched_by_obstacle)) = 100) /\
  (_state (nav robot_forward_again) = MOVING_FORWARD /\
   motors s3 = motors robot_forward_again /\
   _state (nav s3) = MOVING_FORWARD /\
   MotorController._emergency (motors s3) = false /\
   MotorController._target_left (motors s3) = 60 /\
   MotorController._target_right (motors s3) = 60).
Proof. cbv zeta. repeat split. Qed.

(** ** The critical-obstacle callback *)

Lemma correlated_decide (st : RobotState) (sensor : string) :
  bool_decide (st = MOVING_FORWARD) && String.eqb sensor "front"
  || bool_decide (st = MOVING_BACKWARD) && String.eqb sensor "rear" = true
  <-> correlated st sensor.
Proof.
  unfold correlated.
  rewrite orb_true_iff, !andb_true_iff, !bool_decide_eq_true, !String.eqb_eq.
  reflexivity.
Qed.

Lemma classic_correlated (st : RobotState) (sensor : string) :
  correlated st sensor \/ ~ correlated st sensor.
Proof.
  destruct (bool_decide (st = MOVING_FORWARD) && String.eqb sensor "front"
            || bool_decide (st = MOVING_BACKWARD) && String.eqb sensor "rear")
    eqn:E.
  - left. apply correlated_decide. assumption.
  - right. intros H. apply correlated_decide in H. congruence.
Qed.

Lemma obstacle_critical_unrelated (sensor : string) (d : Q) (s : System) :
  _nav_linked (safety s) = true ->
  ~ correlated (_state (nav s)) sensor ->
  SafetyManager._on_obstacle_critical sensor d s = s.
Proof.
  intros Hl Hc. unfold SafetyManager._on_obstacle_critical. rewrite Hl. cbv zeta.
  destruct (bool_decide (_state (nav s) = MOVING_FORWARD) && String.eqb sensor "front"
            || bool_decide (_state (nav s) = MOVING_BACKWARD) && String.eqb sensor "rear")
    eqn:E; [|reflexivity].
  apply correlated_decide in E. contradiction.
Qed.

(** C2 as stated fails: with the navigation controller linked and the robot
    turning left, a critical reading of the left sensor leaves the whole
    system as it was, the right wheel keeping its target of 60, so no
    [brake()] is performed. *)
Lemma obstacle_critical_unrelated_no_brake :
  let s := robot_turning_left in
  let s' := SafetyManager._on_obstacle_critical "left" 10 s in
  _nav_linked (safety s) = true /\
  _state (nav s) = TURNING_LEFT /\
  ~ correlated (_state (nav s)) "left" /\
  s' = s /\
  MotorController._target_right (motors s') = 60 /\
  s' <> with_motors MotorController.brake s.
Proof.
  cbv zeta. repeat split.
  - intros [[H _]|[H _]]; vm_compute in H; discriminate.
  - intros H. apply (f_equal (fun x => MotorController._target_right (motors x))) in H.
    vm_compute in H. discriminate.
Qed.

(** C2, amended.  With the navigation controller linked, the critical
    callback is a call of [trigger_emergency] when the sensor correlates with
    the commanded motion (front while [MOVING_FORWARD], rear while
    [MOVING_BACKWARD]) and changes nothing otherwise, so from a clear latch
    the latch ends set exactly when the sensor correlates.  With no
    navigation controller linked it performs [brake()] on the motors and
    touches neither latch. *)
Theorem obstacle_critical_latches_iff_correlated (sensor : string) (d : Q) (s : System) :
  let s' := SafetyManager._on_obstacle_critical sensor d s in
  (_nav_linked (safety s) = true ->
     (correlated (_state (nav s)) sensor ->
        s' = SafetyManager.trigger_emergency (ReasonObstacle sensor d) s) /\
     (~ correlated (_state (nav s)) sensor -> s' = s) /\
     (_estop_active (safety s) = false ->
        (_estop_active (safety s') = true <-> correlated (_state (nav s)) sensor) /\
        (MotorController._emergency (motors s') = true <->
           correlated (_state (nav s)) sensor
           \/ MotorController._emergency (motors s) = true))) /\
  (_nav_linked (safety s) = false ->
     s' = with_motors MotorController.brake s /\
     safety s' = safety s /\
     MotorController._emergency (motors s') = MotorController._emergency (motors s) /\
     MotorController._target_left (motors s') = 0 /\
     MotorController._target_right (motors s') = 0 /\
     MotorController._current_left (motors s') = 0 /\
     MotorController._current_right (motors s') = 0).
Proof.
  cbv zeta. split.
  - intros Hl. split; [apply obstacle_critical_latches; assumption|].
    split; [apply obstacle_critical_unrelated; assumption|].
    intros He.
    destruct (classic_correlated (_state (nav s)) sensor) as [Hc|Hc].
    + rewrite (obstacle_critical_latches sensor d s Hl Hc).
      destruct (trigger_emergency_unlatched (ReasonObstacle sensor d) s He)
        as (Hm & _ & _ & Hs & _).
      rewrite Hm, Hs. cbn. split; split; auto.
    + rewrite (obstacle_critical_unrelated sensor d s Hl Hc).
      rewrite He. split; split; try discriminate; try contradiction; auto.
      intros [H|H]; [contradiction | assumption].
  - intros Hl. unfold SafetyManager._on_obstacle_critical. rewrite Hl.
    repeat split.
Qed.

(** Front sensor while moving forward, left sensor while turning left, and
    the front sensor with no navigation controller linked. *)
Lemma obstacle_critical_latches_iff_correlated_witness :
  _nav_linked (safety robot_moving_forward) = true /\
  correlated (_state (nav robot_moving_forward)) "front" /\
  _estop_active (safety robot_moving_forward) = false /\
  _estop_active
    (safety (SafetyManager._on_obstacle_critical "front" 10 robot_moving_forward)) = true /\
  ~ correlated (_state (nav robot_turning_left)) "left" /\
  SafetyManager._on_obstacle_critical "left" 10 robot_turning_left = robot_turning_left /\
  _nav_linked (safety (with_safety (put_nav_linked false) robot_moving_forward)) = false /\
  MotorController._target_left
    (motors (SafetyManager._on_obstacle_critical "front" 10
               (with_safety (put_nav_linked false) robot_moving_forward))) = 0.
Proof.
  assert (Hc : correlated (_state (nav robot_moving_forward)) "front")
    by (left; split; reflexivity).
  assert (Hn : ~ correlated (_state (nav robot_turning_left)) "left")
    by (intros [[H _]|[H _]]; vm_compute in H; discriminate).
  split; [reflexivity|]. split; [exact Hc|]. split; [reflexivity|].
  split.
  { destruct (obstacle_critical_latches_iff_correlated "front" 10 robot_moving_forward)
      as [H _].
    destruct (H eq_refl) as (_ & _ & Hiff).
    exact (proj2 (proj1 (Hiff eq_refl)) Hc). }
  split; [exact Hn|]. split.
  { destruct (obstacle_critical_latches_iff_correlated "left" 10 robot_turning_left)
      as [H _].
    destruct (H eq_refl) as (_ & Hu & _). exact (Hu Hn). }
  split; [reflexivity|].
  destruct (obstacle_critical_latches_iff_correlated "front" 10
              (with_safety (put_nav_linked false) robot_moving_forward)) as [_ H].
  destruct (H eq_refl) as (_ & _ & _ & Ht & _). exact Ht.
Defined.

(** ** The command router under emergency stop *)

(** Opens [handle_command] and keeps the action under its name. *)
Ltac unfold_router :=
  unfold NavigationController.handle_command,
         NavigationController.handle_command_with;
  cbv zeta;
  repeat match goal with
  | |- context [NavigationController.action_with ascii_str ?c] =>
      change (NavigationController.action_with ascii_str c)
        with (NavigationController.action_of c)
  end.

Lemma handle_command_with_unknown (py : StrMethods)
    (env : Env) (cmd : Cmd) (s : System) :
  NavigationController.action_with py cmd ∉ VALID_COMMANDS ->
  NavigationController.handle_command_with py env cmd s =
  (NavigationController._resp false
     (MsgUnknown (NavigationController.action_with py cmd)) None s, s).
Proof.
  intros H. unfold NavigationController.handle_command_with. cbv zeta.
  rewrite bool_decide_eq_false_2 by assumption. reflexivity.
Qed.

Lemma handle_command_with_emergency (py : StrMethods)
    (env : Env) (cmd : Cmd) (s : System) :
  NavigationController.action_with py cmd ∈ VALID_COMMANDS ->
  _state (nav s) = EMERGENCY_STOP ->
  NavigationController.action_with py cmd <> "estop_release" ->
  NavigationController.action_with py cmd <> "ping" ->
  NavigationController.handle_command_with py env cmd s =
  (NavigationController._resp false MSG_EMERGENCY_ACTIVE None s, s).
Proof.
  intros Hv Hs Hr Hp. unfold NavigationController.handle_command_with. cbv zeta.
  rewrite bool_decide_eq_true_2 by assumption.
  rewrite (bool_decide_eq_true_2 _ Hs).
  rewrite bool_decide_eq_false_2; [reflexivity|].
  rewrite !elem_of_cons, elem_of_nil. tauto.
Qed.

Lemma handle_command_unknown (env : Env) (cmd : Cmd) (s : System) :
  NavigationController.action_of cmd ∉ VALID_COMMANDS ->
  NavigationController.handle_command env cmd s =
  (NavigationController._resp false
     (MsgUnknown (NavigationController.action_of cmd)) None s, s).
Proof. apply handle_command_with_unknown. Qed.

Lemma handle_command_emergency (env : Env) (cmd : Cmd) (s : System) :
  NavigationController.action_of cmd ∈ VALID_COMMANDS ->
  _state (nav s) = EMERGENCY_STOP ->
  NavigationController.action_of cmd <> "estop_release" ->
  NavigationController.action_of cmd <> "ping" ->
  NavigationController.handle_command env cmd s =
  (NavigationController._resp false MSG_EMERGENCY_ACTIVE None s, s).
Proof. apply handle_command_with_emergency. Qed.

(** C3 as stated fails: in [EMERGENCY_STOP] the command of action
    [unknown_xyz], which is neither [estop_release] nor [ping], is refused
    with the unknown-command message, not with the emergency message. *)
Lemma emergency_unknown_action_other_message :
  let cmd := command "unknown_xyz" in
  let r := fst (NavigationController.handle_command env0 cmd robot_estop_by_command) in
  _state (nav robot_estop_by_command) = EMERGENCY_STOP /\
  NavigationController.action_of cmd <> "estop_release" /\
  NavigationController.action_of cmd <> "ping" /\
  ok r = false /\
  msg r = MsgUnknown "unknown_xyz" /\
  msg r <> MSG_EMERGENCY_ACTIVE.
Proof.
  cbv zeta. repeat split; try discriminate.
Qed.

(** C3, amended.  Whatever [str.lower] and [str.strip] are ([py]): in
    [EMERGENCY_STOP], a command whose action, lower-cased and stripped by
    them, is neither [estop_release] nor [ping] is refused and changes
    nothing: the result has [ok] false, the state name [EMERGENCY_STOP] and
    the stored speed, and the system, robot state and stored speed
    included, is returned as it was.  The message is the emergency message
    when the lower-cased and stripped action is one of the valid commands,
    and the unknown-command message naming it otherwise. *)
Theorem emergency_stop_rejects_commands (py : StrMethods)
    (env : Env) (cmd : Cmd) (s : System) :
  _state (nav s) = EMERGENCY_STOP ->
  NavigationController.action_with py cmd <> "estop_release" ->
  NavigationController.action_with py cmd <> "ping" ->
  let r := fst (NavigationController.handle_command_with py env cmd s) in
  let s' := snd (NavigationController.handle_command_with py env cmd s) in
  s' = s /\
  ok r = false /\
  state r = "EMERGENCY_STOP" /\
  speed r = _speed_pct (nav s) /\
  extra r = None /\
  (NavigationController.action_with py cmd ∈ VALID_COMMANDS ->
     msg r = MSG_EMERGENCY_ACTIVE) /\
  (NavigationController.action_with py cmd ∉ VALID_COMMANDS ->
     msg r = MsgUnknown (NavigationController.action_with py cmd)).
Proof.
  intros Hs Hr Hp. cbv zeta.
  destruct (decide (NavigationController.action_with py cmd ∈ VALID_COMMANDS)) as [Hv|Hv].
  - rewrite (handle_command_with_emergency py env cmd s Hv Hs Hr Hp).
    unfold NavigationController._resp. cbn [fst snd ok state speed extra msg].
    rewrite Hs. repeat split. intros Hn. contradiction.
  - rewrite (handle_command_with_unknown py env cmd s Hv).
    unfold NavigationController._resp. cbn [fst snd ok state speed extra msg].
    rewrite Hs. repeat split. intros Hn. contradiction.
Qed.

(** [" Forward "], ASCII text, sent to the robot stopped by [estop]. *)
Lemma emergency_stop_rejects_commands_witness :
  let cmd := command " Forward " in
  _state (nav robot_estop_by_command) = EMERGENCY_STOP /\
  NavigationController.action_with ascii_str cmd = "forward" /\
  NavigationController.handle_command_with ascii_str env0 cmd robot_estop_by_command
    = (mkResp false MSG_EMERGENCY_ACTIVE "EMERGENCY_STOP" 60 None,
       robot_estop_by_command).
Proof.
  cbv zeta. split; [reflexivity|]. split; [reflexivity|].
  assert (Hr : NavigationController.action_with ascii_str (command " Forward ")
               <> "estop_release") by discriminate.
  assert (Hp : NavigationController.action_with ascii_str (command " Forward ")
               <> "ping") by discriminate.
  destruct (emergency_stop_rejects_commands ascii_str env0 (command " Forward ")
              robot_estop_by_command eq_refl Hr Hp)
    as (H1 & H2 & H3 & H4 & H5 & H6 & _).
  destruct (NavigationController.handle_command_with ascii_str env0
              (command " Forward ") robot_estop_by_command) as [r s'].
  cbn [fst snd] in *. destruct r as [o m st sp ex]. cbn in *.
  rewrite H1, H2, H3, H4, H5, H6; [reflexivity|].
  vm_compute. repeat constructor.
Defined.

Example estop_release_then_forward_accepted :
  let s := snd (NavigationController.handle_command env0 (command "estop_release")
                  robot_estop_by_command) in
  ok (fst (NavigationController.handle_command env0 (command "forward") s)) = true /\
  ok (fst (NavigationController.handle_command env0 (command "ping")
             robot_estop_by_command)) = true.
Proof. split; reflexivity. Qed.

(** ** Rescaling the speed *)

Lemma set_speed_pct_latched (v : Q) (m : MotorController.t) :
  MotorController._emergency m = true -> MotorController.set_speed_pct v m = m.
Proof. intros He. unfold MotorController.set_speed_pct. apply set_targets_latched, He. Qed.

Lemma rescaled_wheel (v t : Q) :
  let sign := if Qle_bool 0 t then 1 else -1 in
  let s := py_max cfg.SPEED_MIN_PERCENT (Qabs v) in
  rescaled v t
    (py_max (- cfg.SPEED_MAX_PERCENT) (py_min cfg.SPEED_MAX_PERCENT (sign * s))).
Proof.
  cbv zeta. unfold rescaled.
  pose proof (Qabs_nonneg v) as Hv.
  assert (Hs : 20 <= py_max cfg.SPEED_MIN_PERCENT (Qabs v) /\
               (Qabs v <= 20 -> py_max cfg.SPEED_MIN_PERCENT (Qabs v) == 20) /\
               (20 <= Qabs v -> py_max cfg.SPEED_MIN_PERCENT (Qabs v) == Qabs v)).
  { unfold py_max, cfg.SPEED_MIN_PERCENT.
    case_Qltb 20 (Qabs v); repeat split; intros; lra. }
  destruct Hs as (Hs1 & Hs2 & Hs3).
  set (s := py_max cfg.SPEED_MIN_PERCENT (Qabs v)) in *.
  case_Qle_bool 0 t.
  - destruct (clamp_spec (- cfg.SPEED_MAX_PERCENT) cfg.SPEED_MAX_PERCENT (1 * s)
                speed_bounds) as (Hr & _ & Hhi & Hmid).
    set (y := py_max (- cfg.SPEED_MAX_PERCENT)
                (py_min cfg.SPEED_MAX_PERCENT (1 * s))) in *.
    unfold cfg.SPEED_MAX_PERCENT in Hr, Hhi, Hmid.
    assert (Hy : 20 <= y /\ (s <= 100 -> y == s) /\ (100 <= s -> y == 100)).
    { destruct (Qlt_le_dec s 100).
      - assert (y == 1 * s) by (apply Hmid; lra). repeat split; intros; lra.
      - assert (y == 100) by (apply Hhi; lra). repeat split; intros; lra. }
    destruct Hy as (Hy1 & Hy2 & Hy3).
    assert (Ha : Qabs y == y) by (apply Qabs_pos; lra).
    rewrite Ha. repeat split; intros; lra.
  - destruct (clamp_spec (- cfg.SPEED_MAX_PERCENT) cfg.SPEED_MAX_PERCENT (-1 * s)
                speed_bounds) as (Hr & Hlo & _ & Hmid).
    set (y := py_max (- cfg.SPEED_MAX_PERCENT)
                (py_min cfg.SPEED_MAX_PERCENT (-1 * s))) in *.
    unfold cfg.SPEED_MAX_PERCENT in Hr, Hlo, Hmid.
    assert (Hy : y <= -20 /\ (s <= 100 -> y == - s) /\ (100 <= s -> y == -100)).
    { destruct (Qlt_le_dec s 100).
      - assert (y == -1 * s) by (apply Hmid; lra). repeat split; intros; lra.
      - assert (y == - (100)) by (apply Hlo; lra). repeat split; intros; lra. }
    destruct Hy as (Hy1 & Hy2 & Hy3).
    assert (Ha : Qabs y == - y) by (apply Qabs_neg; lra).
    rewrite Ha. repeat split; intros; lra.
Qed.

Lemma set_speed_pct_unlatched (v : Q) (m : MotorController.t) :
  MotorController._emergency m = false ->
  let m' := MotorController.set_speed_pct v m in
  rescaled v (MotorController._target_left m) (MotorController._target_left m') /\
  rescaled v (MotorController._target_right m) (MotorController._target_right m') /\
  MotorController._emergency m' = false.
Proof.
  intros He. cbv zeta. unfold MotorController.set_speed_pct.
  rewrite set_targets_unlatched by assumption.
  cbn [MotorController.with_targets MotorController._target_left
       MotorController._target_right MotorController._emergency].
  split; [apply rescaled_wheel|]. split; [apply rescaled_wheel | assumption].
Qed.

Lemma rescaled_forward (v t t' : Q) : rescaled v t t' -> 0 <= t -> 20 <= t'.
Proof.
  intros (Hr & _ & _ & _ & Hp & _) Ht. specialize (Hp Ht).
  rewrite Qabs_pos in Hr by lra. lra.
Qed.

(** The three speed handlers end in [set_speed_pct] of the stored speed and
    leave the robot state alone. *)
Lemma speed_handlers (env : Env) (cmd : Cmd) (s : System) :
  NavigationController.action_of cmd ∈ speed_commands ->
  _state (nav s) <> EMERGENCY_STOP ->
  let s' := snd (NavigationController.handle_command env cmd s) in
  ok (fst (NavigationController.handle_command env cmd s)) = true /\
  motors s' = MotorController.set_speed_pct (_speed_pct (nav s')) (motors s) /\
  _state (nav s') = _state (nav s).
Proof.
  intros Ha Hs. cbv zeta. unfold_router.
  unfold speed_commands in Ha. rewrite !elem_of_cons, elem_of_nil in Ha.
  rewrite (bool_decide_eq_false_2 _ Hs). cbn [andb].
  destruct Ha as [-> | [-> | [-> | []]]]; repeat split.
Qed.

(** C10 as stated fails: with the motor latch set and both targets 0,
    [set_speed_pct(50)] leaves both targets at 0, and so does the accepted
    command [speed_up] on a robot whose motors are latched while its state is
    [IDLE]; and with the latch clear [set_speed_pct(150)] stores 100, not
    max(20, 150). *)
Lemma set_speed_pct_latched_stays_at_rest :
  let m' := MotorController.set_speed_pct 50 motors_latched in
  let r := fst (NavigationController.handle_command env0 (command "speed_up")
                  robot_latched_idle) in
  let s' := snd (NavigationController.handle_command env0 (command "speed_up")
                  robot_latched_idle) in
  (MotorController._emergency motors_latched = true /\
   MotorController._target_left motors_latched = 0 /\
   MotorController._target_right motors_latched = 0 /\
   MotorController._target_left m' = 0 /\
   MotorController._target_right m' = 0) /\
  (_state (nav robot_latched_idle) = IDLE /\
   MotorController._target_left (motors robot_latched_idle) = 0 /\
   MotorController._target_right (motors robot_latched_idle) = 0 /\
   ok r = true /\
   MotorController._target_left (motors s') = 0 /\
   MotorController._target_right (motors s') = 0) /\
  (MotorController._target_left (MotorController.set_speed_pct 150 MotorController.init)
     = 100 /\
   py_max cfg.SPEED_MIN_PERCENT (Qabs 150) = 150).
Proof. cbv zeta. repeat split. Qed.

(** C10, amended.  With the motor latch set, [set_speed_pct] changes nothing.
    With the latch clear it stores for each wheel a target whose magnitude is
    |v| brought into [20, 100], so never below 20 and never zero, with the
    sign of the wheel's present target and the positive sign when that
    target is 0; hence with both targets 0 both new targets are at least 20,
    and the same holds when the call is made by an accepted [speed_up],
    [speed_down] or [set_speed] command, which leaves the robot state as it
    was. *)
Theorem set_speed_pct_keeps_moving (v : Q) (env : Env) (cmd : Cmd) (s : System) :
  let m := motors s in
  let m' := MotorController.set_speed_pct v m in
  (MotorController._emergency m = true -> m' = m) /\
  (MotorController._emergency m = false ->
     rescaled v (MotorController._target_left m) (MotorController._target_left m') /\
     rescaled v (MotorController._target_right m) (MotorController._target_right m') /\
     (MotorController._target_left m == 0 -> MotorController._target_right m == 0 ->
        (20 <= MotorController._target_left m' /\
         20 <= MotorController._target_right m') /\
        (NavigationController.action_of cmd ∈ speed_commands ->
         _state (nav s) <> EMERGENCY_STOP ->
         let s' := snd (NavigationController.handle_command env cmd s) in
         ok (fst (NavigationController.handle_command env cmd s)) = true /\
         20 <= MotorController._target_left (motors s') /\
         20 <= MotorController._target_right (motors s') /\
         _state (nav s') = _state (nav s)))).
Proof.
  cbv zeta. split; [apply set_speed_pct_latched|].
  intros He.
  destruct (set_speed_pct_unlatched v (motors s) He) as (Hl & Hr & _).
  split; [exact Hl|]. split; [exact Hr|].
  intros Zl Zr. split.
  - split; [apply (rescaled_forward v _ _ Hl) | apply (rescaled_forward v _ _ Hr)]; lra.
  - intros Ha Hs.
    destruct (speed_handlers env cmd s Ha Hs) as (Hok & Hm & Hst).
    split; [exact Hok|]. rewrite Hm.
    destruct (set_speed_pct_unlatched
                (_speed_pct (nav (snd (NavigationController.handle_command env cmd s))))
                (motors s) He) as (Hl' & Hr' & _).
    split; [apply (rescaled_forward _ _ _ Hl'); lra|].
    split; [apply (rescaled_forward _ _ _ Hr'); lra | exact Hst].
Qed.

(** [speed_down] on the robot at rest sets it moving forward; latched motors
    ignore [set_speed_pct]. *)
Lemma set_speed_pct_keeps_moving_witness :
  let s' := snd (NavigationController.handle_command env0 (command "speed_down")
                   robot_idle) in
  MotorController._emergency (motors robot_idle) = false /\
  MotorController._target_left (motors robot_idle) == 0 /\
  MotorController._target_right (motors robot_idle) == 0 /\
  _state (nav robot_idle) <> EMERGENCY_STOP /\
  20 <= MotorController._target_left (MotorController.set_speed_pct 0 (motors robot_idle)) /\
  20 <= MotorController._target_left (motors s') /\
  20 <= MotorController._target_right (motors s') /\
  _state (nav s') = IDLE /\
  MotorController._emergency motors_latched = true /\
  MotorController.set_speed_pct 0 motors_latched = motors_latched.
Proof.
  cbv zeta.
  assert (Hs : _state (nav robot_idle) <> EMERGENCY_STOP) by discriminate.
  assert (Ha : NavigationController.action_of (command "speed_down") ∈ speed_commands).
  { change ("speed_down" ∈ ["speed_up"; "speed_down"; "set_speed"]).
    rewrite !elem_of_cons. right. left. reflexivity. }
  destruct (set_speed_pct_keeps_moving 0 env0 (command "speed_down") robot_idle)
    as [_ H].
  destruct (H eq_refl) as (_ & _ & Hz).
  destruct (Hz (Qeq_refl 0) (Qeq_refl 0)) as [[Hd _] Hh].
  destruct (Hh Ha Hs) as (_ & Hl & Hr & Hst).
  split; [reflexivity|]. split; [reflexivity|]. split; [reflexivity|].
  split; [exact Hs|]. split; [exact Hd|]. split; [exact Hl|].
  split; [exact Hr|]. split; [exact Hst|]. split; [reflexivity|].
  exact (proj1 (set_speed_pct_keeps_moving 0 env0 (command "speed_down")
                  (with_motors (fun _ => motors_latched) robot_idle)) eq_refl).
Defined.

(** * Further properties of the code *)

(** ** The motor controller in its reachable states *)

Lemma in_range_zero : in_range 0.
Proof. unfold in_range. lra. Qed.

Lemma clamp_in_range (x : Q) :
  in_range (py_max (- cfg.SPEED_MAX_PERCENT) (py_min cfg.SPEED_MAX_PERCENT x)).
Proof. exact (proj1 (clamp_spec (-(100)) 100 x speed_bounds)). Qed.

Lemma next_val_in_range (c t : Q) :
  in_range c -> in_range t -> in_range (MotorController.next_val cfg.RAMP_STEP c t).
Proof.
  unfold in_range. intros Hc Ht.
  destruct (next_val_one_step cfg.RAMP_STEP RAMP_STEP_pos c t)
    as [[_ ->]|[_ [_ [[H1 [H2 H3]]|[H1 [H2 H3]]]]]];
    [assumption | |]; unfold cfg.RAMP_STEP in *; split; lra.
Qed.

Lemma channel_set_speed_follows (v : Q) (ch : MotorChannel.t) :
  in_range v ->
  channel_follows (MotorChannel.set_speed v ch) v /\
  MotorChannel.inverted (MotorChannel.set_speed v ch) = MotorChannel.inverted ch.
Proof.
  unfold in_range. intros Hv. unfold MotorChannel.set_speed.
  destruct (clamp_spec (-100) 100 v ltac:(lra)) as (Hr & _ & _ & Hid).
  specialize (Hid Hv).
  set (sp := py_max (-100) (py_min 100 v)) in *.
  destruct (Qeq_bool sp 0) eqn:E.
  - apply Qeq_bool_iff in E.
    assert (Hz : v == 0) by lra.
    split; [|reflexivity].
    unfold channel_follows, MotorChannel.brake. cbn.
    split; [lra|]. split; [rewrite Hz; reflexivity|].
    split; [intros; lra|]. split; [intros; lra | reflexivity].
  - apply Qeq_bool_neq in E.
    assert (Ha : 0 <= Qabs sp <= 100).
    { destruct (Qabs_cases sp) as [[? Hq]|[? Hq]]; rewrite Hq; split; lra. }
    destruct (clamp_spec 0 100 (Qabs sp) ltac:(lra)) as (_ & _ & _ & Hd).
    specialize (Hd Ha).
    unfold channel_follows, MotorChannel.set_duty, MotorChannel._set_direction.
    case_Qltb 0 sp; destruct (MotorChannel.inverted ch); cbn;
      (split; [|reflexivity]);
      (split; [lra|]);
      (split; [rewrite Hd, Hid; reflexivity|]);
      (split; [intros; first [split; reflexivity | lra]|]);
      (split; [intros; first [split; reflexivity | lra]|]);
      intros; lra.
Qed.

Lemma channel_follows_zero (ch : MotorChannel.t) :
  MotorChannel.in1 ch = MotorChannel.in2 ch ->
  MotorChannel._speed ch == 0 -> MotorChannel.duty ch == 0 ->
  channel_follows ch 0.
Proof.
  intros H12 Hs Hd. unfold channel_follows.
  split; [assumption|]. split; [rewrite Hd; reflexivity|].
  split; [intros; lra|]. split; [intros; lra | intros; assumption].
Qed.

Lemma set_targets_inv (l r : Q) (m : MotorController.t) :
  motor_inv m -> motor_inv (MotorController._set_targets l r m).
Proof.
  intros Hinv. unfold MotorController._set_targets.
  destruct (MotorController._emergency m) eqn:He; [assumption|].
  destruct Hinv as (_ & _ & Hcl & Hcr & Hd & Hh & _ & Hchl & Hchr & Hil & Hir).
  unfold motor_inv. cbn. rewrite He.
  repeat (split; [first [apply clamp_in_range | assumption]|]).
  split; [discriminate|]. repeat (split; [assumption|]). assumption.
Qed.

Lemma ramp_tick_inv (m : MotorController.t) :
  motor_inv m -> motor_inv (MotorController._ramp_tick m).
Proof.
  intros Hinv. unfold MotorController._ramp_tick.
  destruct (MotorController._emergency m) eqn:He; [assumption|].
  destruct Hinv as (Htl & Htr & Hcl & Hcr & Hd & Hh & _ & _ & _ & Hil & Hir).
  pose proof (next_val_in_range _ _ Hcl Htl) as Hnl.
  pose proof (next_val_in_range _ _ Hcr Htr) as Hnr.
  destruct (channel_set_speed_follows _ (MotorController._left m) Hnl) as [Hfl Hkl].
  destruct (channel_set_speed_follows _ (MotorController._right m) Hnr) as [Hfr Hkr].
  unfold motor_inv. cbn. rewrite He.
  split; [assumption|]. split; [assumption|]. split; [assumption|].
  split; [assumption|]. split; [assumption|]. split; [assumption|].
  split; [discriminate|]. split; [assumption|]. split; [assumption|].
  split; congruence.
Qed.

Lemma call_motor_inv (c : MotorCall) (m : MotorController.t) :
  motor_inv m -> motor_inv (call_motor c m).
Proof.
  intros Hinv. destruct c; cbn [call_motor];
    try (apply set_targets_inv; assumption);
    try (apply ramp_tick_inv; assumption).
  - (* brake *)
    destruct Hinv as (_ & _ & _ & _ & Hd & Hh & _ & _ & _ & Hil & Hir).
    unfold motor_inv. cbn.
    do 4 (split; [apply in_range_zero|]).
    split; [assumption|]. split; [assumption|].
    split; [intros; repeat split; reflexivity|].
    split; [apply channel_follows_zero; reflexivity|].
    split; [apply channel_follows_zero; reflexivity|].
    split; assumption.
  - (* emergency_stop *)
    destruct Hinv as (_ & _ & _ & _ & Hd & Hh & _ & _ & _ & Hil & Hir).
    unfold motor_inv. cbn.
    do 4 (split; [apply in_range_zero|]).
    split; [assumption|]. split; [assumption|].
    split; [intros; repeat split; reflexivity|].
    split; [apply channel_follows_zero; reflexivity|].
    split; [apply channel_follows_zero; reflexivity|].
    split; assumption.
  - (* release_emergency *)
    destruct Hinv as (Htl & Htr & Hcl & Hcr & Hd & Hh & _ & Hchl & Hchr & Hil & Hir).
    unfold motor_inv. cbn.
    repeat (split; [assumption|]). split; [discriminate|].
    repeat (split; [assumption|]). assumption.
  - (* _tick_left *)
    destruct Hinv as (Htl & Htr & Hcl & Hcr & Hd & Hh & Hz & Hchl & Hchr & Hil & Hir).
    unfold motor_inv. cbn. repeat (split; [assumption|]). assumption.
  - (* _tick_right *)
    destruct Hinv as (Htl & Htr & Hcl & Hcr & Hd & Hh & Hz & Hchl & Hchr & Hil & Hir).
    unfold motor_inv. cbn. repeat (split; [assumption|]). assumption.
  - (* update_odometry *)
    destruct Hinv as (Htl & Htr & Hcl & Hcr & Hd & Hh & Hz & Hchl & Hchr & Hil & Hir).
    unfold motor_inv.
    cbn -[MotorController.dist_center MotorController.delta_theta py_mod Qabs Qplus].
    repeat (split; [assumption|]).
    split.
    { pose proof (Qabs_nonneg (MotorController.dist_center
        (MotorController._ticks_left m) (MotorController._ticks_right m))). lra. }
    split.
    { pose proof (py_mod_range
        (MotorController._heading m
         + MotorController.delta_theta (MotorController._ticks_left m)
             (MotorController._ticks_right m)) 360 eq_refl). lra. }
    repeat (split; [assumption|]). assumption.
  - (* reset_odometry *)
    destruct Hinv as (Htl & Htr & Hcl & Hcr & Hd & Hh & Hz & Hchl & Hchr & Hil & Hir).
    unfold motor_inv. cbn.
    repeat (split; [assumption|]).
    split; [lra|]. split; [split; lra|].
    repeat (split; [assumption|]). assumption.
Qed.

Lemma init_inv : motor_inv MotorController.init.
Proof.
  unfold motor_inv. cbn.
  do 4 (split; [apply in_range_zero|]).
  split; [lra|]. split; [split; lra|].
  split; [intros; repeat split; reflexivity|].
  split; [apply channel_follows_zero; reflexivity|].
  split; [apply channel_follows_zero; reflexivity|].
  split; reflexivity.
Qed.

Lemma call_motors_inv (cs : list MotorCall) :
  forall m, motor_inv m -> motor_inv (call_motors cs m).
Proof.
  induction cs as [|c cs IH]; intros m Hinv; [assumption|].
  unfold call_motors in *. cbn [fold_left]. apply IH, call_motor_inv, Hinv.
Qed.


(** X2. After any run of calls on a freshly built motor controller, each
    channel's outputs agree with the ramped speed of its wheel: the stored
    speed is that speed, the duty is its absolute value, a positive speed
    drives the forward line pair and a negative speed the reverse pair, read
    with the inversion of the right channel, and at zero both lines are
    equal (coast or active brake). *)
Theorem motors_reachable_channels (cs : list MotorCall) :
  let m := call_motors cs MotorController.init in
  channel_follows (MotorController._left m) (MotorController._current_left m) /\
  channel_follows (MotorController._right m) (MotorController._current_right m) /\
  MotorChannel.inverted (MotorController._left m) = false /\
  MotorChannel.inverted (MotorController._right m) = true.
Proof.
  cbv zeta.
  destruct (call_motors_inv cs _ init_inv) as (_ & _ & _ & _ & _ & _ & _ & H).
  exact H.
Qed.

(** ** The motor latch against later writes *)

Lemma motion_call_latched (c : MotorCall) (m : MotorController.t) :
  is_motion_call c = true ->
  MotorController._emergency m = true -> call_motor c m = m.
Proof.
  intros Hc He. destruct c; try discriminate; cbn [call_motor];
    first [ apply set_targets_latched; assumption
          | apply set_speed_pct_latched; assumption
          | unfold MotorController._ramp_tick; rewrite He; reflexivity ].
Qed.

(** X3. While the motor latch is set, any run of motion calls (forward,
    backward, the turns, the pivots, [set_speed_pct], [stop]) and ramp
    passes leaves the controller exactly as it is.  The latch does not hold
    [brake] back, which has no guard: on a latched controller it keeps the
    latch and the odometry, sets the four speeds to zero and puts both
    channels in active brake, both lines high, where [emergency_stop] had
    left them coasting. *)
Theorem motor_latch_blocks_motion_calls (cs : list MotorCall) (m : MotorController.t) :
  MotorController._emergency m = true ->
  (forallb is_motion_call cs = true -> call_motors cs m = m) /\
  MotorController.brake m =
    MotorController.mk
      (MotorChannel.mk (MotorChannel.inverted (MotorController._left m)) 0 0 true true)
      (MotorChannel.mk (MotorChannel.inverted (MotorController._right m)) 0 0 true true)
      0 0 0 0
      (MotorController._ticks_left m) (MotorController._ticks_right m)
      (MotorController._dist_m m) (MotorController._heading m)
      (MotorController._ramp_active m) true.
Proof.
  intros He. split.
  - induction cs as [|c cs IH]; intros Hcs; [reflexivity|].
    cbn [forallb] in Hcs. apply andb_true_iff in Hcs as [Hc Hcs].
    unfold call_motors in *. cbn [fold_left].
    rewrite (motion_call_latched c m Hc He). apply IH, Hcs.
  - unfold MotorController.brake. rewrite He. reflexivity.
Qed.

(** After an emergency stop, forward, a turn, a speed change and ramp passes
    change nothing, and [brake] moves both channels from coasting to active
    brake. *)
Lemma motor_latch_blocks_motion_calls_witness :
  call_motors [CallForward (Some 80); CallRampTick; CallTurnLeft None;
               CallSetSpeedPct 50; CallStop; CallRampTick] motors_latched
  = motors_latched /\
  MotorChannel.in1 (MotorController._left motors_latched) = false /\
  MotorChannel.in1 (MotorController._left (MotorController.brake motors_latched)) = true /\
  MotorController._emergency (MotorController.brake motors_latched) = true.
Proof.
  destruct (motor_latch_blocks_motion_calls
              [CallForward (Some 80); CallRampTick; CallTurnLeft None;
               CallSetSpeedPct 50; CallStop; CallRampTick]
              motors_latched eq_refl) as [Hc Hb].
  split; [exact (Hc eq_refl)|].
  split; [reflexivity|].
  rewrite Hb. split; reflexivity.
Defined.

(** X4. The ramp does not undo an immediate stop: after [brake()] or
    [emergency_stop()] any number of ramp passes leaves the controller as the
    stop left it, with zero speeds and the channels in active brake,
    respectively coasting. *)
Theorem ramp_keeps_immediate_stop (n : nat) (m : MotorController.t) :
  MotorController._ramp_loop n (MotorController.brake m) = MotorController.brake m /\
  MotorController._ramp_loop n (MotorController.emergency_stop m)
    = MotorController.emergency_stop m.
Proof.
  split.
  - induction n as [|n IH]; [reflexivity|]. cbn [MotorController._ramp_loop].
    replace (MotorController._ramp_tick (MotorController.brake m))
      with (MotorController.brake m); [exact IH|].
    unfold MotorController._ramp_tick, MotorController.brake.
    cbn. destruct (MotorController._emergency m); reflexivity.
  - induction n as [|n IH]; [reflexivity|]. cbn [MotorController._ramp_loop].
    exact IH.
Qed.

(** ** The motion primitives *)

Lemma clamp_odd (x : Q) :
  py_max (- cfg.SPEED_MAX_PERCENT) (py_min cfg.SPEED_MAX_PERCENT (- x))
  == - py_max (- cfg.SPEED_MAX_PERCENT) (py_min cfg.SPEED_MAX_PERCENT x).
Proof.
  destruct (clamp_spec (-(100)) 100 x speed_bounds) as (_ & Hlo & Hhi & Hmid).
  destruct (clamp_spec (-(100)) 100 (- x) speed_bounds) as (_ & Hlo' & Hhi' & Hmid').
  change (- cfg.SPEED_MAX_PERCENT) with (-(100)). change cfg.SPEED_MAX_PERCENT with 100.
  destruct (Qlt_le_dec x (-100)); [rewrite Hlo, Hhi' by lra; reflexivity|].
  destruct (Qlt_le_dec 100 x); [rewrite Hhi, Hlo' by lra; reflexivity|].
  rewrite Hmid, Hmid' by lra. reflexivity.
Qed.

Lemma clamp_scaled (s f : Q) :
  0 <= f <= 1 ->
  Qabs (py_max (- cfg.SPEED_MAX_PERCENT) (py_min cfg.SPEED_MAX_PERCENT (s * f)))
  <= Qabs (py_max (- cfg.SPEED_MAX_PERCENT) (py_min cfg.SPEED_MAX_PERCENT s)).
Proof.
  intros Hf.
  destruct (clamp_spec (-(100)) 100 s speed_bounds) as (Hr & Hlo & Hhi & Hmid).
  destruct (clamp_spec (-(100)) 100 (s * f) speed_bounds) as (Hr' & Hlo' & Hhi' & Hmid').
  change (- cfg.SPEED_MAX_PERCENT) with (-(100)). change cfg.SPEED_MAX_PERCENT with 100.
  set (a := py_max (-(100)) (py_min 100 (s * f))) in *.
  set (b := py_max (-(100)) (py_min 100 s)) in *.
  assert (Hsf : (0 <= s -> 0 <= s * f <= s) /\ (s <= 0 -> s <= s * f <= 0)).
  { split; intros Hs; nra. }
  destruct Hsf as [Hp Hn].
  destruct (Qlt_le_dec s 0) as [Hs|Hs].
  - assert (Hb : b <= 0).
    { destruct (Qlt_le_dec s (-100)); [rewrite Hlo by lra; lra | rewrite Hmid by lra; lra]. }
    assert (Ha : b <= a /\ a <= 0).
    { specialize (Hn ltac:(lra)).
      destruct (Qlt_le_dec (s * f) (-100)).
      - rewrite Hlo' by lra. rewrite Hlo by lra. lra.
      - rewrite Hmid' by lra.
        destruct (Qlt_le_dec s (-100)); [rewrite Hlo by lra; lra | rewrite Hmid by lra; lra]. }
    rewrite (Qabs_neg a), (Qabs_neg b) by lra. lra.
  - assert (Ha : 0 <= a /\ a <= b).
    { specialize (Hp Hs).
      destruct (Qlt_le_dec 100 (s * f)).
      - rewrite Hhi' by lra. rewrite Hhi by lra. lra.
      - rewrite Hmid' by lra.
        destruct (Qlt_le_dec 100 s); [rewrite Hhi by lra; lra | rewrite Hmid by lra; lra]. }
    rewrite (Qabs_pos a), (Qabs_pos b) by lra. lra.
Qed.

(** X5. With the latch clear and for every speed, [forward] and [backward]
    give both wheels the same target, [pivot_left] and [pivot_right] give
    them opposite targets of equal magnitude, and in [turn_left] and
    [turn_right] the inner wheel's target is never larger in magnitude than
    the outer wheel's. *)
Theorem motion_primitives_shape (speed : option Q) (m : MotorController.t) :
  MotorController._emergency m = false ->
  let tl f := MotorController._target_left (f speed m) in
  let tr f := MotorController._target_right (f speed m) in
  tl MotorController.forward = tr MotorController.forward /\
  tl MotorController.backward = tr MotorController.backward /\
  tl MotorController.backward == - tl MotorController.forward /\
  tl MotorController.pivot_left == - tr MotorController.pivot_left /\
  tl MotorController.pivot_right == - tr MotorController.pivot_right /\
  tl MotorController.pivot_left == tr MotorController.pivot_right /\
  Qabs (tl MotorController.turn_left) <= Qabs (tr MotorController.turn_left) /\
  Qabs (tr MotorController.turn_right) <= Qabs (tl MotorController.turn_right).
Proof.
  intros He. cbv zeta.
  unfold MotorController.forward, MotorController.backward,
    MotorController.pivot_left, MotorController.pivot_right,
    MotorController.turn_left, MotorController.turn_right.
  rewrite !set_targets_unlatched by assumption.
  cbn [MotorController.with_targets MotorController._target_left
       MotorController._target_right].
  split; [reflexivity|]. split; [reflexivity|].
  split; [apply clamp_odd|]. split; [apply clamp_odd|].
  split; [rewrite clamp_odd; ring|]. split; [reflexivity|].
  split; apply clamp_scaled; unfold cfg.TURN_SPEED_FACTOR; split; lra.
Qed.

(** From rest: [pivot_left(150)] and [turn_left(60)]. *)
Lemma motion_primitives_shape_witness :
  MotorController._target_left
    (MotorController.pivot_left (Some 150) MotorController.init)
  == - MotorController._target_right
         (MotorController.pivot_left (Some 150) MotorController.init) /\
  Qabs (MotorController._target_left
          (MotorController.turn_left (Some 60) MotorController.init))
  <= Qabs (MotorController._target_right
             (MotorController.turn_left (Some 60) MotorController.init)).
Proof.
  split.
  - exact (proj1 (proj2 (proj2 (proj2
             (motion_primitives_shape (Some 150) MotorController.init eq_refl))))).
  - exact (proj1 (proj2 (proj2 (proj2 (proj2 (proj2 (proj2
             (motion_primitives_shape (Some 60) MotorController.init eq_refl)))))))).
Defined.

(** ** Odometry: straight lines, spins and pulses *)

Lemma py_mod_small (x m : Q) : 0 <= x < m -> py_mod x m == x.
Proof.
  intros [Hlo Hhi]. unfold py_mod.
  assert (Hm : 0 < m) by lra.
  assert (Hq : 0 <= x / m < 1).
  { split.
    - apply Qle_shift_div_l; lra.
    - apply Qlt_shift_div_r; lra. }
  pose proof (Qfloor_le (x / m)) as Hf1.
  pose proof (Qlt_floor (x / m)) as Hf2.
  assert (Hz : Qfloor (x / m) = 0%Z).
  { assert (H1 : inject_Z (Qfloor (x / m)) < inject_Z 1) by (change (inject_Z 1) with 1; lra).
    assert (H2 : inject_Z 0 < inject_Z (Qfloor (x / m) + 1))
      by (change (inject_Z 0) with 0; lra).
    rewrite <- Zlt_Qlt in H1, H2. lia. }
  rewrite Hz. change (inject_Z 0) with 0. ring.
Qed.

Lemma py_mod_wd (x y m : Q) : x == y -> py_mod x m == py_mod y m.
Proof.
  intros H. unfold py_mod.
  assert (Hf : Qfloor (x / m) = Qfloor (y / m)) by (apply Qfloor_comp; rewrite H; reflexivity).
  rewrite Hf, H. reflexivity.
Qed.

Lemma py_mod_heading_kept (h d : Q) :
  0 <= h < 360 -> d == 0 -> py_mod (h + d) 360 == h.
Proof.
  intros Hh Hd.
  rewrite (py_mod_wd (h + d) h) by (rewrite Hd; ring).
  apply py_mod_small. assumption.
Qed.

Lemma delta_theta_equal_ticks (t : Z) : MotorController.delta_theta t t == 0.
Proof.
  unfold MotorController.delta_theta, math_degrees.
  assert (H : MotorController.arc t - MotorController.arc t == 0) by ring.
  rewrite H. reflexivity.
Qed.

Lemma arc_opp (t : Z) : MotorController.arc (- t) == - MotorController.arc t.
Proof.
  unfold MotorController.arc. rewrite inject_Z_opp.
  unfold Qdiv. ring.
Qed.

Lemma py_mod_full_turn (h d : Q) : h == 360 -> d == 0 -> py_mod (h + d) 360 == 0.
Proof.
  intros Hh Hd.
  rewrite (py_mod_wd (h + d) 360) by (rewrite Hh, Hd; ring).
  reflexivity.
Qed.

(** X6. One aggregation with equal tick counts on both wheels (a straight
    run, or no pulse at all) adds the absolute arc length of one wheel to
    the distance; it leaves a heading of [0, 360) as it is, and turns a
    stored heading of 360 into 0.  With opposite tick counts (a spin in
    place) it adds nothing to the distance.  Hence an aggregation with no
    pulse since the last one changes the distance not, and the heading only
    when it was 360. *)
Theorem update_odometry_straight_and_spin (m : MotorController.t) :
  let tl := MotorController._ticks_left m in
  let tr := MotorController._ticks_right m in
  let m1 := snd (MotorController.update_odometry m) in
  (tl = tr ->
     MotorController._dist_m m1
       == MotorController._dist_m m + Qabs (MotorController.arc tl) /\
     (0 <= MotorController._heading m < 360 ->
        MotorController._heading m1 == MotorController._heading m) /\
     (MotorController._heading m == 360 -> MotorController._heading m1 == 0)) /\
  (tr = (- tl)%Z -> MotorController._dist_m m1 == MotorController._dist_m m) /\
  (tl = 0%Z -> tr = 0%Z ->
     MotorController._dist_m m1 == MotorController._dist_m m /\
     (0 <= MotorController._heading m < 360 ->
        MotorController._heading m1 == MotorController._heading m) /\
     (MotorController._heading m == 360 -> MotorController._heading m1 == 0)).
Proof.
  cbv zeta. unfold MotorController.update_odometry.
  cbn [snd MotorController.with_odometry MotorController._dist_m
       MotorController._heading MotorController._ticks_left
       MotorController._ticks_right].
  split; [|split].
  - intros <-. split; [|split].
    + unfold MotorController.dist_center.
      assert (H : (MotorController.arc (MotorController._ticks_left m)
                   + MotorController.arc (MotorController._ticks_left m)) / 2
                  == MotorController.arc (MotorController._ticks_left m)) by field.
      rewrite H. reflexivity.
    + intros Hh. apply py_mod_heading_kept; [assumption|].
      apply delta_theta_equal_ticks.
    + intros Hh. apply py_mod_full_turn; [assumption|].
      apply delta_theta_equal_ticks.
  - intros ->. unfold MotorController.dist_center.
    rewrite arc_opp.
    assert (H : (MotorController.arc (MotorController._ticks_left m)
                 + - MotorController.arc (MotorController._ticks_left m)) / 2 == 0)
      by field.
    rewrite H. change (Qabs 0) with 0. ring.
  - intros -> ->. split; [|split].
    + assert (H : MotorController.dist_center 0 0 == 0) by reflexivity.
      rewrite H. change (Qabs 0) with 0. ring.
    + intros Hh. apply py_mod_heading_kept; [assumption|].
      apply delta_theta_equal_ticks.
    + intros Hh. apply py_mod_full_turn; [assumption|].
      apply delta_theta_equal_ticks.
Qed.

Lemma tick_pairs_fields (n : nat) :
  forall m,
  let m' := tick_pairs n m in
  let dl := if Qle_bool 0 (MotorController._current_left m) then 1%Z else (-1)%Z in
  let dr := if Qle_bool 0 (MotorController._current_right m) then 1%Z else (-1)%Z in
  MotorController._ticks_left m' = (MotorController._ticks_left m + Z.of_nat n * dl)%Z /\
  MotorController._ticks_right m' = (MotorController._ticks_right m + Z.of_nat n * dr)%Z /\
  m' = MotorController.with_odometry
         (MotorController._ticks_left m') (MotorController._ticks_right m')
         (MotorController._dist_m m) (MotorController._heading m) m.
Proof.
  induction n as [|n IH]; intros m; cbv zeta.
  - cbn [tick_pairs]. split; [lia|]. split; [lia|]. destruct m; reflexivity.
  - cbn [tick_pairs].
    destruct (IH (MotorController._tick_right (MotorController._tick_left m)))
      as (Hl & Hr & Hm).
    cbv zeta in Hl, Hr, Hm. cbn in Hl, Hr.
    split; [rewrite Hl; lia|]. split; [rewrite Hr; lia|].
    rewrite Hm at 1. reflexivity.
Qed.

(** X7. Encoder pulses take their sign from the commanded speed, and the
    distance only grows: starting from cleared counters, [n] pulses on each
    wheel followed by one aggregation add the arc length of [n] ticks to the
    distance and leave a heading in [0, 360) unchanged, both when the two
    ramped speeds are non-negative (forward, or at rest) and when both are
    negative (reversing). *)
Theorem pulses_then_aggregation (n : nat) (m : MotorController.t) :
  MotorController._ticks_left m = 0%Z ->
  MotorController._ticks_right m = 0%Z ->
  0 <= MotorController._heading m < 360 ->
  (0 <= MotorController._current_left m /\ 0 <= MotorController._current_right m) \/
  (MotorController._current_left m < 0 /\ MotorController._current_right m < 0) ->
  let m' := snd (MotorController.update_odometry (tick_pairs n m)) in
  MotorController._dist_m m'
    == MotorController._dist_m m + MotorController.arc (Z.of_nat n) /\
  MotorController._heading m' == MotorController._heading m /\
  MotorController._ticks_left m' = 0%Z /\ MotorController._ticks_right m' = 0%Z.
Proof.
  intros Hl0 Hr0 Hh Hsign. cbv zeta.
  destruct (tick_pairs_fields n m) as (Hl & Hr & Hm). cbv zeta in Hl, Hr, Hm.
  assert (Harc : 0 <= MotorController.arc (Z.of_nat n)).
  { unfold MotorController.arc.
    assert (0 <= inject_Z (Z.of_nat n)) by (change 0 with (inject_Z 0); rewrite <- Zle_Qle; lia).
    apply Qmult_le_0_compat; [apply Qle_shift_div_l; [reflexivity | lra] | discriminate]. }
  assert (Hsame : MotorController._ticks_left (tick_pairs n m)
                  = MotorController._ticks_right (tick_pairs n m) /\
                  (MotorController._ticks_left (tick_pairs n m) = Z.of_nat n \/
                   MotorController._ticks_left (tick_pairs n m) = (- Z.of_nat n)%Z)).
  { rewrite Hl, Hr, Hl0, Hr0. destruct Hsign as [[H1 H2]|[H1 H2]].
    - apply Qle_bool_iff in H1, H2. rewrite H1, H2. split; [reflexivity | left; lia].
    - case_Qle_bool 0 (MotorController._current_left m); [lra|].
      case_Qle_bool 0 (MotorController._current_right m); [lra|].
      split; [reflexivity | right; lia]. }
  destruct Hsame as [Heq Hval].
  unfold MotorController.update_odometry.
  cbn [snd MotorController.with_odometry MotorController._dist_m
       MotorController._heading MotorController._ticks_left
       MotorController._ticks_right].
  rewrite <- Heq.
  assert (Hd : MotorController._dist_m (tick_pairs n m) = MotorController._dist_m m)
    by (rewrite Hm; reflexivity).
  assert (Hhd : MotorController._heading (tick_pairs n m) = MotorController._heading m)
    by (rewrite Hm; reflexivity).
  rewrite Hd, Hhd.
  split; [|split; [|split; reflexivity]].
  - unfold MotorController.dist_center.
    assert (H2 : forall a, (a + a) / 2 == a) by (intros; field).
    rewrite H2.
    destruct Hval as [-> | ->].
    + rewrite Qabs_pos by assumption. reflexivity.
    + rewrite arc_opp, Qabs_opp, Qabs_pos by assumption. reflexivity.
  - apply py_mod_heading_kept; [assumption | apply delta_theta_equal_ticks].
Qed.

(** Ten pulses per wheel while reversing at -30. *)
Lemma pulses_then_aggregation_witness :
  let m := MotorController._ramp_loop 6
             (MotorController.backward (Some 30) MotorController.init) in
  MotorController._current_left m < 0 /\
  MotorController._dist_m (snd (MotorController.update_odometry (tick_pairs 10 m)))
    == 0 + MotorController.arc 10.
Proof.
  cbv zeta. split; [reflexivity|].
  refine (proj1 (pulses_then_aggregation 10
            (MotorController._ramp_loop 6
               (MotorController.backward (Some 30) MotorController.init))
            eq_refl eq_refl _ _)).
  - split; [discriminate | reflexivity].
  - right. split; reflexivity.
Defined.

(** ** The safety manager: release, warning, battery, heartbeat *)

Lemma release_emergency_latched (now : Q) (r : Reason) (s : System) :
  _estop_active (safety s) = true ->
  SafetyManager.release_emergency now r s =
  mkSystem (MotorController.release_emergency (motors s))
           (LedController.set_state "ready" (leds s))
           (camera s) (obstacle_mgr s)
           (mkSafety false now (_watchdog_active (safety s)) (_nav_linked (safety s)))
           (if _nav_linked (safety s) then put_state IDLE (nav s) else nav s).
Proof.
  intros H. unfold SafetyManager.release_emergency. rewrite H.
  unfold with_safety, with_nav, with_leds, with_motors, put_estop_active,
    put_last_command_t. cbn.
  destruct (_nav_linked (safety s)); reflexivity.
Qed.

(** X8. [release_emergency] of the safety manager does nothing while its
    latch is clear.  After a [trigger_emergency] from a clear latch, a
    release at time [now] clears the safety latch and the motor latch, sets
    the watchdog clock to [now], shows the ready pattern, puts a linked
    navigation controller in [IDLE], leaves the motors at rest, and target
    updates are stored again. *)
Theorem release_after_trigger (now l r : Q) (why why' : Reason) (s : System) :
  _estop_active (safety s) = false ->
  let s1 := SafetyManager.trigger_emergency why s in
  let s2 := SafetyManager.release_emergency now why' s1 in
  SafetyManager.release_emergency now why' s = s /\
  _estop_active (safety s2) = false /\
  _last_command_t (safety s2) = now /\
  MotorController._emergency (motors s2) = false /\
  LedController._current_state (leds s2) = "ready" /\
  (_nav_linked (safety s) = true -> _state (nav s2) = IDLE) /\
  MotorController._current_left (motors s2) = 0 /\
  MotorController._current_right (motors s2) = 0 /\
  MotorController._target_left (motors s2) = 0 /\
  MotorController._target_right (motors s2) = 0 /\
  (-100 <= l <= 100 -> -100 <= r <= 100 ->
   MotorController._target_left (MotorController._set_targets l r (motors s2)) == l /\
   MotorController._target_right (MotorController._set_targets l r (motors s2)) == r).
Proof.
  intros He. cbv zeta.
  split.
  { unfold SafetyManager.release_emergency. rewrite He. reflexivity. }
  rewrite (release_emergency_latched now why' _ (trigger_emergency_sets_latch why s)).
  destruct (trigger_emergency_unlatched why s He) as (Hm & Hl & Hn & Hs & _).
  cbn [motors leds safety nav _estop_active _last_command_t].
  rewrite Hm, Hl, Hs. cbn.
  repeat (split; [reflexivity|]).
  split; [intros ->; reflexivity|].
  repeat (split; [reflexivity|]).
  intros Hlr Hrr.
  destruct (clamp_spec (-(100)) 100 l speed_bounds) as (_ & _ & _ & Hcl).
  destruct (clamp_spec (-(100)) 100 r speed_bounds) as (_ & _ & _ & Hcr).
  split; [apply Hcl; lra | apply Hcr; lra].
Qed.

(** The robot latched on an obstacle while moving forward, then released by
    the safety manager at time 100. *)
Lemma release_after_trigger_witness :
  let s2 := SafetyManager.release_emergency 100 (ReasonText "")
              (SafetyManager.trigger_emergency (ReasonText "") robot_moving_forward) in
  _estop_active (safety robot_moving_forward) = false /\
  _estop_active (safety s2) = false /\
  _last_command_t (safety s2) = 100 /\
  MotorController._target_left (MotorController._set_targets 40 (-40) (motors s2)) == 40.
Proof.
  cbv zeta.
  destruct (release_after_trigger 100 40 (-40) (ReasonText "") (ReasonText "")
              robot_moving_forward eq_refl)
    as (_ & H1 & H2 & _ & _ & _ & _ & _ & _ & _ & H3).
  split; [reflexivity|]. split; [exact H1|]. split; [exact H2|].
  apply H3; split; discriminate.
Defined.

(** X9. The warning callback never latches and never touches the robot
    state or the stored speed: it leaves the safety manager, the navigation
    controller and the motor latch as they are and shows the warning
    pattern.  The motors change only when a linked robot is moving forward
    or backward; then, with the motor latch clear, each wheel target gets the
    magnitude max(20, stored speed / 2) brought into [20, 100] and keeps its
    sign. *)
Theorem obstacle_warning_slows_only (sensor : string) (d : Q) (s : System) :
  let s' := SafetyManager._on_obstacle_warning sensor d s in
  let translating :=
    _nav_linked (safety s) = true /\
    (_state (nav s) = MOVING_FORWARD \/ _state (nav s) = MOVING_BACKWARD) in
  let v := py_max 20 (_speed_pct (nav s) * (1 # 2)) in
  safety s' = safety s /\ nav s' = nav s /\
  MotorController._emergency (motors s') = MotorController._emergency (motors s) /\
  LedController._current_state (leds s') = "warning" /\
  (~ translating -> motors s' = motors s) /\
  (translating -> motors s' = MotorController.set_speed_pct v (motors s)) /\
  (translating -> MotorController._emergency (motors s) = false ->
     rescaled v (MotorController._target_left (motors s))
       (MotorController._target_left (motors s')) /\
     rescaled v (MotorController._target_right (motors s))
       (MotorController._target_right (motors s'))).
Proof.
  cbv zeta. unfold SafetyManager._on_obstacle_warning. cbv zeta.
  cbn [safety nav with_leds].
  destruct (_nav_linked (safety s)) eqn:Hl; cbn [andb].
  - destruct (bool_decide (_state (nav s) ∈ [MOVING_FORWARD; MOVING_BACKWARD])) eqn:Hb.
    + apply bool_decide_eq_true in Hb.
      cbn [safety nav motors leds with_motors with_leds].
      split; [reflexivity|]. split; [reflexivity|].
      split.
      { destruct (MotorController._emergency (motors s)) eqn:He.
        - rewrite set_speed_pct_latched by assumption. assumption.
        - apply (set_speed_pct_unlatched _ _ He). }
      split; [reflexivity|].
      split.
      { intros Hn. exfalso. apply Hn. split; [reflexivity|].
        rewrite !elem_of_cons, elem_of_nil in Hb. tauto. }
      split; [reflexivity|].
      intros _ He. destruct (set_speed_pct_unlatched
        (py_max 20 (_speed_pct (nav s) * (1 # 2))) (motors s) He) as (H1 & H2 & _).
      split; assumption.
    + apply bool_decide_eq_false in Hb.
      cbn [safety nav motors leds with_leds].
      repeat (split; [reflexivity|]).
      assert (Hno : ~ (true = true /\
                (_state (nav s) = MOVING_FORWARD \/ _state (nav s) = MOVING_BACKWARD))).
      { intros [_ H]. apply Hb. rewrite !elem_of_cons. tauto. }
      split; intros H; contradiction.
  - cbn [safety nav motors leds with_leds].
    repeat (split; [reflexivity|]).
    split; intros [? _]; discriminate.
Qed.

(** X10. The low-battery callback shows the battery pattern and, for a state
    of charge of 5 or more, changes nothing else; below 5 it goes on to
    [trigger_emergency], so the safety latch is set afterwards and, if it
    was clear before, the motors are latched and at rest. *)
Theorem low_battery_latches_below_five (soc : Q) (s : System) :
  let s' := SafetyManager._on_low_battery soc s in
  (5 <= soc -> s' = with_leds (LedController.set_state "battery_low") s) /\
  (soc < 5 ->
     _estop_active (safety s') = true /\
     (_estop_active (safety s) = false ->
        MotorController._emergency (motors s') = true /\
        MotorController._target_left (motors s') = 0 /\
        MotorController._target_right (motors s') = 0 /\
        LedController._current_state (leds s') = "emergency")).
Proof.
  cbv zeta. unfold SafetyManager._on_low_battery. cbv zeta. split.
  - intros H. apply Qltb_ge in H. rewrite H. reflexivity.
  - intros H. apply Qltb_lt in H. rewrite H.
    split; [apply trigger_emergency_sets_latch|].
    intros He.
    destruct (trigger_emergency_unlatched (ReasonBattery soc)
                (with_leds (LedController.set_state "battery_low") s) He)
      as (Hm & Hl & _).
    rewrite Hm, Hl. repeat split.
Qed.

(** X11. The watchdog is quiet while the safety latch is set, and while no
    more than 15 s have passed since the last heartbeat; so after a
    heartbeat at time [t] a check at any time up to [t + 15] changes
    nothing.  The telemetry entry [watchdog_ok] is true exactly while less
    than 15 s have passed. *)
Theorem watchdog_quiet (now t : Q) (s : System) :
  (_estop_active (safety s) = true -> SafetyManager._watchdog_check now s = s) /\
  (now - _last_command_t (safety s) <= 15 -> SafetyManager._watchdog_check now s = s) /\
  (now <= t + 15 ->
     SafetyManager._watchdog_check now (SafetyManager.heartbeat t s)
       = SafetyManager.heartbeat t s) /\
  (SafetyManager.telemetry_watchdog_ok now (SafetyManager.heartbeat t s) = true
     <-> now - t < 15).
Proof.
  assert (Hq : forall s0, now - _last_command_t (safety s0) <= 15 ->
               SafetyManager._watchdog_check now s0 = s0).
  { intros s0 H. unfold SafetyManager._watchdog_check.
    destruct (_estop_active (safety s0)); [reflexivity|]. cbn [negb].
    apply Qltb_ge in H. unfold SafetyManager.WATCHDOG_TIMEOUT_S. rewrite H. reflexivity. }
  split; [|split; [|split]].
  - intros H. unfold SafetyManager._watchdog_check. rewrite H. reflexivity.
  - apply Hq.
  - intros H. apply Hq. cbn. lra.
  - unfold SafetyManager.telemetry_watchdog_ok. cbn. apply Qltb_lt.
Qed.

(** ** Rounding *)

Lemma round_half_even_error (y : Q) :
  y - (1 # 2) <= inject_Z (round_half_even y) <= y + (1 # 2).
Proof.
  unfold round_half_even.
  pose proof (Qfloor_le y) as Hlo.
  pose proof (Qlt_floor y) as Hhi.
  rewrite inject_Z_plus in Hhi. change (inject_Z 1) with 1 in Hhi.
  set (f := Qfloor y) in *.
  case_Qltb (y - inject_Z f) (1 # 2); [split; lra|].
  case_Qltb (1 # 2) (y - inject_Z f).
  - rewrite inject_Z_plus. change (inject_Z 1) with 1. split; lra.
  - destruct (Z.even f).
    + split; lra.
    + rewrite inject_Z_plus. change (inject_Z 1) with 1. split; lra.
Qed.

Lemma round_half_even_ge (y : Q) (k : Z) :
  inject_Z k <= y -> (k <= round_half_even y)%Z.
Proof.
  intros H. pose proof (round_half_even_error y) as [Hlo _].
  assert (Hq : inject_Z (k - 1) < inject_Z (round_half_even y)).
  { unfold Zminus. rewrite inject_Z_plus, inject_Z_opp. change (inject_Z 1) with 1. lra. }
  rewrite <- Zlt_Qlt in Hq. lia.
Qed.

Lemma round_half_even_le (y : Q) (k : Z) :
  y <= inject_Z k -> (round_half_even y <= k)%Z.
Proof.
  intros H. pose proof (round_half_even_error y) as [_ Hhi].
  assert (Hq : inject_Z (round_half_even y) < inject_Z (k + 1)).
  { rewrite inject_Z_plus. change (inject_Z 1) with 1. lra. }
  rewrite <- Zlt_Qlt in Hq. lia.
Qed.

Lemma pow10_pos (n : nat) : 0 < inject_Z (10 ^ Z.of_nat n).
Proof.
  change 0 with (inject_Z 0). rewrite <- Zlt_Qlt. apply Z.pow_pos_nonneg; lia.
Qed.

Lemma py_round_error (x : Q) (n : nat) :
  let p := inject_Z (10 ^ Z.of_nat n) in
  x - (1 # 2) / p <= py_round x n <= x + (1 # 2) / p.
Proof.
  cbv zeta. unfold py_round.
  pose proof (pow10_pos n) as Hp.
  set (p := inject_Z (10 ^ Z.of_nat n)) in *.
  pose proof (round_half_even_error (x * p)) as [Hlo Hhi].
  set (r := inject_Z (round_half_even (x * p))) in *.
  split.
  - apply Qle_shift_div_l; [assumption|].
    assert (Hx : (x - (1 # 2) / p) * p == x * p - (1 # 2)) by (field; lra).
    rewrite Hx. assumption.
  - apply Qle_shift_div_r; [assumption|].
    assert (Hx : (x + (1 # 2) / p) * p == x * p + (1 # 2)) by (field; lra).
    rewrite Hx. assumption.
Qed.

Lemma py_round_ge_int (x : Q) (n : nat) (k : Z) :
  inject_Z k <= x -> inject_Z k <= py_round x n.
Proof.
  intros H. unfold py_round.
  pose proof (pow10_pos n) as Hp.
  set (pz := (10 ^ Z.of_nat n)%Z) in *.
  assert (Hk : inject_Z (k * pz) <= x * inject_Z pz).
  { rewrite inject_Z_mult. apply Qmult_le_compat_r; lra. }
  apply round_half_even_ge in Hk.
  apply Qle_shift_div_l; [assumption|].
  rewrite <- inject_Z_mult, <- Zle_Qle. assumption.
Qed.

Lemma py_round_le_int (x : Q) (n : nat) (k : Z) :
  x <= inject_Z k -> py_round x n <= inject_Z k.
Proof.
  intros H. unfold py_round.
  pose proof (pow10_pos n) as Hp.
  set (pz := (10 ^ Z.of_nat n)%Z) in *.
  assert (Hk : x * inject_Z pz <= inject_Z (k * pz)).
  { rewrite inject_Z_mult. apply Qmult_le_compat_r; lra. }
  apply round_half_even_le in Hk.
  apply Qle_shift_div_r; [assumption|].
  rewrite <- inject_Z_mult, <- Zle_Qle. assumption.
Qed.

(** X12. The pair that [update_odometry] returns is the stored pose rounded:
    the returned distance is within 0.0005 of the stored distance and is not
    negative when that is not, and the returned heading is within 0.05 of
    the stored heading and lies in [0, 360], the upper end included. *)
Theorem update_odometry_snapshot (m : MotorController.t) :
  let r := fst (MotorController.update_odometry m) in
  let m' := snd (MotorController.update_odometry m) in
  MotorController._dist_m m' - (1 # 2000) <= fst r
    <= MotorController._dist_m m' + (1 # 2000) /\
  (0 <= MotorController._dist_m m -> 0 <= fst r) /\
  MotorController._heading m' - (1 # 20) <= snd r
    <= MotorController._heading m' + (1 # 20) /\
  0 <= snd r <= 360.
Proof.
  cbv zeta. unfold MotorController.update_odometry.
  cbn [fst snd MotorController.with_odometry MotorController._dist_m
       MotorController._heading].
  set (d := MotorController._dist_m m
            + Qabs (MotorController.dist_center (MotorController._ticks_left m)
                      (MotorController._ticks_right m))).
  set (h := py_mod (MotorController._heading m
                    + MotorController.delta_theta (MotorController._ticks_left m)
                        (MotorController._ticks_right m)) 360).
  assert (Hh : 0 <= h < 360) by (apply py_mod_range; reflexivity).
  split; [exact (py_round_error d 3)|].
  split.
  { intros Hd. apply (py_round_ge_int d 3 0).
    pose proof (Qabs_nonneg (MotorController.dist_center (MotorController._ticks_left m)
                               (MotorController._ticks_right m))).
    change (inject_Z 0) with 0. unfold d. lra. }
  split; [exact (py_round_error h 1)|].
  split.
  - apply (py_round_ge_int h 1 0). change (inject_Z 0) with 0. lra.
  - apply (py_round_le_int h 1 360). change (inject_Z 360) with 360. lra.
Qed.

Example rounded_heading_reaches_360 :
  let m := MotorController.with_odometry 0 0 0 (35996 # 100) MotorController.init in
  MotorController._heading (snd (MotorController.update_odometry m)) < 360 /\
  snd (fst (MotorController.update_odometry m)) == 360.
Proof. split; reflexivity. Qed.

(** ** The battery monitor *)

(** X13. The state of charge that the monitor computes from a voltage lies
    in [0, 100]; it is 0 for a voltage of 20 V or less and 100 for 29.4 V or
    more, and between the two it is within 0.05 of the linear
    interpolation. *)
Theorem soc_of_voltage_bounds (v : Q) :
  let soc := BatteryMonitor.soc_of_voltage v in
  0 <= soc <= 100 /\
  (v <= 20 -> soc == 0) /\
  ((294 # 10) <= v -> soc == 100) /\
  (20 <= v <= (294 # 10) ->
     (v - 20) / (94 # 10) * 100 - (1 # 20) <= soc
       <= (v - 20) / (94 # 10) * 100 + (1 # 20)).
Proof.
  cbv zeta. unfold BatteryMonitor.soc_of_voltage. cbv zeta.
  unfold cfg.BATTERY_MIN_V, cfg.BATTERY_MAX_V.
  set (raw := (v - 20) / ((294 # 10) - 20) * 100).
  assert (Hraw : raw == (v - 20) * (1000 # 94)) by (unfold raw; field).
  destruct (clamp_spec 0 100 (py_round raw 1) ltac:(lra)) as (Hr & Hlo & Hhi & Hmid).
  split; [exact Hr|].
  split; [|split].
  - intros Hv. apply Hlo. apply (py_round_le_int raw 1 0).
    change (inject_Z 0) with 0. lra.
  - intros Hv. apply Hhi. apply (py_round_ge_int raw 1 100).
    change (inject_Z 100) with 100. lra.
  - intros [Hv1 Hv2].
    assert (Hin : 0 <= py_round raw 1 <= 100).
    { split.
      - apply (py_round_ge_int raw 1 0). change (inject_Z 0) with 0. lra.
      - apply (py_round_le_int raw 1 100). change (inject_Z 100) with 100. lra. }
    rewrite (Hmid Hin).
    assert (Hsame : (v - 20) / (94 # 10) * 100 == raw) by (unfold raw; field).
    rewrite Hsame. exact (py_round_error raw 1).
Qed.

(** X14. The monitor raises the low-battery callback once per low episode:
    on the first reading whose state of charge is below 15 it sets its flag
    and calls the callback; while the flag is set a further reading below 15
    changes nothing in the robot, not even when the state of charge has
    fallen below 5; a reading of 15 or more clears the flag and changes
    nothing in the robot. *)
Theorem battery_alert_once (v i p : Q) (b : BatteryMonitor.t) (s : System) :
  let soc := BatteryMonitor.soc_of_voltage v in
  let b' := fst (BatteryMonitor._monitor_step v i p b s) in
  let s' := snd (BatteryMonitor._monitor_step v i p b s) in
  BatteryMonitor._soc b' = soc /\ BatteryMonitor._voltage b' = v /\
  (soc < 15 -> BatteryMonitor.alerted b = false ->
     BatteryMonitor.alerted b' = true /\ s' = SafetyManager._on_low_battery soc s) /\
  (soc < 15 -> BatteryMonitor.alerted b = true ->
     BatteryMonitor.alerted b' = true /\ s' = s) /\
  (15 <= soc -> BatteryMonitor.alerted b' = false /\ s' = s).
Proof.
  cbv zeta. unfold BatteryMonitor._monitor_step. cbv zeta.
  unfold cfg.BATTERY_LOW_THRESHOLD.
  case_Qltb (BatteryMonitor.soc_of_voltage v) 15.
  - destruct (BatteryMonitor.alerted b) eqn:Ea; cbn [negb andb].
    + case_Qle_bool 15 (BatteryMonitor.soc_of_voltage v); [lra|].
      cbn. repeat split; intros; try discriminate; try lra; try assumption.
    + cbn. repeat split; intros; try discriminate; lra.
  - cbn [andb]. apply Qle_bool_iff in E. rewrite E. apply Qle_bool_iff in E.
    cbn. repeat split; intros; lra.
Qed.

Example battery_slow_discharge_never_latches :
  let '(b1, s1) := BatteryMonitor._monitor_step (212 # 10) 2 40
                     BatteryMonitor.init robot_moving_forward in
  let '(b2, s2) := BatteryMonitor._monitor_step (203 # 10) 2 40 b1 s1 in
  BatteryMonitor._soc b1 == 128 # 10 /\ BatteryMonitor._soc b2 == 32 # 10 /\
  _estop_active (safety s2) = false /\
  MotorController._emergency (motors s2) = false /\
  _estop_active
    (safety (snd (BatteryMonitor._monitor_step (203 # 10) 2 40
                    BatteryMonitor.init robot_moving_forward))) = true.
Proof. repeat split. Qed.

(** ** The command router: dispatch *)

Lemma getattr_cmd_In (table : list (string * NavigationController.Handler))
    (name : string) (h : NavigationController.Handler) :
  NavigationController.getattr_cmd table name = Some h -> In (name, h) table.
Proof.
  induction table as [|[k h'] rest IH]; [discriminate|].
  cbn [NavigationController.getattr_cmd].
  destruct (String.eqb k name) eqn:E.
  - apply String.eqb_eq in E. intros [= <-]. left. congruence.
  - intros H. right. apply IH, H.
Qed.

Lemma valid_commands_have_handlers :
  Forall (fun a => exists h,
            NavigationController.getattr_cmd NavigationController.handlers a = Some h)
         VALID_COMMANDS.
Proof. unfold VALID_COMMANDS. repeat constructor; eexists; reflexivity. Qed.

Lemma handlers_are_valid_commands :
  Forall (fun kh : string * NavigationController.Handler => fst kh ∈ VALID_COMMANDS)
         NavigationController.handlers.
Proof.
  unfold NavigationController.handlers, VALID_COMMANDS.
  repeat constructor; cbn [fst]; rewrite !elem_of_cons; tauto.
Qed.

(** The three ways [handle_command] ends, whatever the string methods. *)
Lemma handle_command_with_dispatch (py : StrMethods)
    (env : Env) (cmd : Cmd) (s : System) :
  let a := NavigationController.action_with py cmd in
  ((a ∉ VALID_COMMANDS) /\
   NavigationController.handle_command_with py env cmd s
     = (NavigationController._resp false (MsgUnknown a) None s, s)) \/
  (a ∈ VALID_COMMANDS /\ _state (nav s) = EMERGENCY_STOP /\
   a <> "estop_release" /\ a <> "ping" /\
   NavigationController.handle_command_with py env cmd s
     = (NavigationController._resp false MSG_EMERGENCY_ACTIVE None s, s)) \/
  (a ∈ VALID_COMMANDS /\
   (_state (nav s) <> EMERGENCY_STOP \/ a = "estop_release" \/ a = "ping") /\
   exists h, In (a, h) NavigationController.handlers /\
             NavigationController.handle_command_with py env cmd s = h env cmd s).
Proof.
  cbv zeta.
  destruct (decide (NavigationController.action_with py cmd ∈ VALID_COMMANDS)) as [Hv|Hv].
  2: { left. split; [assumption | apply handle_command_with_unknown, Hv]. }
  right.
  destruct (decide (_state (nav s) = EMERGENCY_STOP)) as [Hs|Hs];
    [destruct (decide (NavigationController.action_with py cmd
                         ∈ ["estop_release"; "ping"])) as [Hr|Hr]|].
  - right. split; [assumption|].
    split; [right; rewrite !elem_of_cons, elem_of_nil in Hr; tauto|].
    pose proof valid_commands_have_handlers as Hall.
    rewrite Forall_forall in Hall. destruct (Hall _ Hv) as [h Hh].
    exists h. split; [apply getattr_cmd_In, Hh|].
    unfold NavigationController.handle_command_with. cbv zeta.
    rewrite (bool_decide_eq_true_2 _ Hv), (bool_decide_eq_true_2 _ Hs),
      (bool_decide_eq_true_2 _ Hr), Hh. reflexivity.
  - left. rewrite !elem_of_cons, elem_of_nil in Hr.
    assert (Hr1 : NavigationController.action_with py cmd <> "estop_release") by tauto.
    assert (Hr2 : NavigationController.action_with py cmd <> "ping") by tauto.
    repeat (split; [assumption|]).
    apply handle_command_with_emergency; assumption.
  - right. split; [assumption|]. split; [left; assumption|].
    pose proof valid_commands_have_handlers as Hall.
    rewrite Forall_forall in Hall. destruct (Hall _ Hv) as [h Hh].
    exists h. split; [apply getattr_cmd_In, Hh|].
    unfold NavigationController.handle_command_with. cbv zeta.
    rewrite (bool_decide_eq_true_2 _ Hv), (bool_decide_eq_false_2 _ Hs), Hh.
    reflexivity.
Qed.

Lemma handle_command_dispatch (env : Env) (cmd : Cmd) (s : System) :
  let a := NavigationController.action_of cmd in
  ((a ∉ VALID_COMMANDS) /\
   NavigationController.handle_command env cmd s
     = (NavigationController._resp false (MsgUnknown a) None s, s)) \/
  (a ∈ VALID_COMMANDS /\ _state (nav s) = EMERGENCY_STOP /\
   a <> "estop_release" /\ a <> "ping" /\
   NavigationController.handle_command env cmd s
     = (NavigationController._resp false MSG_EMERGENCY_ACTIVE None s, s)) \/
  (a ∈ VALID_COMMANDS /\
   (_state (nav s) <> EMERGENCY_STOP \/ a = "estop_release" \/ a = "ping") /\
   exists h, In (a, h) NavigationController.handlers /\
             NavigationController.handle_command env cmd s = h env cmd s).
Proof. exact (handle_command_with_dispatch ascii_str env cmd s). Qed.

(** A fact about every handler carries over to every handled command that
    reaches one. *)
Lemma each_handler (P : NavigationController.Handler -> Prop) :
  Forall (fun kh : string * NavigationController.Handler => P (snd kh))
         NavigationController.handlers ->
  forall a h, In (a, h) NavigationController.handlers -> P h.
Proof.
  intros Hall a h Hin. rewrite List.Forall_forall in Hall.
  exact (Hall (a, h) Hin).
Qed.

Ltac each_handler_case :=
  unfold NavigationController.handlers;
  repeat first [ apply List.Forall_nil
               | apply List.Forall_cons; [cbn [snd] | ] ].

(** No handler answers with the unknown-command or the not-implemented
    message. *)
Lemma handlers_own_messages :
  forall a h, In (a, h) NavigationController.handlers ->
  forall e c s0, (forall x, msg (fst (h e c s0)) <> MsgNotImplemented x) /\
                 (forall x, msg (fst (h e c s0)) <> MsgUnknown x).
Proof.
  apply (each_handler (fun h => forall e c s0,
           (forall x, msg (fst (h e c s0)) <> MsgNotImplemented x) /\
           (forall x, msg (fst (h e c s0)) <> MsgUnknown x))).
  each_handler_case; intros e c s0;
    cbv [NavigationController._cmd_forward NavigationController._cmd_backward
         NavigationController._cmd_snapshot];
    repeat match goal with |- context [if ?b then _ else _] => destruct b end;
    split; intros x; discriminate.
Qed.

(** X15. The table of handlers and the set of valid commands agree: every
    valid command has a handler and every handler is named by a valid
    command.  So, whatever [str.lower] and [str.strip] are ([py]),
    [handle_command] never answers that a command is not implemented, and
    it answers that a command is unknown exactly when the action they
    lower-case and strip is not a valid command. *)
Theorem dispatch_is_complete (py : StrMethods) (env : Env) (cmd : Cmd) (s : System) :
  let a := NavigationController.action_with py cmd in
  let r := fst (NavigationController.handle_command_with py env cmd s) in
  (forall name, name ∈ VALID_COMMANDS <->
     exists h, In (name, h) NavigationController.handlers) /\
  (forall x, msg r <> MsgNotImplemented x) /\
  (msg r = MsgUnknown a <-> a ∉ VALID_COMMANDS).
Proof.
  cbv zeta.
  pose proof handlers_own_messages as Hmsg.
  split; [|split].
  - intros name. split.
    + intros Hv. pose proof valid_commands_have_handlers as Hall.
      rewrite Forall_forall in Hall. destruct (Hall _ Hv) as [h Hh].
      exists h. apply getattr_cmd_In, Hh.
    + intros [h Hin]. pose proof handlers_are_valid_commands as Hall.
      rewrite List.Forall_forall in Hall. exact (Hall _ Hin).
  - destruct (handle_command_with_dispatch py env cmd s)
      as [[_ ->]|[(_ & _ & _ & _ & ->)|(_ & _ & h & Hin & ->)]];
      [discriminate | discriminate | apply (Hmsg _ _ Hin)].
  - destruct (handle_command_with_dispatch py env cmd s)
      as [[Hv ->]|[(Hv & _ & _ & _ & ->)|(Hv & _ & h & Hin & ->)]].
    + split; [intros _; assumption | reflexivity].
    + split; [discriminate | contradiction].
    + split; [intros H; exfalso; exact (proj2 (Hmsg _ _ Hin env cmd s) _ H)
             | contradiction].
Qed.

Lemma handle_command_with_reaches (py : StrMethods)
    (env : Env) (cmd : Cmd) (s : System) (h : NavigationController.Handler) :
  NavigationController.getattr_cmd NavigationController.handlers
    (NavigationController.action_with py cmd) = Some h ->
  _state (nav s) <> EMERGENCY_STOP
  \/ NavigationController.action_with py cmd ∈ ["estop_release"; "ping"] ->
  NavigationController.handle_command_with py env cmd s = h env cmd s.
Proof.
  intros Hh Hgate.
  assert (Hv : NavigationController.action_with py cmd ∈ VALID_COMMANDS).
  { pose proof handlers_are_valid_commands as Hall.
    rewrite List.Forall_forall in Hall.
    exact (Hall _ (getattr_cmd_In _ _ _ Hh)). }
  unfold NavigationController.handle_command_with. cbv zeta.
  rewrite (bool_decide_eq_true_2 _ Hv), Hh. cbn [negb].
  destruct Hgate as [Hs|Hr].
  - rewrite (bool_decide_eq_false_2 _ Hs). reflexivity.
  - rewrite (bool_decide_eq_true_2 _ Hr). cbn [negb]. rewrite andb_false_r. reflexivity.
Qed.

Lemma handle_command_reaches (env : Env) (cmd : Cmd) (s : System)
    (h : NavigationController.Handler) :
  NavigationController.getattr_cmd NavigationController.handlers
    (NavigationController.action_of cmd) = Some h ->
  _state (nav s) <> EMERGENCY_STOP
  \/ NavigationController.action_of cmd ∈ ["estop_release"; "ping"] ->
  NavigationController.handle_command env cmd s = h env cmd s.
Proof. exact (handle_command_with_reaches ascii_str env cmd s h). Qed.

(** ** The command router: what commands leave alone *)

(** In [EMERGENCY_STOP] a command that is not [estop_release] changes
    nothing. *)
Lemma emergency_stop_command_kept (py : StrMethods)
    (env : Env) (cmd : Cmd) (s : System) :
  _state (nav s) = EMERGENCY_STOP ->
  NavigationController.action_with py cmd <> "estop_release" ->
  snd (NavigationController.handle_command_with py env cmd s) = s.
Proof.
  intros Hs Hne.
  destruct (String.eqb (NavigationController.action_with py cmd) "ping") eqn:Ep.
  - apply String.eqb_eq in Ep.
    rewrite (handle_command_with_reaches py env cmd s NavigationController._cmd_ping).
    + reflexivity.
    + rewrite Ep. reflexivity.
    + right. rewrite Ep, !elem_of_cons. tauto.
  - apply String.eqb_neq in Ep.
    destruct (handle_command_with_dispatch py env cmd s)
      as [[_ ->]|[(_ & _ & _ & _ & ->)|(_ & [Hx|[Hx|Hx]] & _)]];
      try reflexivity; contradiction.
Qed.

(** X16. Among the commands, only [estop_release] takes the robot out of
    [EMERGENCY_STOP]: whatever [str.lower] and [str.strip] are ([py]), in
    that state a run of commands none of which they lower-case and strip to
    [estop_release] returns the whole system unchanged, whatever the
    commands are (unknown ones, motion, speed, [estop] again, [ping]).
    The watchdog is no command and does leave the state: with the safety
    latch clear, as the [estop] command leaves it, one check of a linked
    safety manager past the timeout puts the robot state back to [IDLE]. *)
Theorem emergency_stop_left_by_release_command_only (py : StrMethods)
    (cmds : list (Env * Cmd)) (s : System) :
  _state (nav s) = EMERGENCY_STOP ->
  (Forall (fun ec => NavigationController.action_with py (snd ec) <> "estop_release")
          cmds ->
   handle_commands_with py cmds s = s) /\
  (forall now : Q,
     _estop_active (safety s) = false ->
     _nav_linked (safety s) = true ->
     SafetyManager.WATCHDOG_TIMEOUT_S < now - _last_command_t (safety s) ->
     _state (nav (SafetyManager._watchdog_check now s)) = IDLE).
Proof.
  intros Hs. split.
  - intros Hall. induction Hall as [|[env cmd] rest Hne _ IH]; [reflexivity|].
    unfold handle_commands_with in *. cbn [fold_left fst snd] in *.
    rewrite (emergency_stop_command_kept py env cmd s Hs Hne). exact IH.
  - intros now He Hl Ht. unfold SafetyManager._watchdog_check.
    rewrite He. cbn [negb]. rewrite (proj2 (Qltb_lt _ _) Ht).
    unfold with_motors, with_nav, with_leds. cbn [safety]. rewrite Hl. reflexivity.
Qed.

(** The robot stopped by [estop] ignores forward, an unknown action, a speed
    change, a second estop and a ping, all ASCII text; a watchdog check
    16 s after the last message puts its state back to [IDLE]. *)
Lemma emergency_stop_left_by_release_command_only_witness :
  handle_commands_with ascii_str
    [(env0, command "forward"); (env0, command "dance");
     (env0, mkCmd (Some "set_speed") (Some 90)); (env0, command "ESTOP");
     (env0, command "ping")]
    robot_estop_by_command
  = robot_estop_by_command /\
  _state (nav robot_estop_by_command) = EMERGENCY_STOP /\
  _state (nav (SafetyManager._watchdog_check
                 (_last_command_t (safety robot_estop_by_command) + 16)
                 robot_estop_by_command)) = IDLE.
Proof.
  destruct (emergency_stop_left_by_release_command_only ascii_str
              [(env0, command "forward"); (env0, command "dance");
               (env0, mkCmd (Some "set_speed") (Some 90)); (env0, command "ESTOP");
               (env0, command "ping")]
              robot_estop_by_command eq_refl) as [Hc Hw].
  split; [apply Hc; repeat constructor; discriminate|].
  split; [reflexivity|].
  apply Hw; [reflexivity | reflexivity | vm_compute; reflexivity].
Defined.

Lemma handlers_leave_safety :
  forall a h, In (a, h) NavigationController.handlers ->
  forall e c s, safety (snd (h e c s)) = safety s
                /\ obstacle_mgr (snd (h e c s)) = obstacle_mgr s.
Proof.
  apply (each_handler (fun h => forall e c s,
           safety (snd (h e c s)) = safety s
           /\ obstacle_mgr (snd (h e c s)) = obstacle_mgr s)).
  each_handler_case; intros e c s;
    cbv [NavigationController._cmd_forward NavigationController._cmd_backward
         NavigationController._cmd_snapshot];
    repeat match goal with |- context [if ?b then _ else _] => destruct b end;
    split; reflexivity.
Qed.

(** X17. No command changes the safety manager or the obstacle readings:
    whatever the command and the state, [handle_command] returns the safety
    latch, the watchdog clock and the readings as they were. *)
Theorem commands_leave_safety_manager (env : Env) (cmd : Cmd) (s : System) :
  let s' := snd (NavigationController.handle_command env cmd s) in
  safety s' = safety s /\ obstacle_mgr s' = obstacle_mgr s.
Proof.
  cbv zeta.
  destruct (handle_command_dispatch env cmd s)
    as [[_ ->]|[(_ & _ & _ & _ & ->)|(_ & _ & h & Hin & ->)]];
    [split; reflexivity | split; reflexivity | apply (handlers_leave_safety _ _ Hin)].
Qed.

Lemma handlers_keep_speed_range :
  forall a h, In (a, h) NavigationController.handlers ->
  forall e c s, 20 <= _speed_pct (nav s) <= 100 ->
                20 <= _speed_pct (nav (snd (h e c s))) <= 100.
Proof.
  apply (each_handler (fun h => forall e c s, 20 <= _speed_pct (nav s) <= 100 ->
           20 <= _speed_pct (nav (snd (h e c s))) <= 100)).
  each_handler_case; intros e c s Hsp;
    cbv [NavigationController._cmd_forward NavigationController._cmd_backward
         NavigationController._cmd_snapshot];
    repeat match goal with |- context [if ?b then _ else _] => destruct b end;
    try exact Hsp.
  - (* speed_up *)
    cbn. unfold py_min, SPEED_STEP.
    case_Qltb (_speed_pct (nav s) + 10) 100; split; lra.
  - (* speed_down *)
    cbn. unfold py_max, SPEED_STEP.
    case_Qltb 20 (_speed_pct (nav s) - 10); split; lra.
  - (* set_speed *)
    cbn. exact (proj1 (clamp_spec 20 100 _ ltac:(lra))).
Qed.

(** X18. The stored speed stays a percentage between 20 and 100: if it lies
    in [20, 100] before a command it lies there after it, whatever the
    command, its value and the state. *)
Theorem stored_speed_stays_in_range (env : Env) (cmd : Cmd) (s : System) :
  20 <= _speed_pct (nav s) <= 100 ->
  20 <= _speed_pct (nav (snd (NavigationController.handle_command env cmd s))) <= 100.
Proof.
  intros Hsp.
  destruct (handle_command_dispatch env cmd s)
    as [[_ ->]|[(_ & _ & _ & _ & ->)|(_ & _ & h & Hin & ->)]];
    [exact Hsp | exact Hsp | apply (handlers_keep_speed_range _ _ Hin), Hsp].
Qed.

(** [set_speed] with the value 250 on the robot at rest stores 100. *)
Lemma stored_speed_stays_in_range_witness :
  20 <= _speed_pct (nav robot_idle) <= 100 /\
  20 <= _speed_pct (nav (snd (NavigationController.handle_command env0
                                (mkCmd (Some "set_speed") (Some 250)) robot_idle)))
     <= 100.
Proof.
  assert (H : 20 <= _speed_pct (nav robot_idle) <= 100) by (split; discriminate).
  split; [exact H|].
  exact (stored_speed_stays_in_range env0 (mkCmd (Some "set_speed") (Some 250))
           robot_idle H).
Defined.

(** ** Obstacle readings and the motion commands *)

Lemma path_clear_reading_iff (name : string) (d : Q) (o : ObstacleManager.t) :
  ObstacleManager.is_path_clear name (ObstacleManager.record_reading name d o) = true
  <-> 15 < d.
Proof.
  unfold ObstacleManager.is_path_clear, ObstacleManager.record_reading.
  cbn [ObstacleManager._readings]. rewrite lookup_insert_eq. cbn [default].
  apply Qltb_lt.
Qed.

(** X19. The readings behave as a map with a clear default: after a reading
    [d] is recorded for a sensor, the path in that direction is clear
    exactly when [d] exceeds 15 cm, the other directions answer as before,
    and a direction with no reading at all counts as clear. *)
Theorem path_clear_after_reading (name direction : string) (d : Q)
    (o : ObstacleManager.t) :
  let o' := ObstacleManager.record_reading name d o in
  (ObstacleManager.is_path_clear name o' = true <-> 15 < d) /\
  (direction <> name ->
     ObstacleManager.is_path_clear direction o'
       = ObstacleManager.is_path_clear direction o) /\
  (ObstacleManager._readings o !! direction = None ->
     ObstacleManager.is_path_clear direction o = true).
Proof.
  cbv zeta. unfold ObstacleManager.is_path_clear, ObstacleManager.record_reading.
  cbn [ObstacleManager._readings]. split; [|split].
  - rewrite lookup_insert_eq. cbn [default]. apply Qltb_lt.
  - intros Hne. rewrite lookup_insert_ne by congruence. reflexivity.
  - intros ->. reflexivity.
Qed.

Lemma trigger_emergency_keeps_readings (r : Reason) (s : System) :
  obstacle_mgr (SafetyManager.trigger_emergency r s) = obstacle_mgr s.
Proof.
  destruct (_estop_active (safety s)) eqn:E.
  - rewrite trigger_emergency_latched by assumption. reflexivity.
  - apply (trigger_emergency_unlatched r s E).
Qed.

Lemma scan_sensor_records (name : string) (d : Q) (s : System) :
  obstacle_mgr (_scan_sensor name d s)
  = ObstacleManager.record_reading name d (obstacle_mgr s).
Proof.
  unfold _scan_sensor. cbv zeta.
  destruct (Qltb d cfg.US_MIN_DISTANCE_CM).
  - unfold SafetyManager._on_obstacle_critical.
    cbn [safety nav with_obstacle_mgr].
    destruct (_nav_linked (safety s)); [|reflexivity].
    cbv zeta.
    match goal with |- context [if ?b then _ else _] => destruct b end;
      [rewrite trigger_emergency_keeps_readings|]; reflexivity.
  - destruct (Qltb d cfg.US_WARNING_DISTANCE_CM); [|reflexivity].
    unfold SafetyManager._on_obstacle_warning. cbv zeta.
    match goal with |- context [if ?b then _ else _] => destruct b end; reflexivity.
Qed.

Lemma blocked_move_refused (env : Env) (cmd : Cmd) (s : System)
    (a sensor : string) (h : NavigationController.Handler) :
  NavigationController.action_of cmd = a ->
  NavigationController.getattr_cmd NavigationController.handlers a = Some h ->
  a <> "estop_release" -> a <> "ping" ->
  (forall e c s0, SafetyManager.is_path_clear sensor s0 = false ->
     ok (fst (h e c s0)) = false /\ snd (h e c s0) = s0) ->
  SafetyManager.is_path_clear sensor s = false ->
  ok (fst (NavigationController.handle_command env cmd s)) = false /\
  snd (NavigationController.handle_command env cmd s) = s.
Proof.
  intros Ha Hh Hr Hp Hblocked Hclear.
  destruct (decide (_state (nav s) = EMERGENCY_STOP)) as [Hs|Hs].
  - rewrite handle_command_emergency; [split; reflexivity | | assumption | |];
      rewrite Ha; try assumption.
    pose proof handlers_are_valid_commands as Hall.
    rewrite List.Forall_forall in Hall.
    exact (Hall _ (getattr_cmd_In _ _ _ Hh)).
  - rewrite (handle_command_reaches env cmd s h);
      [apply Hblocked, Hclear | rewrite Ha; exact Hh | left; exact Hs].
Qed.

(** X20. A close obstacle blocks the matching motion command: once the scan
    loop has measured the front sensor at 15 cm or less, [forward] is
    refused and changes nothing, and likewise [backward] after such a
    measurement of the rear sensor, whatever the state of the robot. *)
Theorem close_obstacle_blocks_motion (env : Env) (cmd : Cmd) (d : Q) (s : System) :
  d <= 15 ->
  (NavigationController.action_of cmd = "forward" ->
     let s1 := _scan_sensor "front" d s in
     ok (fst (NavigationController.handle_command env cmd s1)) = false /\
     snd (NavigationController.handle_command env cmd s1) = s1) /\
  (NavigationController.action_of cmd = "backward" ->
     let s1 := _scan_sensor "rear" d s in
     ok (fst (NavigationController.handle_command env cmd s1)) = false /\
     snd (NavigationController.handle_command env cmd s1) = s1).
Proof.
  intros Hd.
  assert (Hblocked : forall sensor,
            SafetyManager.is_path_clear sensor (_scan_sensor sensor d s) = false).
  { intros sensor. unfold SafetyManager.is_path_clear.
    rewrite scan_sensor_records.
    destruct (ObstacleManager.is_path_clear sensor
                (ObstacleManager.record_reading sensor d (obstacle_mgr s))) eqn:E;
      [|reflexivity].
    apply (path_clear_reading_iff sensor d (obstacle_mgr s)) in E. lra. }
  split; intros Ha; cbv zeta.
  - apply (blocked_move_refused env cmd _ "forward" "front"
             NavigationController._cmd_forward Ha eq_refl);
      [discriminate | discriminate | | apply Hblocked].
    intros e c s0 H. unfold NavigationController._cmd_forward. rewrite H.
    split; reflexivity.
  - apply (blocked_move_refused env cmd _ "backward" "rear"
             NavigationController._cmd_backward Ha eq_refl);
      [discriminate | discriminate | | apply Hblocked].
    intros e c s0 H. unfold NavigationController._cmd_backward. rewrite H.
    split; reflexivity.
Qed.

(** A front obstacle at exactly 15 cm: not critical, yet [forward] is
    refused. *)
Lemma close_obstacle_blocks_motion_witness :
  let s1 := _scan_sensor "front" 15 robot_idle in
  _estop_active (safety s1) = false /\
  ok (fst (NavigationController.handle_command env0 (command "forward") s1)) = false /\
  snd (NavigationController.handle_command env0 (command "forward") s1) = s1.
Proof.
  cbv zeta. split; [reflexivity|].
  assert (H : 15 <= 15) by discriminate.
  exact (proj1 (close_obstacle_blocks_motion env0 (command "forward") 15 robot_idle H)
           eq_refl).
Defined.

(** ** Stopping and resuming by command *)

Lemma cmd_estop_outcome (env : Env) (s : System) :
  let s1 := snd (NavigationController.handle_command env (command "estop") s) in
  _state (nav s1) = EMERGENCY_STOP /\
  _speed_pct (nav s1) = _speed_pct (nav s) /\
  obstacle_mgr s1 = obstacle_mgr s.
Proof.
  cbv zeta.
  destruct (decide (_state (nav s) = EMERGENCY_STOP)) as [Hs|Hs].
  - rewrite handle_command_emergency; try assumption; try discriminate.
    + repeat split. assumption.
    + change ("estop" ∈ VALID_COMMANDS). unfold VALID_COMMANDS.
      rewrite !elem_of_cons. tauto.
  - rewrite (handle_command_reaches env (command "estop") s
               NavigationController._cmd_estop eq_refl (or_introl Hs)).
    repeat split.
Qed.

(** X21. The operator can always resume: from any state, [estop] followed by
    [estop_release] and, the front path being clear, [forward] leaves the
    robot in [MOVING_FORWARD] with the motor latch clear and both wheel
    targets at the stored speed (for a stored speed within [-100, 100]). *)
Theorem estop_release_forward_resumes (e1 e2 e3 : Env) (s : System) :
  SafetyManager.is_path_clear "front" s = true ->
  let s3 := handle_commands
              [(e1, command "estop"); (e2, command "estop_release");
               (e3, command "forward")] s in
  _state (nav s3) = MOVING_FORWARD /\
  MotorController._emergency (motors s3) = false /\
  MotorController._target_left (motors s3) = MotorController._target_right (motors s3) /\
  (-100 <= _speed_pct (nav s) <= 100 ->
     MotorController._target_left (motors s3) == _speed_pct (nav s)) /\
  _speed_pct (nav s3) = _speed_pct (nav s).
Proof.
  intros Hclear. cbv zeta. unfold handle_commands. cbn [fold_left fst snd].
  destruct (cmd_estop_outcome e1 s) as (Hs1 & Hsp1 & Ho1). cbv zeta in Hs1, Hsp1, Ho1.
  set (s1 := snd (NavigationController.handle_command e1 (command "estop") s)) in *.
  rewrite (handle_command_reaches e2 (command "estop_release") s1
             NavigationController._cmd_estop_release eq_refl).
  2: { right. change ("estop_release" ∈ ["estop_release"; "ping"]).
       rewrite !elem_of_cons. tauto. }
  set (s2 := snd (NavigationController._cmd_estop_release e2
                    (command "estop_release") s1)).
  assert (Hs2 : _state (nav s2) <> EMERGENCY_STOP) by discriminate.
  rewrite (handle_command_reaches e3 (command "forward") s2
             NavigationController._cmd_forward eq_refl (or_introl Hs2)).
  unfold NavigationController._cmd_forward.
  assert (Hc2 : SafetyManager.is_path_clear "front" s2 = true).
  { unfold SafetyManager.is_path_clear in *. subst s2. cbn [obstacle_mgr snd
      NavigationController._cmd_estop_release NavigationController._set_state
      with_leds with_nav with_motors]. rewrite Ho1. exact Hclear. }
  rewrite Hc2. cbn [negb snd].
  unfold MotorController.forward.
  cbn [motors nav with_leds with_motors with_nav NavigationController._set_state
       _state put_state _speed_pct default].
  rewrite set_targets_unlatched by reflexivity.
  cbn [MotorController.with_targets MotorController._target_left
       MotorController._target_right MotorController._emergency].
  subst s2. cbn [snd nav motors NavigationController._cmd_estop_release
    NavigationController._set_state with_leds with_nav with_motors put_state
    _speed_pct MotorController.release_emergency MotorController.with_emergency
    MotorController._emergency].
  rewrite Hsp1.
  split; [reflexivity|]. split; [reflexivity|]. split; [reflexivity|].
  split; [|reflexivity].
  intros Hr. exact (proj2 (proj2 (proj2 (clamp_spec (-(100)) 100 _ speed_bounds))) Hr).
Qed.

(** From the robot latched by an obstacle that has since gone. *)
Lemma estop_release_forward_resumes_witness :
  let s := _scan_sensor "front" 999 robot_latched_by_obstacle in
  SafetyManager.is_path_clear "front" s = true /\
  _state (nav s) = EMERGENCY_STOP /\
  _state (nav (handle_commands
                 [(env0, command "estop"); (env0, command "estop_release");
                  (env0, command "forward")] s)) = MOVING_FORWARD.
Proof.
  cbv zeta. split; [reflexivity|]. split; [reflexivity|].
  exact (proj1 (estop_release_forward_resumes env0 env0 env0
                  (_scan_sensor "front" 999 robot_latched_by_obstacle) eq_refl)).
Defined.

(** ** The server: heartbeats and the telemetry pass *)

Lemma handle_command_leaves_safety (env : Env) (cmd : Cmd) (s : System) :
  safety (snd (NavigationController.handle_command env cmd s)) = safety s.
Proof.
  destruct (handle_command_dispatch env cmd s)
    as [[_ ->]|[(_ & _ & _ & _ & ->)|(_ & _ & h & Hin & ->)]];
    [reflexivity | reflexivity | apply (handlers_leave_safety _ _ Hin)].
Qed.

(** X22. Every message that reaches the server counts as a heartbeat, and
    nothing else of the safety manager changes: after a WebSocket message
    received at time [t], be it a command of any kind or text that is not
    JSON, and after an HTTP command, the watchdog clock is [t] and the latch
    is as before, so a watchdog check up to 15 s later changes nothing.  The
    HTTP estop and release endpoints leave the safety manager as it is,
    clock included. *)
Theorem messages_are_heartbeats (t now : Q) (env : Env) (raw : option Cmd)
    (cmd : Cmd) (s : System) :
  let ws := snd (RobotServer._ws_message t env raw s) in
  let http := snd (RobotServer._http_command t env cmd s) in
  safety ws = put_last_command_t t (safety s) /\
  safety http = put_last_command_t t (safety s) /\
  (now <= t + 15 ->
     SafetyManager._watchdog_check now ws = ws /\
     SafetyManager._watchdog_check now http = http) /\
  safety (RobotServer._http_estop env s) = safety s /\
  safety (RobotServer._http_estop_release env s) = safety s.
Proof.
  cbv zeta.
  assert (Hws : safety (snd (RobotServer._ws_message t env raw s))
                = put_last_command_t t (safety s)).
  { unfold RobotServer._ws_message. cbv zeta. destruct raw as [c|]; [|reflexivity].
    pose proof (handle_command_leaves_safety env c (SafetyManager.heartbeat t s)) as H.
    destruct (NavigationController.handle_command env c (SafetyManager.heartbeat t s)).
    exact H. }
  assert (Hhttp : safety (snd (RobotServer._http_command t env cmd s))
                  = put_last_command_t t (safety s)).
  { unfold RobotServer._http_command. apply handle_command_leaves_safety. }
  assert (Hquiet : forall s0, safety s0 = put_last_command_t t (safety s) ->
            now <= t + 15 -> SafetyManager._watchdog_check now s0 = s0).
  { intros s0 Hs0 Hn. unfold SafetyManager._watchdog_check. rewrite Hs0.
    cbn [_estop_active _last_command_t put_last_command_t].
    destruct (_estop_active (safety s)); [reflexivity|]. cbn [negb].
    assert (Hq : Qltb SafetyManager.WATCHDOG_TIMEOUT_S (now - t) = false).
    { apply Qltb_ge. unfold SafetyManager.WATCHDOG_TIMEOUT_S. lra. }
    rewrite Hq. reflexivity. }
  split; [exact Hws|]. split; [exact Hhttp|].
  split; [intros Hn; split; apply Hquiet; assumption|].
  split; apply handle_command_leaves_safety.
Qed.

Lemma fosse_check_below_margin (d : Q) (s : System) :
  d < 198 -> SafetyManager.check_fosse_limits d s = s.
Proof.
  intros Hd. unfold SafetyManager.check_fosse_limits, SafetyManager.FOSSE_LENGTH_M.
  case_Qle_bool (200 - 2) d; [lra|].
  case_Qle_bool 200 d; [lra | reflexivity].
Qed.

Lemma fosse_check_at_limit (d : Q) (s : System) :
  200 <= d -> _estop_active (safety (SafetyManager.check_fosse_limits d s)) = true.
Proof.
  intros Hd. unfold SafetyManager.check_fosse_limits, SafetyManager.FOSSE_LENGTH_M.
  assert (H1 : Qle_bool (200 - 2) d = true) by (apply Qle_bool_iff; lra).
  assert (H2 : Qle_bool 200 d = true) by (apply Qle_bool_iff; lra).
  rewrite H1, H2. apply trigger_emergency_sets_latch.
Qed.

(** X23. The telemetry pass feeds the track-limit check with the distance
    rounded to the millimetre, and the rounding never delays the latch: with
    a stored distance of 200 m or more the safety latch is set after the
    pass, and with a stored distance below 197.9995 m the pass changes
    nothing but the camera overlay. *)
Theorem telemetry_pass_checks_track_limit (s : System) :
  let s' := RobotServer._telemetry_tick s in
  (200 <= MotorController._dist_m (motors s) -> _estop_active (safety s') = true) /\
  (MotorController._dist_m (motors s) < 1979995 # 10000 ->
     motors s' = motors s /\ leds s' = leds s /\ safety s' = safety s /\
     nav s' = nav s /\ obstacle_mgr s' = obstacle_mgr s).
Proof.
  cbv zeta. unfold RobotServer._telemetry_tick. cbv zeta.
  cbn [MotorTelemetry.get_telemetry MotorTelemetry.distance_m motors with_camera].
  split.
  - intros Hd. apply fosse_check_at_limit.
    apply (py_round_ge_int _ 3 200). exact Hd.
  - intros Hd. rewrite fosse_check_below_margin; [repeat split|].
    pose proof (py_round_error (MotorController._dist_m (motors s)) 3) as [_ Hhi].
    cbv zeta in Hhi.
    assert (Hp : (1 # 2) / inject_Z (10 ^ Z.of_nat 3) == 1 # 2000) by reflexivity.
    rewrite Hp in Hhi. lra.
Qed.

(** ** Normalising the action *)

Lemma handlers_read_value_only :
  forall a h, In (a, h) NavigationController.handlers ->
  forall e c c' s, value c = value c' -> h e c s = h e c' s.
Proof.
  apply (each_handler (fun h => forall e c c' s, value c = value c' ->
                                  h e c s = h e c' s)).
  each_handler_case; intros e c c' s Hv; try reflexivity.
  - unfold NavigationController._cmd_set_speed. rewrite Hv. reflexivity.
  - unfold NavigationController._cmd_light_set. rewrite Hv. reflexivity.
Qed.

(** X24. The router reads a command through its lower-cased and stripped
    action and its value only: whatever [str.lower] and [str.strip] are
    ([py]), two commands whose actions they send to the same string and whose
    values agree are handled identically, in result and in effect.  And
    each valid command name, which is ASCII text in lower case with no
    white space around it, is lower-cased and stripped to itself. *)
Theorem commands_match_by_normal_form (py : StrMethods)
    (env : Env) (cmd cmd' : Cmd) (s : System) :
  (NavigationController.action_with py cmd = NavigationController.action_with py cmd' ->
   value cmd = value cmd' ->
   NavigationController.handle_command_with py env cmd s
     = NavigationController.handle_command_with py env cmd' s) /\
  Forall (fun a => NavigationController.action_with ascii_str (command a) = a)
         VALID_COMMANDS.
Proof.
  split; [|unfold VALID_COMMANDS; repeat constructor].
  intros Ha Hv.
  destruct (handle_command_with_dispatch py env cmd s)
    as [[Hn H]|[(Hin & Hs & Hr & Hp & H)|(Hin & Hg & h & Hh & H)]];
    cbv zeta in *; rewrite H.
  - rewrite Ha in Hn |- *. symmetry. apply handle_command_with_unknown, Hn.
  - rewrite Ha in Hin, Hr, Hp. symmetry.
    apply handle_command_with_emergency; assumption.
  - assert (Hgate : _state (nav s) <> EMERGENCY_STOP
                    \/ NavigationController.action_with py cmd
                         ∈ ["estop_release"; "ping"]).
    { destruct Hg as [Hg|Hg]; [left; exact Hg|].
      right. rewrite !elem_of_cons. tauto. }
    pose proof valid_commands_have_handlers as Hall.
    rewrite Forall_forall in Hall. destruct (Hall _ Hin) as [h' Hh'].
    rewrite <- H.
    rewrite (handle_command_with_reaches py env cmd s h' Hh' Hgate).
    rewrite Ha in Hh', Hgate.
    rewrite (handle_command_with_reaches py env cmd' s h' Hh' Hgate).
    apply (handlers_read_value_only _ _ (getattr_cmd_In _ _ _ Hh')), Hv.
Qed.

(** A command whose action, ASCII text, is written with capitals and
    blanks. *)
Lemma commands_match_by_normal_form_witness :
  NavigationController.handle_command_with ascii_str env0
    (mkCmd (Some "  Set_Speed ") (Some 35)) robot_moving_forward
  = NavigationController.handle_command_with ascii_str env0
      (mkCmd (Some "set_speed") (Some 35)) robot_moving_forward.
Proof.
  exact (proj1 (commands_match_by_normal_form ascii_str env0
           (mkCmd (Some "  Set_Speed ") (Some 35)) (mkCmd (Some "set_speed") (Some 35))
           robot_moving_forward) eq_refl eq_refl).
Defined.

(** ** The robot under any run of events *)

Lemma ws_message_safety (t : Q) (env : Env) (raw : option Cmd) (s : System) :
  safety (snd (RobotServer._ws_message t env raw s)) = put_last_command_t t (safety s).
Proof.
  unfold RobotServer._ws_message. cbv zeta. destruct raw as [c|]; [|reflexivity].
  pose proof (handle_command_leaves_safety env c (SafetyManager.heartbeat t s)) as H.
  destruct (NavigationController.handle_command env c (SafetyManager.heartbeat t s)).
  exact H.
Qed.

Lemma obstacle_critical_keeps_latch (name : string) (d : Q) (s : System) :
  _estop_active (safety s) = true ->
  _estop_active (safety (SafetyManager._on_obstacle_critical name d s)) = true.
Proof.
  intros H. unfold SafetyManager._on_obstacle_critical. cbv zeta.
  destruct (_nav_linked (safety s)); [|exact H].
  match goal with |- context [if ?b then _ else _] => destruct b end;
    [apply trigger_emergency_sets_latch | exact H].
Qed.

Lemma obstacle_warning_keeps_safety (name : string) (d : Q) (s : System) :
  safety (SafetyManager._on_obstacle_warning name d s) = safety s.
Proof.
  unfold SafetyManager._on_obstacle_warning. cbv zeta.
  match goal with |- context [if ?b then _ else _] => destruct b end; reflexivity.
Qed.

Lemma run_event_keeps_latch (e : Event) (s : System) :
  _estop_active (safety s) = true ->
  _estop_active (safety (run_event e s)) = true.
Proof.
  intros H. destruct e; cbn [run_event].
  - rewrite ws_message_safety. exact H.
  - unfold RobotServer._http_command. rewrite handle_command_leaves_safety. exact H.
  - unfold RobotServer._http_estop. rewrite handle_command_leaves_safety. exact H.
  - unfold RobotServer._http_estop_release. rewrite handle_command_leaves_safety. exact H.
  - unfold _scan_sensor. cbv zeta.
    destruct (Qltb d cfg.US_MIN_DISTANCE_CM);
      [apply obstacle_critical_keeps_latch; exact H|].
    destruct (Qltb d cfg.US_WARNING_DISTANCE_CM);
      [rewrite obstacle_warning_keeps_safety|]; exact H.
  - apply trigger_emergency_sets_latch.
  - unfold SafetyManager._on_low_battery. cbv zeta.
    destruct (Qltb soc_pct 5); [apply trigger_emergency_sets_latch | exact H].
  - unfold SafetyManager._watchdog_check. rewrite H. exact H.
  - unfold RobotServer._telemetry_tick, SafetyManager.check_fosse_limits. cbv zeta.
    repeat match goal with |- context [if ?b then _ else _] => destruct b end;
      first [apply trigger_emergency_sets_latch | exact H].
  - exact H.
  - exact H.
  - exact H.
  - exact H.
Qed.

(** X25. Nothing that happens to the robot clears the safety manager's
    latch: once it is set, it is still set after any run of messages and
    commands (the release command included), sensor and button callbacks,
    watchdog checks, telemetry passes and motor loop passes. *)
Theorem safety_latch_never_cleared (es : list Event) (s : System) :
  _estop_active (safety s) = true ->
  _estop_active (safety (run_events es s)) = true.
Proof.
  revert s. induction es as [|e es IH]; intros s H; [exact H|].
  unfold run_events in *. cbn [fold_left]. apply IH, run_event_keeps_latch, H.
Qed.

(** The robot latched by an obstacle: the operator releases it by
    WebSocket and by HTTP, drives on, and the button is pressed. *)
Lemma safety_latch_never_cleared_witness :
  _estop_active
    (safety (run_events
               [EvWsMessage 50 env0 (Some (command "estop_release"));
                EvHttpEstopRelease env0;
                EvScan "front" 999;
                EvHttpCommand 51 env0 (command "forward");
                EvRampTick; EvWatchdog 52; EvTelemetry; EvEstopButton]
               robot_latched_by_obstacle)) = true.
Proof. apply safety_latch_never_cleared. reflexivity. Defined.
















(** ** The further properties at concrete inputs *)


(** Forty ticks on each wheel from heading 90, forty against forty, and
    no pulse at a stored heading of 360. *)
Lemma update_odometry_straight_and_spin_witness :
  MotorController._heading
    (snd (MotorController.update_odometry
            (MotorController.with_odometry 40 40 3 90 MotorController.init))) == 90 /\
  MotorController._dist_m
    (snd (MotorController.update_odometry
            (MotorController.with_odometry 40 (-40) 3 90 MotorController.init))) == 3 /\
  MotorController._heading
    (snd (MotorController.update_odometry
            (MotorController.with_odometry 0 0 3 360 MotorController.init))) == 0.
Proof.
  split; [|split].
  - destruct (update_odometry_straight_and_spin
                (MotorController.with_odometry 40 40 3 90 MotorController.init))
      as [H _].
    destruct (H eq_refl) as (_ & Hh & _). apply Hh. split; [discriminate | reflexivity].
  - destruct (update_odometry_straight_and_spin
                (MotorController.with_odometry 40 (-40) 3 90 MotorController.init))
      as (_ & H & _).
    exact (H eq_refl).
  - destruct (update_odometry_straight_and_spin
                (MotorController.with_odometry 0 0 3 360 MotorController.init))
      as (_ & _ & H).
    destruct (H eq_refl eq_refl) as (_ & _ & Hh). apply Hh. reflexivity.
Defined.

(** A warning on the front sensor while moving forward at 60: the targets
    become 30 and nothing is latched. *)
Lemma obstacle_warning_slows_only_witness :
  let s' := SafetyManager._on_obstacle_warning "front" 30 robot_moving_forward in
  motors s' = MotorController.set_speed_pct (py_max 20 (60 * (1 # 2)))
                (motors robot_moving_forward) /\
  MotorController._target_left (motors s') == 30 /\
  _estop_active (safety s') = false.
Proof.
  cbv zeta.
  destruct (obstacle_warning_slows_only "front" 30 robot_moving_forward)
    as (_ & _ & _ & _ & _ & H & _).
  split; [|split; reflexivity].
  apply H. split; [reflexivity | left; reflexivity].
Defined.

(** A state of charge of 12 and one of 4 on the robot moving forward. *)
Lemma low_battery_latches_below_five_witness :
  _estop_active (safety (SafetyManager._on_low_battery 12 robot_moving_forward)) = false /\
  _estop_active (safety (SafetyManager._on_low_battery 4 robot_moving_forward)) = true.
Proof.
  split.
  - destruct (low_battery_latches_below_five 12 robot_moving_forward) as [H _].
    rewrite H by discriminate. reflexivity.
  - destruct (low_battery_latches_below_five 4 robot_moving_forward) as [_ H].
    exact (proj1 (H eq_refl)).
Defined.

(** A heartbeat at 100: a check at 115 is quiet, and at 110 the telemetry
    shows the watchdog as fine. *)
Lemma watchdog_quiet_witness :
  SafetyManager._watchdog_check 115 (SafetyManager.heartbeat 100 robot_moving_forward)
    = SafetyManager.heartbeat 100 robot_moving_forward /\
  SafetyManager.telemetry_watchdog_ok 110
    (SafetyManager.heartbeat 100 robot_moving_forward) = true.
Proof.
  split.
  - destruct (watchdog_quiet 115 100 robot_moving_forward) as (_ & _ & H & _).
    apply H. discriminate.
  - destruct (watchdog_quiet 110 100 robot_moving_forward) as (_ & _ & _ & H).
    apply H. reflexivity.
Defined.

(** 19 V, 30 V and the nominal 24 V. *)
Lemma soc_of_voltage_bounds_witness :
  BatteryMonitor.soc_of_voltage 19 == 0 /\
  BatteryMonitor.soc_of_voltage 30 == 100 /\
  BatteryMonitor.soc_of_voltage 24 == 426 # 10.
Proof.
  split; [|split; [|reflexivity]].
  - apply (soc_of_voltage_bounds 19). discriminate.
  - apply (soc_of_voltage_bounds 30). discriminate.
Defined.

(** 20.3 V, a state of charge of 3.2, read when the flag is already set. *)
Lemma battery_alert_once_witness :
  let b := BatteryMonitor.mk (128 # 10) (212 # 10) 2 40 true in
  BatteryMonitor.soc_of_voltage (203 # 10) < 5 /\
  snd (BatteryMonitor._monitor_step (203 # 10) 2 40 b robot_moving_forward)
    = robot_moving_forward.
Proof.
  cbv zeta. split; [reflexivity|].
  destruct (battery_alert_once (203 # 10) 2 40
              (BatteryMonitor.mk (128 # 10) (212 # 10) 2 40 true) robot_moving_forward)
    as (_ & _ & _ & H & _).
  exact (proj2 (H eq_refl eq_refl)).
Defined.

(** A rear reading of 10 cm on fresh readings; no reading for the right. *)
Lemma path_clear_after_reading_witness :
  let o := ObstacleManager.record_reading "rear" 10 ObstacleManager.init in
  ObstacleManager.is_path_clear "rear" o = false /\
  ObstacleManager.is_path_clear "front" o = true /\
  ObstacleManager.is_path_clear "right" ObstacleManager.init = true.
Proof.
  cbv zeta.
  destruct (path_clear_after_reading "rear" "front" 10 ObstacleManager.init)
    as (H1 & H2 & _).
  destruct (path_clear_after_reading "rear" "right" 10 ObstacleManager.init)
    as (_ & _ & H3).
  split; [|split].
  - apply not_true_is_false. intros E. apply H1 in E. discriminate E.
  - rewrite H2 by discriminate. reflexivity.
  - apply H3. reflexivity.
Defined.

(** Text that is not JSON, received at time 40. *)
Lemma messages_are_heartbeats_witness :
  let s' := snd (RobotServer._ws_message 40 env0 None robot_moving_forward) in
  _last_command_t (safety s') = 40 /\
  SafetyManager._watchdog_check 55 s' = s'.
Proof.
  cbv zeta.
  destruct (messages_are_heartbeats 40 55 env0 None (command "ping")
              robot_moving_forward) as (H1 & _ & H3 & _).
  split; [rewrite H1; reflexivity|].
  apply H3. discriminate.
Defined.

(** The robot moving forward with 200.0002 m on the odometer. *)
Lemma telemetry_pass_checks_track_limit_witness :
  let s := with_motors (MotorController.with_odometry 0 0 (2000002 # 10000) 0)
             robot_moving_forward in
  _estop_active (safety s) = false /\
  _estop_active (safety (RobotServer._telemetry_tick s)) = true /\
  _state (nav (RobotServer._telemetry_tick s)) = EMERGENCY_STOP.
Proof.
  cbv zeta. split; [reflexivity|]. split; [|reflexivity].
  apply (telemetry_pass_checks_track_limit
           (with_motors (MotorController.with_odometry 0 0 (2000002 # 10000) 0)
              robot_moving_forward)).
  discriminate.
Defined.

